(** * Data-source health monitoring: embedding and verification

    Shallow embedding of the XSIAM automation scripts
    [CheckDataSrouceHealthDataset.py], [GetDataSourceHealthTrends.py] and
    [FilterDatasets.py].

    Conventions of the embedding.
    - A JSON number is [VNum q], [q] its exact value.  Equality and order of
      numbers depend on the value only.  Where the scripts compute with
      numbers, [VNum q] is a Python int when the denominator of [q] is 1,
      and otherwise the float [json.loads] reads from the literal, the
      nearest binary64 number: [VNum 1] is [1], [VNum 1.0] is [1.0].
    - A float is a binary64 number: a finite one is kept as its exact value,
      every operation rounds to nearest, ties to even, overflows to an
      infinity and can produce a NaN, as IEEE 754 has it.  The sign of a
      zero is not kept.
    - A JSON object / Python dict read only through [.get] and [[k]] is an
      association list; the insertion-ordered dict [dataset_trends] is an
      association list in insertion order.
    - A Python exception is [Raise e]; [return_error] (CommonServerPython)
      reports the message and ends the script with [SystemExit], which an
      [except Exception] clause does not catch: it is [Exit m].
    - [demisto.executeCommand] is an oracle of the platform; the script's
      state is the log of the commands it has issued. *)

From Stdlib Require Import ZArith QArith Qround List String Bool Lia.
From Stdlib Require Import DecimalString.
From Stdlib Require Import Permutation Sorted.
From Stdlib Require Import Lqa.
From Stdlib Require OrderedTypeEx.
Import ListNotations.

Set Implicit Arguments.
Open Scope Q_scope.

(* ================================================================== *)
(** ** Python values, dicts, exceptions *)

Module Py.

(** The JSON values the query service puts in a row. *)
Inductive value : Type :=
| VNone
| VNum (q : Q)
| VStr (s : string).

(** Python [==] on these values (the equality dict keys are compared with). *)
Definition value_eqb (a b : value) : bool :=
  match a, b with
  | VNone, VNone => true
  | VNum x, VNum y => Qeq_bool x y
  | VStr s, VStr t => String.eqb s t
  | _, _ => false
  end.

Definition row : Type := list (string * value).

(** [r.get(k)] as an option: [None] when the key is absent. *)
Fixpoint lookup (r : row) (k : string) : option value :=
  match r with
  | [] => None
  | (k', v) :: r' => if String.eqb k' k then Some v else lookup r' k
  end.

(** [r.get(k, default)]. *)
Definition get (r : row) (k : string) (default : value) : value :=
  match lookup r k with
  | Some v => v
  | None => default
  end.

Inductive exn : Type :=
| IndexError
| KeyError (k : string)
| TypeError
| AttributeError
| ValueError
| ZeroDivisionError
| OverflowError
| OSError
| CommandError.

Definition Qltb (x y : Q) : bool := negb (Qle_bool y x).

(** Python [round] to the nearest integer, ties to even. *)
Definition round_half_even (x : Q) : Z :=
  let f := Qfloor x in
  match Qcompare (x - inject_Z f) (1 # 2) with
  | Lt => f
  | Gt => (f + 1)%Z
  | Eq => if Z.even f then f else (f + 1)%Z
  end.

(** The decimal step of [round(x, ndigits)]: the exact value [x] rounded to
    [ndigits] decimals, ties to even. *)
Definition round (x : Q) (ndigits : nat) : Q :=
  let p := inject_Z (10 ^ Z.of_nat ndigits) in
  Qred (inject_Z (round_half_even (x * p)) / p).

(** A Python float: a finite binary64 number, kept as its exact value, an
    infinity, or a NaN. *)
Inductive float : Type :=
| Fin (q : Q)
| Inf (negative : bool)
| NaN.

(** [grid x], for [x >= 0] counted in units of 2^-1074 (the spacing of the
    smallest binary64 numbers): the nearest integer with at most 53
    significant bits, ties to the even significand.  [shift x] is the
    number of low bits that are dropped. *)
Definition shift (x : Q) : Z := Z.max 0 (Z.log2 (Qfloor x) - 52).

Definition grid (x : Q) : Z :=
  (round_half_even (x / inject_Z (2 ^ shift x)) * 2 ^ shift x)%Z.

(** The number of units of 2^-1074 in 1. *)
Definition units : Q := inject_Z (2 ^ 1074).

(** The binary64 number nearest to [q >= 0]; from 2^1024 on, infinity. *)
Definition round_pos (q : Q) : float :=
  let j := grid (q * units) in
  if (2 ^ 2098 <=? j)%Z then Inf false else Fin (Qred (inject_Z j / units)).

(** [-x] *)
Definition float_opp (x : float) : float :=
  match x with
  | Fin q => Fin (- q)
  | Inf s => Inf (negb s)
  | NaN => NaN
  end.

(** Rounding to binary64: the float nearest to the exact value [q]. *)
Definition fl (q : Q) : float :=
  if Qltb q 0 then float_opp (round_pos (- q)) else round_pos q.

Arguments grid : simpl never.
Arguments round_pos : simpl never.
Arguments fl : simpl never.

(** [x + y] on floats *)
Definition float_add (x y : float) : float :=
  match x, y with
  | Fin a, Fin b => fl (a + b)
  | Fin _, Inf s => Inf s
  | Inf s, Fin _ => Inf s
  | Inf s, Inf s' => if Bool.eqb s s' then Inf s else NaN
  | _, _ => NaN
  end.

(** [x - y] on floats *)
Definition float_sub (x y : float) : float := float_add x (float_opp y).

(** [x * y] on floats *)
Definition float_mul (x y : float) : float :=
  match x, y with
  | Fin a, Fin b => fl (a * b)
  | Fin a, Inf s => if Qeq_bool a 0 then NaN else Inf (xorb (Qltb a 0) s)
  | Inf s, Fin b => if Qeq_bool b 0 then NaN else Inf (xorb s (Qltb b 0))
  | Inf s, Inf s' => Inf (xorb s s')
  | _, _ => NaN
  end.

(** The IEEE quotient [x / y] for a divisor that is not zero. *)
Definition float_div (x y : float) : float :=
  match x, y with
  | Fin a, Fin b => fl (a / b)
  | Fin _, Inf _ => Fin 0
  | Inf s, Fin b => Inf (xorb s (Qltb b 0))
  | _, _ => NaN
  end.

(** [x < y] and [x <= y] on floats: false when a NaN is compared. *)
Definition float_ltb (x y : float) : bool :=
  match x, y with
  | Fin a, Fin b => Qltb a b
  | Fin _, Inf s => negb s
  | Inf s, Fin _ => s
  | Inf s, Inf s' => s && negb s'
  | _, _ => false
  end.

Definition float_leb (x y : float) : bool :=
  match x, y with
  | Fin a, Fin b => Qle_bool a b
  | Fin _, Inf s => negb s
  | Inf s, Fin _ => s
  | Inf s, Inf s' => s || negb s'
  | _, _ => false
  end.

(** [x == 0] on floats *)
Definition float_is_zero (x : float) : bool :=
  match x with
  | Fin q => Qeq_bool q 0
  | _ => false
  end.

(** [round(x, ndigits)] on a float, for [ndigits >= 0]: the correctly
    rounded decimal, converted back; infinities and NaN round to
    themselves. *)
Definition float_round (x : float) (ndigits : nat) : float :=
  match x with
  | Fin q => fl (round q ndigits)
  | _ => x
  end.

End Py.
Export Py.

(* ================================================================== *)
(** ** XQL queries

    The two queries of [CheckDataSrouceHealthDataset.py] are kept
    structured: what they interpolate is a number.  The trend query
    interpolates a caller's text and is kept as text. *)

Module Xql.

Inductive expr : Type :=
| Field (f : string)
| Current_time
| Const (q : Q)
| Sub (a b : expr)
| Div (a b : expr).

Inductive agg : Type :=
| Max (f : string).

Inductive direction : Type := Asc | Desc.

Inductive stage : Type :=
| Config_timeframe (hours : Z)
| Dataset (name : string)
| Filter_ge (f : string) (bound : Q)
| Sort (f : string) (o : direction)
| Fields (fs : list string)
| Comp (a : agg) (alias : string)
| Alter (alias : string) (e : expr).

Definition query : Type := list stage.

End Xql.

(* ================================================================== *)
(** ** The platform: entries, commands, the script monad *)

Module Demisto.

(** [Contents] of an entry: a dict that may hold a ['results'] list, or
    anything else (an error text), on which [.get] raises. *)
Inductive contents : Type :=
| CDict (results : option (list row))
| CText (s : string).

Record entry : Type := mkEntry {
  entry_Type : option Z;
  entry_Contents : option contents
}.

(** [entryTypes['error']] of CommonServerPython. *)
Definition entryTypes_error : Z := 4.
Definition entryTypes_note : Z := 1.

Inductive arg : Type :=
| AQuery (q : Xql.query)
| AStr (s : string).

Record command : Type := mkCommand {
  command_name : string;
  command_args : list (string * arg)
}.

Inductive exec_result : Type :=
| ExecRaises (e : exn)
| ExecReturns (results : list entry).

(** The exceptions [datetime.datetime.fromtimestamp] raises on a number:
    [ValueError] for a year out of range, [OverflowError] or [OSError] for
    a number the platform's [time_t] cannot hold. *)
Inductive range_error : Type :=
| YearOutOfRange
| TimestampOverflow
| TimestampOSError.

Definition exn_of_range_error (r : range_error) : exn :=
  match r with
  | YearOutOfRange => ValueError
  | TimestampOverflow => OverflowError
  | TimestampOSError => OSError
  end.

(** What the scripts take from their environment. *)
Record platform : Type := mkPlatform {
  (** [demisto.executeCommand] *)
  oracle : command -> exec_result;
  (** [demisto.args()] *)
  args : row;
  (** [datetime.datetime.fromtimestamp(x).strftime('%Y-%m-%d %H:%M:%S UTC')];
      [None] where [fromtimestamp] raises. *)
  strftime_fromtimestamp : Q -> option string;
  (** The exception [fromtimestamp(x)] raises where it does. *)
  fromtimestamp_error : Q -> range_error;
  (** [float(s)] on a string; [None] where it raises [ValueError]. *)
  float_of_string : string -> option Q;
  (** [datetime.datetime.utcnow().strftime(...)] *)
  utcnow_strftime : string
}.

(** Messages handed to [return_error]; the f-string is kept structured. *)
Inductive message : Type :=
| Failed_to_query_health_dataset (c : option contents)
| Error_checking_health_dataset (e : exn)
| Health_dataset_is_stale (minutes_old : value)
| Failed_to_get_trends (c : option contents)
| Error_analyzing_trends (e : exn).

Inductive outcome (A : Type) : Type :=
| Val (a : A)
| Raise (e : exn)
| Exit (m : message).

Arguments Val {A} a.
Arguments Raise {A} e.
Arguments Exit {A} m.

(** Pure, fallible computations. *)
Definition obind {A B} (c : outcome A) (k : A -> outcome B) : outcome B :=
  match c with
  | Val a => k a
  | Raise e => Raise e
  | Exit m => Exit m
  end.

(** Script computations: the state is the log of issued commands. *)
Definition M (A : Type) : Type := list command -> outcome A * list command.

Definition ret {A} (a : A) : M A := fun log => (Val a, log).

Definition bind {A B} (c : M A) (k : A -> M B) : M B :=
  fun log =>
    match c log with
    | (Val a, log') => k a log'
    | (Raise e, log') => (Raise e, log')
    | (Exit m, log') => (Exit m, log')
    end.

Definition lift {A} (c : outcome A) : M A := fun log => (c, log).

Definition return_error {A} (m : message) : M A := fun log => (Exit m, log).

(** [try: c except Exception as e: h e] *)
Definition try_except {A} (c : M A) (h : exn -> M A) : M A :=
  fun log =>
    match c log with
    | (Raise e, log') => h e log'
    | r => r
    end.

(** [try: c except: h], which also catches [SystemExit]. *)
Definition try_except_all {A} (c : M A) (h : M A) : M A :=
  fun log =>
    match c log with
    | (Val a, log') => (Val a, log')
    | (_, log') => h log'
    end.

Definition executeCommand (d : platform) (c : command) : M (list entry) :=
  fun log =>
    match oracle d c with
    | ExecRaises e => (Raise e, log ++ [c])
    | ExecReturns results => (Val results, log ++ [c])
    end.

End Demisto.
Export Demisto.

Declare Scope script_scope.
Delimit Scope script_scope with script.
Notation "x <- c ;; k" := (bind c (fun x => k))
  (at level 61, c at next level, right associativity) : script_scope.
Notation "c ;;; k" := (bind c (fun _ => k))
  (at level 61, right associativity) : script_scope.
Notation "x <~ c ;; k" := (obind c (fun x => k))
  (at level 61, c at next level, right associativity) : script_scope.

(** Accessors shared by the scripts. *)

(** [results[0]] *)
Definition first_entry (results : list entry) : outcome entry :=
  match results with
  | [] => Raise IndexError
  | e :: _ => Val e
  end.

(** [results[0].get('Type') == entryTypes['error']] *)
Definition type_is_error (e : entry) : bool :=
  match entry_Type e with
  | Some t => Z.eqb t entryTypes_error
  | None => false
  end.

(** [not results or results[0].get('Type') == entryTypes['error']] *)
Definition empty_or_error (results : list entry) : bool :=
  match results with
  | [] => true
  | e :: _ => type_is_error e
  end.

(** [results[0].get('Contents', {}).get('results', [])] *)
Definition contents_results (e : entry) : outcome (list row) :=
  match entry_Contents e with
  | None => Val []
  | Some (CDict None) => Val []
  | Some (CDict (Some rows)) => Val rows
  | Some (CText _) => Raise AttributeError
  end.

Definition xdr_xql_generic_query : string := "xdr-xql-generic-query".
Definition data_source_health : string := "custom.data_source_health".

(* ================================================================== *)
(** ** Python arithmetic on ints and floats *)

Module Number.

Local Open Scope script_scope.

(** A Python number: an int of any size, or a float. *)
Inductive number : Type :=
| PInt (z : Z)
| PFloat (f : float).

(** The Python number a JSON number is read as. *)
Definition number_of (q : Q) : number :=
  match Qden q with
  | xH => PInt (Qnum q)
  | _ => PFloat (fl q)
  end.

(** [float(z)] for an int: [OverflowError] when it is too large. *)
Definition float_of_int (z : Z) : outcome float :=
  match fl (inject_Z z) with
  | Inf _ => Raise OverflowError
  | f => Val f
  end.

(** The operand of a float operation: an int is converted first. *)
Definition to_float (n : number) : outcome float :=
  match n with
  | PInt z => float_of_int z
  | PFloat f => Val f
  end.

(** [a + b]: exact on ints, a float sum as soon as one operand is a float. *)
Definition add (a b : number) : outcome number :=
  match a, b with
  | PInt x, PInt y => Val (PInt (x + y))
  | _, _ =>
      x <~ to_float a ;;
      y <~ to_float b ;;
      Val (PFloat (float_add x y))
  end.

(** [x / y] on floats *)
Definition float_truediv (x y : float) : outcome float :=
  if float_is_zero y then Raise ZeroDivisionError else Val (float_div x y).

(** [a / b] on ints: the correctly rounded quotient, [OverflowError] when
    it is too large for a float. *)
Definition int_truediv (a b : Z) : outcome float :=
  if (b =? 0)%Z then Raise ZeroDivisionError
  else match fl (inject_Z a / inject_Z b) with
       | Inf _ => Raise OverflowError
       | f => Val f
       end.

(** [a / b] *)
Definition truediv (a b : number) : outcome float :=
  match a, b with
  | PInt x, PInt y => int_truediv x y
  | _, _ =>
      x <~ to_float a ;;
      y <~ to_float b ;;
      float_truediv x y
  end.

End Number.
Export Number.

(* ================================================================== *)
(** ** CheckDataSrouceHealthDataset.py *)

Module CheckHealth.

Local Open Scope script_scope.

Record dataset_info : Type := mkInfo {
  dataset : value;
  last_seen : string;
  last_seen_timestamp : value;
  hours_silent : value;
  severity : value;
  event_count : value;
  status : value;
  last_check : string
}.

Record verdict : Type := mkVerdict {
  is_fresh : bool;
  minutes_old : value;
  last_update : value
}.

(** The readable output of [main], kept structured (no string rendering). *)
Inductive readable : Type :=
| Found_silent (count : nat) (minutes_old : value)
    (table : list (value * string * value * value * value))
| All_normal (checked_at : string).

(** The arguments of [return_outputs]. *)
Record outputs : Type := mkOutputs {
  readable_output : readable;
  SilentDataSources : list dataset_info;
  DatasetFreshness : verdict;
  raw_response : list dataset_info
}.

Definition xql_query (threshold_hours : Q) : Xql.query :=
  [ Xql.Config_timeframe 1;
    Xql.Dataset data_source_health;
    Xql.Filter_ge "hours_silent" threshold_hours;
    Xql.Sort "hours_silent" Xql.Desc;
    Xql.Fields [ "dataset_name"; "last_seen_time"; "hours_silent"; "severity";
                 "event_count_last_hour"; "status"; "check_time" ]%string ].

Definition health_command (threshold_hours : Q) : command :=
  mkCommand xdr_xql_generic_query
    [ ("query", AQuery (xql_query threshold_hours));
      ("time_frame", AStr "custom");
      ("start_time", AStr "1 hour ago") ]%string.

Definition freshness_query : Xql.query :=
  [ Xql.Config_timeframe 2;
    Xql.Dataset data_source_health;
    Xql.Comp (Xql.Max "check_time") "latest_check";
    Xql.Alter "minutes_old"
      (Xql.Div (Xql.Sub Xql.Current_time (Xql.Field "latest_check")) (Xql.Const 60));
    Xql.Fields [ "latest_check"; "minutes_old" ]%string ].

Definition freshness_command : command :=
  mkCommand xdr_xql_generic_query [ ("query", AQuery freshness_query) ]%string.

(** [datetime.datetime.fromtimestamp(v).strftime(...)] *)
Definition fromtimestamp_strftime (d : platform) (v : value) : outcome string :=
  match v with
  | VNum q =>
      match strftime_fromtimestamp d q with
      | Some s => Val s
      | None => Raise (exn_of_range_error (fromtimestamp_error d q))
      end
  | _ => Raise TypeError
  end.

(** The dict literal built for one row (lines 40-53). *)
Definition make_dataset_info (d : platform) (r : row) : outcome dataset_info :=
  seen <~ fromtimestamp_strftime d (get r "last_seen_time" (VNum 0)) ;;
  check <~ fromtimestamp_strftime d (get r "check_time" (VNum 0)) ;;
  Val {| dataset := get r "dataset_name" VNone;
         last_seen := seen;
         last_seen_timestamp := get r "last_seen_time" (VNum 0);
         hours_silent := get r "hours_silent" (VNum 0);
         severity := get r "severity" (VStr "Unknown");
         event_count := get r "event_count_last_hour" (VNum 0);
         status := get r "status" (VStr "Unknown");
         last_check := check |}.

(** The [for row in query_results] loop (lines 38-54). *)
Fixpoint format_rows (d : platform) (query_results : list row)
    (silent_datasets : list dataset_info) : outcome (list dataset_info) :=
  match query_results with
  | [] => Val silent_datasets
  | r :: rest =>
      info <~ make_dataset_info d r ;;
      format_rows d rest (silent_datasets ++ [info])
  end.

Definition check_health_dataset (d : platform) (threshold_hours : Q)
  : M (list dataset_info) :=
  try_except
    (results <- executeCommand d (health_command threshold_hours) ;;
     (if empty_or_error results
      then e <- lift (first_entry results) ;;
           return_error (Failed_to_query_health_dataset (entry_Contents e))
      else ret tt) ;;;
     e <- lift (first_entry results) ;;
     query_results <- lift (contents_results e) ;;
     lift (format_rows d query_results []))
    (fun e => return_error (Error_checking_health_dataset e)).

Definition not_fresh : verdict :=
  {| is_fresh := false; minutes_old := VNum 999; last_update := VNone |}.

(** [v < n] for a number [n]: raises [TypeError] on [None] and on strings. *)
Definition py_lt (v : value) (n : Q) : outcome bool :=
  match v with
  | VNum q => Val (Qltb q n)
  | _ => Raise TypeError
  end.

Definition verify_dataset_freshness (d : platform) : M verdict :=
  try_except_all
    (results <- executeCommand d freshness_command ;;
     match results with
     | e :: _ =>
         if negb (type_is_error e) then
           data <- lift (contents_results e) ;;
           match data with
           | r0 :: _ =>
               fresh <- lift (py_lt (get r0 "minutes_old" (VNum 999)) 35) ;;
               ret {| is_fresh := fresh;
                      minutes_old := get r0 "minutes_old" (VNum 999);
                      last_update := get r0 "latest_check" VNone |}
           | [] => ret not_fresh
           end
         else ret not_fresh
     | [] => ret not_fresh
     end)
    (ret not_fresh).

(** [float(v)] *)
Definition py_float (d : platform) (v : value) : outcome Q :=
  match v with
  | VNum q => Val q
  | VStr s =>
      match float_of_string d s with
      | Some q => Val q
      | None => Raise ValueError
      end
  | VNone => Raise TypeError
  end.

Definition table_line (ds : dataset_info) : value * string * value * value * value :=
  (dataset ds, last_seen ds, hours_silent ds, severity ds, status ds).

Definition main (d : platform) : M outputs :=
  threshold_hours <- lift (py_float d (get (args d) "threshold_hours" (VNum 1))) ;;
  freshness <- verify_dataset_freshness d ;;
  (if negb (is_fresh freshness)
   then return_error (Health_dataset_is_stale (minutes_old freshness))
   else ret tt) ;;;
  silent_datasets <- check_health_dataset d threshold_hours ;;
  let readable :=
    match silent_datasets with
    | _ :: _ => Found_silent (List.length silent_datasets) (minutes_old freshness)
                  (map table_line silent_datasets)
    | [] => All_normal (utcnow_strftime d)
    end in
  ret {| readable_output := readable;
         SilentDataSources := silent_datasets;
         DatasetFreshness := freshness;
         raw_response := silent_datasets |}.

End CheckHealth.

(* ================================================================== *)
(** ** GetDataSourceHealthTrends.py *)

Module HealthTrends.

Local Open Scope script_scope.

Record trend : Type := mkTrend {
  dataset : value;
  recent_avg_silent : float;
  older_avg_silent : float;
  change_percent : float
}.

Record trends_result : Type := mkTrends {
  raw_trends : list row;
  trending_worse : list trend;
  trending_better : list trend;
  dataset_count : nat
}.

(** The double-quote character. *)
Definition quote : string := String (Ascii.ascii_of_nat 34) EmptyString.

(** [str(z)] of an int, as an f-string renders it. *)
Definition str_of_int (z : Z) : string := NilZero.string_of_int (Z.to_int z).

(** Line 15: the name is pasted between two quotes when it is truthy
    (neither [None] nor the empty string). *)
Definition dataset_filter (dataset_name : option string) : string :=
  match dataset_name with
  | None => ""
  | Some EmptyString => ""
  | Some n => "| filter dataset_name = " ++ quote ++ n ++ quote
  end%string.

(** The f-string of lines 17-30, character by character. *)
Definition xql_query (dataset_name : option string) (timeframe_hours : Z)
  : string :=
  ("
    config timeframe = " ++ str_of_int timeframe_hours ++ "h
    | dataset = custom.data_source_health
    " ++ dataset_filter dataset_name ++ "
    | bin check_time span=1h as hour_bucket
    | stats 
        avg(hours_silent) as avg_hours_silent,
        max(hours_silent) as max_hours_silent,
        count() as check_count,
        countif(status = " ++ quote ++ "Silent" ++ quote ++ ") as silent_count
      by hour_bucket, dataset_name
    | alter silent_percentage = (silent_count / check_count) * 100
    | sort hour_bucket asc
    ")%string.

Definition trends_command (dataset_name : option string) (timeframe_hours : Z)
  : command :=
  mkCommand xdr_xql_generic_query
    [ ("query", AStr (xql_query dataset_name timeframe_hours)) ]%string.

(** The insertion-ordered dict [dataset_trends]. *)
Definition dict : Type := list (value * list row).

(** [if k not in d: d[k] = []] followed by [d[k].append(r)]. *)
Fixpoint dict_append (dt : dict) (k : value) (r : row) : dict :=
  match dt with
  | [] => [(k, [r])]
  | (k', l) :: dt' =>
      if value_eqb k' k then (k', l ++ [r]) :: dt'
      else (k', l) :: dict_append dt' k r
  end.

(** The grouping loop (lines 47-52). *)
Definition group_by_dataset (trend_data : list row) : dict :=
  fold_left (fun dt r => dict_append dt (get r "dataset_name" VNone) r)
            trend_data [].

(** [t['avg_hours_silent']] *)
Definition getitem (r : row) (k : string) : outcome value :=
  match lookup r k with
  | Some v => Val v
  | None => Raise (KeyError k)
  end.

(** [acc + v] with a number on the left. *)
Definition py_add (acc : number) (v : value) : outcome number :=
  match v with
  | VNum q => add acc (number_of q)
  | _ => Raise TypeError
  end.

(** [sum(t['avg_hours_silent'] for t in ts)]: the additions from left to
    right, starting from the accumulator [acc] (the int 0), each float
    addition rounded, as CPython 3.11 and earlier make them (later versions
    also carry a correction term through a float sum). *)
Fixpoint sum_avg_hours_silent (ts : list row) (acc : number) : outcome number :=
  match ts with
  | [] => Val acc
  | t :: rest =>
      v <~ getitem t "avg_hours_silent" ;;
      acc' <~ py_add acc v ;;
      sum_avg_hours_silent rest acc'
  end.

(** [trends[-3:]] and [trends[:-3]] *)
Definition last3 (trends : list row) : list row :=
  skipn (List.length trends - 3) trends.
Definition but_last3 (trends : list row) : list row :=
  firstn (List.length trends - 3) trends.

(** [sum(... for t in trends[-3:]) / min(3, len(trends))] *)
Definition recent_avg_of (trends : list row) : outcome float :=
  s <~ sum_avg_hours_silent (last3 trends) (PInt 0) ;;
  truediv s (PInt (Z.min 3 (Z.of_nat (List.length trends)))).

(** [sum(... for t in trends[:-3]) / max(1, len(trends) - 3)] *)
Definition older_avg_of (trends : list row) : outcome float :=
  s <~ sum_avg_hours_silent (but_last3 trends) (PInt 0) ;;
  truediv s (PInt (Z.max 1 (Z.of_nat (List.length trends) - 3))).

(** The dict literal appended in both branches (lines 62-67, 69-74); the
    int [100] is converted to the float [100.0]. *)
Definition make_trend (ds_name : value) (recent_avg older_avg : float)
  : outcome trend :=
  ratio <~ float_truediv (float_sub recent_avg older_avg) older_avg ;;
  Val {| dataset := ds_name;
         recent_avg_silent := float_round recent_avg 2;
         older_avg_silent := float_round older_avg 2;
         change_percent := float_round (float_mul ratio (Fin 100)) 1 |}.

(** One iteration of [for ds_name, trends in dataset_trends.items()]; the
    state is the pair [(trending_worse, trending_better)]. *)
Definition analyze_dataset (ds_name : value) (trends : list row)
    (st : list trend * list trend) : outcome (list trend * list trend) :=
  if (2 <=? List.length trends)%nat then
    recent_avg <~ recent_avg_of trends ;;
    older_avg <~ older_avg_of trends ;;
    if float_ltb (float_mul older_avg (Fin 1.5)) recent_avg then
      t <~ make_trend ds_name recent_avg older_avg ;;
      Val (fst st ++ [t], snd st)
    else if float_ltb recent_avg (float_mul older_avg (Fin 0.5)) then
      t <~ make_trend ds_name recent_avg older_avg ;;
      Val (fst st, snd st ++ [t])
    else Val st
  else Val st.

Fixpoint analyze_all (items : dict) (st : list trend * list trend)
  : outcome (list trend * list trend) :=
  match items with
  | [] => Val st
  | (ds_name, trends) :: rest =>
      st' <~ analyze_dataset ds_name trends st ;;
      analyze_all rest st'
  end.

(** Lines 42-81: everything after [trend_data] is read. *)
Definition analyze (trend_data : list row) : outcome trends_result :=
  let dataset_trends := group_by_dataset trend_data in
  st <~ analyze_all dataset_trends ([], []) ;;
  Val {| raw_trends := trend_data;
         trending_worse := fst st;
         trending_better := snd st;
         dataset_count := List.length dataset_trends |}.

Definition get_health_trends (d : platform) (dataset_name : option string)
    (timeframe_hours : Z) : M trends_result :=
  try_except
    (results <- executeCommand d (trends_command dataset_name timeframe_hours) ;;
     (if empty_or_error results
      then e <- lift (first_entry results) ;;
           return_error (Failed_to_get_trends (entry_Contents e))
      else ret tt) ;;;
     e <- lift (first_entry results) ;;
     trend_data <- lift (contents_results e) ;;
     lift (analyze trend_data))
    (fun e => return_error (Error_analyzing_trends e)).

End HealthTrends.

(* ================================================================== *)
(** ** The query engine *)

Module XqlModel.

(** Modelled from the spec: the XQL engine that evaluates the query texts
    behind [xdr-xql-generic-query] is missing from the repository.  Its
    stages are given the meaning sections 4.1 and 4.2 of the specification
    state for them: [filter f >= t] keeps the records whose [f] is at least
    [t]; [sort f desc] orders them by decreasing [f], ties in input order;
    [comp max(f)] is the maximum of [f] over the window; [alter] adds a
    computed field; [fields] keeps the named fields.  The record store
    hands out the records of a dataset inside a lookback window and the
    current time.  [bin] and [stats] are not modelled. *)
Record store : Type := mkStore {
  current_time : Q;
  window : string -> Z -> list row
}.

Definition num_field (r : row) (f : string) : option Q :=
  match lookup r f with
  | Some (VNum q) => Some q
  | _ => None
  end.

Definition at_least (f : string) (bound : Q) (r : row) : bool :=
  match num_field r f with
  | Some q => Qle_bool bound q
  | None => false
  end.

(** [may_precede o a b]: in direction [o], a record with key [a] may stand
    before one with key [b]; records without a numeric key go last. *)
Definition may_precede (o : Xql.direction) (a b : option Q) : bool :=
  match a, b with
  | Some x, Some y =>
      match o with Xql.Desc => Qle_bool y x | Xql.Asc => Qle_bool x y end
  | Some _, None => true
  | None, Some _ => false
  | None, None => true
  end.

Fixpoint insert_row (f : string) (o : Xql.direction) (r : row) (sorted : list row)
  : list row :=
  match sorted with
  | [] => [r]
  | r' :: rest =>
      if may_precede o (num_field r f) (num_field r' f)
      then r :: r' :: rest
      else r' :: insert_row f o r rest
  end.

(** Modelled from the spec: the [sort] stage of the missing XQL engine,
    "ties: stable, input order preserved" (section 4.2), as a stable
    insertion sort. *)
Fixpoint sort_rows (f : string) (o : Xql.direction) (rows : list row) : list row :=
  match rows with
  | [] => []
  | r :: rest => insert_row f o r (sort_rows f o rest)
  end.

Fixpoint eval_expr (now : Q) (r : row) (e : Xql.expr) : option Q :=
  match e with
  | Xql.Field f => num_field r f
  | Xql.Current_time => Some now
  | Xql.Const q => Some q
  | Xql.Sub a b =>
      match eval_expr now r a, eval_expr now r b with
      | Some x, Some y => Some (x - y)
      | _, _ => None
      end
  | Xql.Div a b =>
      match eval_expr now r a, eval_expr now r b with
      | Some x, Some y => if Qeq_bool y 0 then None else Some (x / y)
      | _, _ => None
      end
  end.

Definition value_of (q : option Q) : value :=
  match q with
  | Some x => VNum x
  | None => VNone
  end.

Definition Qmaxb (x y : Q) : Q := if Qle_bool x y then y else x.

(** The numeric values of field [f], in record order. *)
Fixpoint column (f : string) (rows : list row) : list Q :=
  match rows with
  | [] => []
  | r :: rest =>
      match num_field r f with
      | Some q => q :: column f rest
      | None => column f rest
      end
  end.

Definition maximum (qs : list Q) : option Q :=
  match qs with
  | [] => None
  | q :: rest => Some (fold_left Qmaxb rest q)
  end.

Definition keep_fields (fs : list string) (r : row) : row :=
  flat_map (fun f => match lookup r f with
                     | Some v => [(f, v)]
                     | None => []
                     end) fs.

(** Modelled from the spec: one stage of the missing XQL engine, for the
    stages the two structured queries use. *)
Definition eval_stage (now : Q) (st : Xql.stage) (rows : list row)
  : option (list row) :=
  match st with
  | Xql.Filter_ge f bound => Some (filter (at_least f bound) rows)
  | Xql.Sort f o => Some (sort_rows f o rows)
  | Xql.Fields fs => Some (map (keep_fields fs) rows)
  | Xql.Comp (Xql.Max f) alias =>
      match maximum (column f rows) with
      | Some m => Some [[(alias, VNum m)]]
      | None => Some []
      end
  | Xql.Alter alias e =>
      Some (map (fun r => (alias, value_of (eval_expr now r e)) :: r) rows)
  | _ => None
  end.

Fixpoint eval_stages (now : Q) (sts : list Xql.stage) (rows : list row)
  : option (list row) :=
  match sts with
  | [] => Some rows
  | st :: rest =>
      match eval_stage now st rows with
      | Some rows' => eval_stages now rest rows'
      | None => None
      end
  end.

(** Modelled from the spec: a query of the missing XQL engine starts from
    the records of its dataset inside its timeframe and runs its stages in
    order. *)
Definition run (s : store) (q : Xql.query) : option (list row) :=
  match q with
  | Xql.Config_timeframe hours :: Xql.Dataset name :: sts =>
      eval_stages (current_time s) sts (window s name hours)
  | _ => None
  end.

Definition note (rows : list row) : entry :=
  mkEntry (Some entryTypes_note) (Some (CDict (Some rows))).

(** The platform answers a query command from the store [s]. *)
Definition serves (d : platform) (s : store) (q : Xql.query) (c : command) : Prop :=
  exists rows, run s q = Some rows /\ oracle d c = ExecReturns [note rows].

End XqlModel.

(* ================================================================== *)
(** ** Vocabulary of the statements and sample environments *)

Module Samples.

Import XqlModel.

Definition health_record (name : string) (hours seen check : Q) (st : string) : row :=
  [ ("dataset_name", VStr name);
    ("last_seen_time", VNum seen);
    ("check_time", VNum check);
    ("hours_silent", VNum hours);
    ("status", VStr st);
    ("severity", VStr "High");
    ("event_count_last_hour", VNum 0) ]%string.

Definition sample_window : list row :=
  [ health_record "dns_logs" 0.2 6900 7000 "Active";
    health_record "fw_logs" 2.5 0 7000 "Silent";
    health_record "proxy_logs" 4 100 6000 "Silent";
    health_record "vpn_logs" 2.5 50 7000 "Silent" ]%string.

(** A store holding [rows] in every window of the health dataset, read at
    time [now]. *)
Definition store_of (now : Q) (rows : list row) : store :=
  {| current_time := now;
     window := fun name _ => if String.eqb name data_source_health then rows else [] |}.

(** The oracle of a platform backed by the modelled engine: the query of the
    command is run on the store; a query with a stage outside the model
    gets an error entry. *)
Definition answer (s : store) (c : command) : exec_result :=
  match command_args c with
  | (_, AQuery q) :: _ =>
      match run s q with
      | Some rows => ExecReturns [note rows]
      | None => ExecReturns [mkEntry (Some entryTypes_error) (Some (CText "unsupported stage"))]
      end
  | _ => ExecRaises CommandError
  end.

(** A platform backed by the store [s].  Its clock text is fixed: the
    rendered timestamps are copied into the reports and never inspected;
    timestamps before the epoch are refused. *)
Definition backed_by (s : store) : platform :=
  {| oracle := answer s;
     args := [("threshold_hours", VStr "1.0")]%string;
     strftime_fromtimestamp :=
       fun q => if Qle_bool 0 q then Some "1970-01-01 00:00:00 UTC"%string else None;
     fromtimestamp_error := fun _ => TimestampOSError;
     float_of_string := fun t => if String.eqb t "1.0" then Some 1 else None;
     utcnow_strftime := "2024-01-01 00:00:00 UTC" |}.

(** A platform whose oracle answers every command with one note entry
    holding [rows]. *)
Definition returning (rows : list row) : platform :=
  {| oracle := fun _ => ExecReturns [note rows];
     args := [];
     strftime_fromtimestamp := fun _ => Some "1970-01-01 00:00:00 UTC"%string;
     fromtimestamp_error := fun _ => YearOutOfRange;
     float_of_string := fun _ => None;
     utcnow_strftime := "2024-01-01 00:00:00 UTC" |}.

(** One hourly bucket of the trend query's output. *)
Definition bucket (name : string) (avg : Q) : row :=
  [ ("dataset_name", VStr name); ("avg_hours_silent", VNum avg) ]%string.

Definition two_buckets : list row := [ bucket "a" 1; bucket "a" 1 ]%string.

Definition boundary_worse : list row :=
  [ bucket "a" 10; bucket "a" 15.0001; bucket "a" 15.0001; bucket "a" 15.0001 ]%string.

Definition boundary_stable : list row :=
  [ bucket "a" 10; bucket "a" 14.999; bucket "a" 14.999; bucket "a" 14.999 ]%string.

(** The scenarios of section 8 of the specification. *)
Definition proxy_logs : list row :=
  [ bucket "proxy_logs" 1; bucket "proxy_logs" 1; bucket "proxy_logs" 1;
    bucket "proxy_logs" 1; bucket "proxy_logs" 8; bucket "proxy_logs" 9 ]%string.

Definition boundary_better : list row :=
  [ bucket "a" 10; bucket "a" 4.999; bucket "a" 4.999; bucket "a" 4.999 ]%string.

Definition boundary_not_better : list row :=
  [ bucket "a" 10; bucket "a" 5.001; bucket "a" 5.001; bucket "a" 5.001 ]%string.

Definition boundary_worse_result : HealthTrends.trends_result :=
  {| HealthTrends.raw_trends := boundary_worse;
     HealthTrends.trending_worse :=
       [ {| HealthTrends.dataset := VStr "a";
            HealthTrends.recent_avg_silent := Fin 15;
            HealthTrends.older_avg_silent := Fin 10;
            HealthTrends.change_percent := Fin 50 |} ];
     HealthTrends.trending_better := [];
     HealthTrends.dataset_count := 1 |}.

Definition boundary_stable_result : HealthTrends.trends_result :=
  {| HealthTrends.raw_trends := boundary_stable;
     HealthTrends.trending_worse := [];
     HealthTrends.trending_better := [];
     HealthTrends.dataset_count := 1 |}.

(** The sample window read at 7200 s (latest check 200 s old) and at
    10000 s (latest check 50 min old). *)
Definition fresh_platform : platform := backed_by (store_of 7200 sample_window).
Definition stale_platform : platform := backed_by (store_of 10000 sample_window).

Definition stale_verdict : CheckHealth.verdict :=
  {| CheckHealth.is_fresh := false;
     CheckHealth.minutes_old := VNum (3000 # 60);
     CheckHealth.last_update := VNum 7000 |}.

(** A platform on which every command raises. *)
Definition unreachable : platform :=
  {| oracle := fun _ => ExecRaises CommandError;
     args := [];
     strftime_fromtimestamp := fun _ => None;
     fromtimestamp_error := fun _ => TimestampOverflow;
     float_of_string := fun _ => None;
     utcnow_strftime := "" |}.

(** As [returning], with other arguments, clock and parser. *)
Definition returning_elsewhere (rows : list row) : platform :=
  {| oracle := fun _ => ExecReturns [note rows];
     args := [("dataset_name", VStr "a"); ("timeframe_hours", VStr "24")]%string;
     strftime_fromtimestamp := fun _ => None;
     fromtimestamp_error := fun _ => TimestampOverflow;
     float_of_string := fun _ => Some 0;
     utcnow_strftime := "" |}.

(** The reports [check_health_dataset] returns on [fresh_platform] with
    threshold 1. *)
Definition sample_reports : list CheckHealth.dataset_info :=
  Eval vm_compute in
    match fst (CheckHealth.check_health_dataset fresh_platform 1 []) with
    | Val infos => infos
    | _ => []
    end.

End Samples.

Module Vocabulary.

Import HealthTrends.

Definition names (l : list trend) : list value := map dataset l.

Definition keys (dt : dict) : list value := map fst dt.

(** No key equals (in Python's sense) a later one. *)
Fixpoint distinct_keys (ks : list value) : Prop :=
  match ks with
  | [] => True
  | k :: rest => (forall k', In k' rest -> value_eqb k k' = false) /\ distinct_keys rest
  end.

(** [rep j]: the count [j] of units has at most 53 significant bits. *)
Definition rep (j : Z) : Prop :=
  exists m t, (0 <= m < 2 ^ 53)%Z /\ (0 <= t)%Z /\ j = (m * 2 ^ t)%Z.

(** A float that is zero, positive or plus infinity. *)
Definition nonneg (f : float) : Prop :=
  match f with
  | Fin q => 0 <= q
  | Inf s => s = false
  | NaN => False
  end.

Definition nonneg_number (n : number) : Prop :=
  match n with
  | PInt z => (0 <= z)%Z
  | PFloat f => nonneg f
  end.

(** The finite value an operation delivers is a binary64 number: rounding
    leaves it as it is. *)
Definition exact (f : float) : Prop :=
  match f with
  | Fin q => fl q = Fin q
  | _ => True
  end.

Definition averages (l : list row) (recent older : float) : Prop :=
  recent_avg_of l = Val recent /\ older_avg_of l = Val older.

(** [recent_avg > older_avg * 1.5] and [recent_avg < older_avg * 0.5], as
    the floats compare. *)
Definition worse_than (recent older : float) : Prop :=
  float_ltb (float_mul older (Fin 1.5)) recent = true.

Definition better_than (recent older : float) : Prop :=
  float_ltb recent (float_mul older (Fin 0.5)) = true.

(** [((recent_avg - older_avg) / older_avg) * 100], for a divisor that is
    not zero. *)
Definition change (recent older : float) : float :=
  float_mul (float_div (float_sub recent older) older) (Fin 100).

(** The entry the script lists for dataset [k] with the given averages. *)
Definition reports (t : trend) (k : value) (recent older : float) : Prop :=
  dataset t = k /\
  recent_avg_silent t = float_round recent 2 /\
  older_avg_silent t = float_round older 2 /\
  change_percent t = float_round (change recent older) 1.

(** [classified items w b]: [w] and [b] are the entries that the datasets of
    [items], taken in order, contribute to the worse and to the better list. *)
Inductive classified : dict -> list trend -> list trend -> Prop :=
| classified_nil : classified [] [] []
| classified_worse k l items w b t recent older :
    (2 <= List.length l)%nat -> averages l recent older ->
    worse_than recent older -> float_is_zero older = false ->
    reports t k recent older ->
    classified items w b -> classified ((k, l) :: items) (t :: w) b
| classified_better k l items w b t recent older :
    (2 <= List.length l)%nat -> averages l recent older ->
    ~ worse_than recent older -> better_than recent older ->
    float_is_zero older = false ->
    reports t k recent older ->
    classified items w b -> classified ((k, l) :: items) w (t :: b)
| classified_stable k l items w b recent older :
    (2 <= List.length l)%nat -> averages l recent older ->
    ~ worse_than recent older -> ~ better_than recent older ->
    classified items w b -> classified ((k, l) :: items) w b
| classified_single k l items w b :
    (List.length l < 2)%nat ->
    classified items w b -> classified ((k, l) :: items) w b.

(** Where dataset [k] with buckets [l] stands with respect to the two lists:
    too short to be compared, or compared with first match winning. *)
Definition placed (w b : list trend) (k : value) (l : list row) : Prop :=
  ((List.length l < 2)%nat /\ ~ In k (names w) /\ ~ In k (names b)) \/
  exists recent older,
    (2 <= List.length l)%nat /\ averages l recent older /\
    ((worse_than recent older /\ float_is_zero older = false /\
      (exists t, In t w /\ reports t k recent older) /\ ~ In k (names b)) \/
     (~ worse_than recent older /\ better_than recent older /\
      float_is_zero older = false /\
      (exists t, In t b /\ reports t k recent older) /\ ~ In k (names w)) \/
     (~ worse_than recent older /\ ~ better_than recent older /\
      ~ In k (names w) /\ ~ In k (names b))).





End Vocabulary.


(* ================================================================== *)
(** ** GetDataSourceHealthTrends.py: main *)

Module HealthTrendsMain.

Import HealthTrends.
Local Open Scope script_scope.

(** The Python built-ins [main] applies to its arguments. *)
Record builtins : Type := mkBuiltins {
  (** [int(s)] on a string; [None] where it raises [ValueError]. *)
  int_of_string : string -> option Z;
  (** [str(x)] on a number, as an f-string renders it. *)
  str_of_number : Q -> string
}.

(** [int(x)] on a number truncates toward zero. *)
Definition truncate (q : Q) : Z :=
  if Qle_bool 0 q then Qfloor q else Qceiling q.

(** [int(v)] *)
Definition py_int (b : builtins) (v : value) : outcome Z :=
  match v with
  | VNum q => Val (truncate q)
  | VStr s =>
      match int_of_string b s with
      | Some z => Val z
      | None => Raise ValueError
      end
  | VNone => Raise TypeError
  end.

(** The [dataset_name] argument as [get_health_trends] uses it: a falsy
    value ([None], [0], the empty string) gives no filter, any other value
    is rendered into the filter text. *)
Definition filter_name (b : builtins) (v : value) : option string :=
  match v with
  | VNone => None
  | VStr s => Some s
  | VNum q => if Qeq_bool q 0 then None else Some (str_of_number b q)
  end.

(** One line of a section: [ds['dataset']] and [ds['change_percent']]. *)
Definition trend_line (t : trend) : value * float :=
  (dataset t, change_percent t).

(** [if l:] followed by the section built from [l]. *)
Definition section (l : list trend) : option (list (value * float)) :=
  match l with
  | [] => None
  | _ :: _ => Some (map trend_line l)
  end.

(** The readable output, kept structured (no string rendering). *)
Record readable : Type := mkReadable {
  timeframe : Z;
  trending_worse_section : option (list (value * float));
  trending_better_section : option (list (value * float));
  analyzed : nat
}.

(** The arguments of [return_outputs]. *)
Record outputs : Type := mkOutputs {
  readable_output : readable;
  HealthTrends : trends_result
}.

Definition main (b : builtins) (d : platform) : M outputs :=
  let dataset_name := get (args d) "dataset_name" VNone in
  timeframe_hours <- lift (py_int b (get (args d) "timeframe_hours" (VNum 24))) ;;
  trends <- get_health_trends d (filter_name b dataset_name) timeframe_hours ;;
  ret {| readable_output :=
           {| timeframe := timeframe_hours;
              trending_worse_section := section (trending_worse trends);
              trending_better_section := section (trending_better trends);
              analyzed := dataset_count trends |};
         HealthTrends := trends |}.

End HealthTrendsMain.

(* ================================================================== *)
(** ** FilterDatasets.py *)

Module FilterDatasets.

Local Open Scope script_scope.

(** An element of a JSON array: a dict, or anything else (on which [.get]
    raises [AttributeError]). *)
Inductive element : Type :=
| EDict (r : row)
| EOther.

(** A list-valued argument of the script: absent ([None]), a list, or a
    text. *)
Inductive json_arg : Type :=
| JAbsent
| JList (l : list element)
| JText (s : string).

(** [demisto.args()] as the script reads it. *)
Record filter_args : Type := mkArgs {
  all_datasets_json : json_arg;
  excluded_datasets_json : json_arg;
  (** [None] when the key is absent. *)
  dataset_name_field : option value
}.

(** The [CommandResults] handed to [return_results]. *)
Record command_results : Type := mkResults {
  outputs_prefix : string;
  outputs : list value;
  (** [len(final_datasets_list)] of the readable output. *)
  found : nat
}.

(** How [main] ends: [return_results]; [return_error] with the exception
    caught by the [except Exception] clause; or an exit from inside the
    block, which that clause would let through. *)
Inductive filter_result : Type :=
| Results (r : command_results)
| Failed_to_filter_datasets (e : exn)
| Exits (m : message).

(** Truth value of a Python value. *)
Definition truthy (v : value) : bool :=
  match v with
  | VNone => false
  | VNum q => negb (Qeq_bool q 0)
  | VStr s => negb (String.eqb s "")
  end.

(** [r.get(field)] for a key that may be any value; the keys of a JSON
    object are strings. *)
Definition dict_get (r : row) (field : value) : value :=
  match field with
  | VStr k => get r k VNone
  | _ => VNone
  end.

(** [ds.get(field)] *)
Definition element_get (ds : element) (field : value) : outcome value :=
  match ds with
  | EDict r => Val (dict_get r field)
  | EOther => Raise AttributeError
  end.

(** [v in s] for a set [s], kept as a duplicate-free list. *)
Definition set_mem (v : value) (s : list value) : bool :=
  existsb (fun x => value_eqb x v) s.

(** [s.add(v)] *)
Definition set_add (s : list value) (v : value) : list value :=
  if set_mem v s then s else s ++ [v].

(** The body of [{ds.get(field) for ds in l if ds.get(field)}]. *)
Fixpoint collect (field : value) (l : list element) (acc : list value)
  : outcome (list value) :=
  match l with
  | [] => Val acc
  | ds :: rest =>
      c <~ element_get ds field ;;
      if truthy c then
        v <~ element_get ds field ;;
        collect field rest (set_add acc v)
      else collect field rest acc
  end.

(** [{ds.get(field) for ds in raw if ds.get(field)}]: iterating [None]
    raises [TypeError]; iterating a text yields its characters, which have no
    [.get]. *)
Definition name_set (field : value) (raw : json_arg) : outcome (list value) :=
  match raw with
  | JAbsent => Raise TypeError
  | JList l => collect field l []
  | JText EmptyString => Val []
  | JText (String _ _) => Raise AttributeError
  end.

(** [a - b] on sets. *)
Definition set_difference (a b : list value) : list value :=
  filter (fun v => negb (set_mem v b)) a.

(** [x < y]: numbers with numbers, strings with strings (by code point,
    which is the byte order of UTF-8). *)
Definition value_ltb (x y : value) : outcome bool :=
  match x, y with
  | VNum a, VNum b => Val (Qltb a b)
  | VStr s, VStr t => Val (String.ltb s t)
  | _, _ => Raise TypeError
  end.

Fixpoint insert_sorted (x : value) (l : list value) : outcome (list value) :=
  match l with
  | [] => Val [x]
  | y :: rest =>
      c <~ value_ltb y x ;;
      if c then
        rest' <~ insert_sorted x rest ;;
        Val (y :: rest')
      else Val (x :: y :: rest)
  end.

(** [sorted(l)], as an insertion sort that compares with [<] only. *)
Fixpoint sorted (l : list value) : outcome (list value) :=
  match l with
  | [] => Val []
  | x :: rest =>
      rest' <~ sorted rest ;;
      insert_sorted x rest'
  end.

(** The [try] block. *)
Definition filter_datasets (a : filter_args) : outcome command_results :=
  let exclusion_field :=
    match dataset_name_field a with
    | Some f => f
    | None => VStr "dataset_name"
    end in
  all_datasets_set <~ name_set (VStr "dataset_name") (all_datasets_json a) ;;
  excluded_datasets_set <~ name_set exclusion_field (excluded_datasets_json a) ;;
  final_datasets_list <~ sorted (set_difference all_datasets_set excluded_datasets_set) ;;
  Val {| outputs_prefix := "FinalDatasetList";
         outputs := final_datasets_list;
         found := List.length final_datasets_list |}.

Definition main (a : filter_args) : filter_result :=
  match filter_datasets a with
  | Val r => Results r
  | Raise e => Failed_to_filter_datasets e
  | Exit m => Exits m
  end.

End FilterDatasets.

(* ================================================================== *)
(** ** Further vocabulary and sample environments *)

Module Notions.

Import CheckHealth.

(** The platform can build the report of row [r]: both timestamps are
    numbers that [fromtimestamp] accepts. *)
Definition renderable (d : platform) (r : row) : Prop :=
  exists q1 q2 s1 s2,
    get r "last_seen_time" (VNum 0) = VNum q1 /\
    strftime_fromtimestamp d q1 = Some s1 /\
    get r "check_time" (VNum 0) = VNum q2 /\
    strftime_fromtimestamp d q2 = Some s2.

(** Decidable form of [renderable]. *)
Definition renderableb (d : platform) (r : row) : bool :=
  match get r "last_seen_time" (VNum 0), get r "check_time" (VNum 0) with
  | VNum q1, VNum q2 =>
      match strftime_fromtimestamp d q1, strftime_fromtimestamp d q2 with
      | Some _, Some _ => true
      | _, _ => false
      end
  | _, _ => false
  end.

(** The exceptions building a report can raise: [TypeError] on a timestamp
    that is not a number, and what [fromtimestamp] raises on a number it
    refuses. *)
Definition timestamp_error (d : platform) (x : exn) : Prop :=
  x = TypeError \/
  exists q, strftime_fromtimestamp d q = None /\
            x = exn_of_range_error (fromtimestamp_error d q).

(** [i] is the report of row [r]: every field is the row's own, absent
    ones replaced by the defaults of lines 40-53, and the two texts render
    the row's timestamps. *)
Definition report_of (d : platform) (r : row) (i : dataset_info) : Prop :=
  dataset i = get r "dataset_name" VNone /\
  (exists q, get r "last_seen_time" (VNum 0) = VNum q /\
             strftime_fromtimestamp d q = Some (last_seen i)) /\
  last_seen_timestamp i = get r "last_seen_time" (VNum 0) /\
  hours_silent i = get r "hours_silent" (VNum 0) /\
  severity i = get r "severity" (VStr "Unknown") /\
  event_count i = get r "event_count_last_hour" (VNum 0) /\
  status i = get r "status" (VStr "Unknown") /\
  (exists q, get r "check_time" (VNum 0) = VNum q /\
             strftime_fromtimestamp d q = Some (last_check i)).

(** Row [r] holds a number under [avg_hours_silent]. *)
Definition has_average (r : row) : Prop :=
  exists q, lookup r "avg_hours_silent" = Some (VNum q).

(** The name under which [group_by_dataset] files row [r]. *)
Definition name_of (r : row) : value := get r "dataset_name" VNone.

(** The loop goes through on the group [l]: it has a single row (and is not
    looked at), or every row holds a number, the two averages can be
    computed from them (no int is too large for a float) and, when the
    older one is zero, the recent one is neither above nor below zero. *)
Definition comparable (l : list row) : Prop :=
  (List.length l < 2)%nat \/
  ((forall r, In r l -> has_average r) /\
   exists recent older,
     Vocabulary.averages l recent older /\
     (float_is_zero older = true ->
      float_ltb (Fin 0) recent = false /\ float_ltb recent (Fin 0) = false)).

(** Vocabulary for [FilterDatasets.py]. *)

Definition is_text (v : value) : bool :=
  match v with VStr _ => true | _ => false end.

Definition is_number (v : value) : bool :=
  match v with VNum _ => true | _ => false end.

(** All texts, or all numbers: what [sorted] can compare. *)
Definition same_kind (l : list value) : Prop :=
  (forall v, In v l -> is_text v = true) \/
  (forall v, In v l -> is_number v = true).

(** [x < y] holds. *)
Definition value_lt (x y : value) : Prop :=
  FilterDatasets.value_ltb x y = Val true.

(** [y < x] is false: [x] is not greater than [y]. *)
Definition value_le (x y : value) : Prop :=
  FilterDatasets.value_ltb y x = Val false.

(** No two different members of [l] are equal in Python's sense. *)
Definition pairwise_distinct (l : list value) : Prop :=
  NoDup l /\ forall a b, In a l -> In b l -> a <> b -> value_eqb a b = false.

(** An argument the set comprehension can walk: a list of dicts, or the
    empty text. *)
Definition iterable (raw : FilterDatasets.json_arg) : Prop :=
  match raw with
  | FilterDatasets.JAbsent => False
  | FilterDatasets.JList l =>
      forall ds, In ds l -> exists r, ds = FilterDatasets.EDict r
  | FilterDatasets.JText s => s = EmptyString
  end.

(** [named field raw v]: some dict of [raw] holds the truthy value [v]
    under [field]. *)
Definition named (field : value) (raw : FilterDatasets.json_arg) (v : value)
  : Prop :=
  exists l r,
    raw = FilterDatasets.JList l /\ In (FilterDatasets.EDict r) l /\
    FilterDatasets.dict_get r field = v /\ FilterDatasets.truthy v = true.

(** The field the exclusion list is read under. *)
Definition exclusion_field (a : FilterDatasets.filter_args) : value :=
  match FilterDatasets.dataset_name_field a with
  | Some f => f
  | None => VStr "dataset_name"
  end.

(** [kept a v]: [v] names a dataset of the full list that no entry of the
    exclusion list names. *)
Definition kept (a : FilterDatasets.filter_args) (v : value) : Prop :=
  named (VStr "dataset_name") (FilterDatasets.all_datasets_json a) v /\
  forall w, named (exclusion_field a) (FilterDatasets.excluded_datasets_json a) w ->
            value_eqb w v = false.

(** The exceptions the analysis loop can raise. *)
Definition analysis_error (x : exn) : Prop :=
  x = KeyError "avg_hours_silent" \/ x = TypeError \/ x = OverflowError \/
  x = ZeroDivisionError.

End Notions.

Module MoreSamples.

Import Samples.

(** A silent source next to a source that was never seen: its
    [last_seen_time] is null. *)
Definition never_seen_rows : list row :=
  [ health_record "fw_logs" 2.5 0 7000 "Silent";
    [ ("dataset_name", VStr "new_source"); ("last_seen_time", VNone);
      ("check_time", VNum 7000); ("hours_silent", VNum 3) ] ]%string.

(** Two older buckets whose float sum overflows, before three quiet ones. *)
Definition overflowing_older : list row :=
  [ bucket "a" 1.0e308; bucket "a" 1.0e308;
    bucket "a" 1.0; bucket "a" 1.0; bucket "a" 1.0 ]%string.

Definition proxy_report : CheckHealth.dataset_info :=
  {| CheckHealth.dataset := VStr "proxy_logs";
     CheckHealth.last_seen := "1970-01-01 00:00:00 UTC";
     CheckHealth.last_seen_timestamp := VNum 100;
     CheckHealth.hours_silent := VNum 4;
     CheckHealth.severity := VStr "High";
     CheckHealth.event_count := VNum 0;
     CheckHealth.status := VStr "Silent";
     CheckHealth.last_check := "1970-01-01 00:00:00 UTC" |}.

Definition fresh_verdict : CheckHealth.verdict :=
  {| CheckHealth.is_fresh := true;
     CheckHealth.minutes_old := VNum (200 # 60);
     CheckHealth.last_update := VNum 7000 |}.

(** What [main] hands to [return_outputs] on [fresh_platform]. *)
Definition fresh_outputs : CheckHealth.outputs :=
  {| CheckHealth.readable_output :=
       CheckHealth.Found_silent 3 (VNum (200 # 60))
         (map CheckHealth.table_line sample_reports);
     CheckHealth.SilentDataSources := sample_reports;
     CheckHealth.DatasetFreshness := fresh_verdict;
     CheckHealth.raw_response := sample_reports |}.

(** A platform whose arguments cannot be converted to numbers. *)
Definition misconfigured : platform :=
  {| oracle := fun _ => ExecReturns [XqlModel.note boundary_worse];
     args := [ ("threshold_hours", VStr "soon");
               ("timeframe_hours", VStr "a day") ]%string;
     strftime_fromtimestamp := fun _ => None;
     fromtimestamp_error := fun _ => TimestampOverflow;
     float_of_string := fun _ => None;
     utcnow_strftime := "" |}.

(** [int] on the texts of decimal digits used below. *)
Definition sample_builtins : HealthTrendsMain.builtins :=
  {| HealthTrendsMain.int_of_string :=
       fun s => if String.eqb s "24" then Some 24%Z
                else if String.eqb s "48" then Some 48%Z else None;
     HealthTrendsMain.str_of_number := fun _ => "0"%string |}.

Definition boundary_worse_outputs : HealthTrendsMain.outputs :=
  {| HealthTrendsMain.readable_output :=
       {| HealthTrendsMain.timeframe := 24;
          HealthTrendsMain.trending_worse_section := Some [ (VStr "a", Fin 50) ];
          HealthTrendsMain.trending_better_section := None;
          HealthTrendsMain.analyzed := 1 |};
     HealthTrendsMain.HealthTrends := boundary_worse_result |}.

Definition named_dataset (n : string) : FilterDatasets.element :=
  FilterDatasets.EDict [ ("dataset_name", VStr n); ("vendor", VStr "acme") ]%string.

(** Four datasets, one listed twice and one without a name; two of them are
    excluded, under the field [name]. *)
Definition sample_filter_args : FilterDatasets.filter_args :=
  {| FilterDatasets.all_datasets_json :=
       FilterDatasets.JList
         [ named_dataset "proxy_logs"; named_dataset "dns_logs";
           named_dataset "proxy_logs"; named_dataset "fw_logs";
           FilterDatasets.EDict [ ("vendor", VStr "acme") ]%string;
           named_dataset "vpn_logs" ];
     FilterDatasets.excluded_datasets_json :=
       FilterDatasets.JList
         [ FilterDatasets.EDict [ ("name", VStr "vpn_logs") ]%string;
           FilterDatasets.EDict [ ("name", VStr "dns_logs") ]%string;
           FilterDatasets.EDict [ ("name", VStr "unknown") ]%string ];
     FilterDatasets.dataset_name_field := Some (VStr "name") |}.

Definition sample_filter_results : FilterDatasets.command_results :=
  {| FilterDatasets.outputs_prefix := "FinalDatasetList";
     FilterDatasets.outputs := [ VStr "fw_logs"; VStr "proxy_logs" ];
     FilterDatasets.found := 2 |}.

End MoreSamples.

(* ================================================================== *)
(** * Proofs *)

Import CheckHealth.

Lemma Qltb_lt (x y : Q) : Qltb x y = true <-> x < y.
Proof.
  unfold Qltb. rewrite negb_true_iff. split; intro H.
  - apply Qnot_le_lt. intro Hle. apply Qle_bool_iff in Hle. congruence.
  - destruct (Qle_bool y x) eqn:E; [|reflexivity].
    apply Qle_bool_iff in E. exfalso. exact (Qlt_not_le _ _ H E).
Qed.

(** *** Rounding to binary64 *)

Import Vocabulary.

Lemma round_half_even_bounds (y : Q) :
  (Qfloor y <= round_half_even y <= Qfloor y + 1)%Z.
Proof.
  unfold round_half_even.
  destruct (Qcompare (y - inject_Z (Qfloor y)) (1 # 2)); try lia.
  destruct (Z.even (Qfloor y)); lia.
Qed.

Lemma round_half_even_comp (x y : Q) :
  x == y -> round_half_even x = round_half_even y.
Proof.
  intro H.
  assert (Hf : Qfloor x = Qfloor y) by (apply Qfloor_comp; exact H).
  assert (Hc : Qcompare (x - inject_Z (Qfloor x)) (1 # 2) =
               Qcompare (y - inject_Z (Qfloor y)) (1 # 2)).
  { rewrite Hf. apply Qcompare_comp; [rewrite H; reflexivity | reflexivity]. }
  unfold round_half_even. cbv zeta. rewrite Hc, Hf. reflexivity.
Qed.

Lemma round_half_even_Z (z : Z) : round_half_even (inject_Z z) = z.
Proof.
  unfold round_half_even. cbv zeta. rewrite Qfloor_Z.
  destruct (Qcompare_spec (inject_Z z - inject_Z z) (1 # 2)) as [E|E|E];
    [exfalso; lra | reflexivity | exfalso; lra].
Qed.

Lemma round_half_even_mono (x y : Q) :
  x <= y -> (round_half_even x <= round_half_even y)%Z.
Proof.
  intro H.
  pose proof (Qfloor_resp_le _ _ H) as Hf.
  pose proof (round_half_even_bounds x) as [_ Hx].
  pose proof (round_half_even_bounds y) as [Hy _].
  destruct (Z.eq_dec (Qfloor x) (Qfloor y)) as [E|E]; [|lia].
  unfold round_half_even. cbv zeta. rewrite <- E.
  destruct (Qcompare_spec (x - inject_Z (Qfloor x)) (1 # 2)) as [Ex|Ex|Ex];
    destruct (Qcompare_spec (y - inject_Z (Qfloor x)) (1 # 2)) as [Ey|Ey|Ey];
    try lia; try (exfalso; lra); destruct (Z.even (Qfloor x)); lia.
Qed.

Lemma pow2_pos (s : Z) : (0 <= s)%Z -> 0 < inject_Z (2 ^ s).
Proof.
  intro H. change 0 with (inject_Z 0). rewrite <- Zlt_Qlt.
  apply Z.pow_pos_nonneg; lia.
Qed.

Lemma shift_nonneg (x : Q) : (0 <= shift x)%Z.
Proof. unfold shift. lia. Qed.

Lemma shift_mono (x y : Q) : x <= y -> (shift x <= shift y)%Z.
Proof.
  intro H. unfold shift.
  pose proof (Z.log2_le_mono _ _ (Qfloor_resp_le _ _ H)). lia.
Qed.

Lemma below_top (x : Q) : 0 <= x -> x < inject_Z (2 ^ (shift x + 53)).
Proof.
  intro H0.
  assert (Hf : (0 <= Qfloor x)%Z).
  { rewrite <- (Qfloor_Z 0). apply Qfloor_resp_le. exact H0. }
  pose proof (shift_nonneg x) as Hs.
  assert (Hlt : (Qfloor x + 1 <= 2 ^ (shift x + 53))%Z).
  { destruct (Z.eq_dec (Qfloor x) 0) as [E|E].
    - rewrite E. pose proof (Z.pow_pos_nonneg 2 (shift x + 53)). lia.
    - assert (Hpos : (0 < Qfloor x)%Z) by lia.
      pose proof (Z.log2_spec _ Hpos) as [_ Hhi].
      assert ((2 ^ Z.succ (Z.log2 (Qfloor x)) <= 2 ^ (shift x + 53))%Z).
      { apply Z.pow_le_mono_r; [lia|]. unfold shift. lia. }
      lia. }
  eapply Qlt_le_trans; [apply Qlt_floor|].
  rewrite <- Zle_Qle. exact Hlt.
Qed.

Lemma above_bottom (x : Q) :
  (1 <= shift x)%Z -> inject_Z (2 ^ (shift x + 52)) <= x.
Proof.
  intro Hs. unfold shift in *.
  assert (Hl : (53 <= Z.log2 (Qfloor x))%Z) by lia.
  assert (Hpos : (0 < Qfloor x)%Z).
  { destruct (Z.le_gt_cases (Qfloor x) 0) as [Hn|Hp]; [|lia].
    rewrite (Z.log2_nonpos _ Hn) in Hl. lia. }
  pose proof (Z.log2_spec _ Hpos) as [Hlo _].
  replace (Z.max 0 (Z.log2 (Qfloor x) - 52) + 52)%Z
    with (Z.log2 (Qfloor x)) by lia.
  eapply Qle_trans; [|apply Qfloor_le].
  rewrite <- Zle_Qle. exact Hlo.
Qed.

Lemma scaled_lt (x : Q) :
  0 <= x -> x / inject_Z (2 ^ shift x) < inject_Z (2 ^ 53).
Proof.
  intro H. pose proof (shift_nonneg x) as Hs.
  apply Qlt_shift_div_r; [apply pow2_pos; exact Hs|].
  rewrite <- inject_Z_mult, <- Z.pow_add_r by lia.
  rewrite Z.add_comm. apply below_top. exact H.
Qed.

Lemma significand_bounds (x : Q) :
  0 <= x ->
  (0 <= round_half_even (x / inject_Z (2 ^ shift x)) <= 2 ^ 53)%Z.
Proof.
  intro H. pose proof (shift_nonneg x) as Hs. split.
  - rewrite <- (round_half_even_Z 0) at 1. apply round_half_even_mono.
    apply Qle_shift_div_l; [apply pow2_pos; exact Hs|].
    rewrite Qmult_0_l. exact H.
  - rewrite <- (round_half_even_Z (2 ^ 53)). apply round_half_even_mono.
    apply Qlt_le_weak. apply scaled_lt. exact H.
Qed.

Lemma grid_nonneg (x : Q) : 0 <= x -> (0 <= grid x)%Z.
Proof.
  intro H. unfold grid. apply Z.mul_nonneg_nonneg.
  - apply significand_bounds. exact H.
  - apply Z.pow_nonneg. lia.
Qed.

Lemma grid_mono (x y : Q) : 0 <= x -> x <= y -> (grid x <= grid y)%Z.
Proof.
  intros H0 H. pose proof (shift_mono H) as Hs.
  pose proof (shift_nonneg x) as Hsx.
  assert (Hy0 : 0 <= y) by lra.
  destruct (Z.eq_dec (shift x) (shift y)) as [E|E].
  - unfold grid. rewrite E.
    apply Z.mul_le_mono_nonneg_r; [apply Z.pow_nonneg; lia|].
    apply round_half_even_mono. unfold Qdiv.
    apply Qmult_le_compat_r; [exact H|].
    apply Qinv_le_0_compat. apply Qlt_le_weak. apply pow2_pos. lia.
  - assert (H1 : (1 <= shift y)%Z) by lia.
    apply Z.le_trans with (2 ^ (shift x + 53))%Z.
    + unfold grid. rewrite Z.pow_add_r by lia. rewrite (Z.mul_comm (2 ^ shift x)).
      apply Z.mul_le_mono_nonneg_r; [apply Z.pow_nonneg; lia|].
      apply significand_bounds. exact H0.
    + apply Z.le_trans with (2 ^ (shift y + 52))%Z;
        [apply Z.pow_le_mono_r; lia|].
      unfold grid. rewrite Z.pow_add_r by lia. rewrite (Z.mul_comm (2 ^ shift y)).
      apply Z.mul_le_mono_nonneg_r; [apply Z.pow_nonneg; lia|].
      rewrite <- (round_half_even_Z (2 ^ 52)). apply round_half_even_mono.
      apply Qle_shift_div_l; [apply pow2_pos; lia|].
      rewrite <- inject_Z_mult, <- Z.pow_add_r by lia.
      rewrite Z.add_comm. apply above_bottom. exact H1.
Qed.

Lemma grid_comp (x y : Q) : x == y -> grid x = grid y.
Proof.
  intro H. unfold grid, shift. rewrite (Qfloor_comp _ _ H).
  f_equal. apply round_half_even_comp. rewrite H. reflexivity.
Qed.

Lemma grid_rep (x : Q) : 0 <= x -> rep (grid x).
Proof.
  intro H. destruct (significand_bounds H) as [Hlo Hhi].
  pose proof (shift_nonneg x) as Hs. unfold grid.
  destruct (Z.eq_dec (round_half_even (x / inject_Z (2 ^ shift x))) (2 ^ 53))
    as [E|E].
  - rewrite E. exists (2 ^ 52)%Z, (shift x + 1)%Z.
    split; [split; [apply Z.pow_nonneg; lia | apply Z.pow_lt_mono_r; lia]|].
    split; [lia|].
    rewrite (Z.pow_add_r 2 (shift x) 1) by lia.
    replace (2 ^ 53)%Z with (2 ^ 52 * 2 ^ 1)%Z by reflexivity. ring.
  - exists (round_half_even (x / inject_Z (2 ^ shift x))), (shift x).
    split; [lia|]. split; [exact Hs | reflexivity].
Qed.

Lemma grid_rep_fix (j : Z) : rep j -> grid (inject_Z j) = j.
Proof.
  intros [m [t [[Hm0 Hm] [Ht Hj]]]].
  pose proof (shift_nonneg (inject_Z j)) as Hs0.
  assert (Hs : (shift (inject_Z j) <= t)%Z).
  { unfold shift. rewrite Qfloor_Z.
    destruct (Z.eq_dec m 0) as [E|E].
    - subst m. rewrite Z.mul_0_l in Hj. subst j. simpl. lia.
    - assert (Hjpos : (0 < j)%Z).
      { subst j. apply Z.mul_pos_pos; [lia | apply Z.pow_pos_nonneg; lia]. }
      assert (Hjlt : (j < 2 ^ (53 + t))%Z).
      { subst j. rewrite Z.pow_add_r by lia.
        apply Z.mul_lt_mono_pos_r; [apply Z.pow_pos_nonneg; lia | lia]. }
      apply Z.log2_lt_pow2 in Hjlt; [|exact Hjpos]. lia. }
  unfold grid. set (s := shift (inject_Z j)) in *.
  assert (Hq : inject_Z j / inject_Z (2 ^ s) == inject_Z (m * 2 ^ (t - s))).
  { pose proof (pow2_pos Hs0) as Hp.
    subst j. replace t with ((t - s) + s)%Z at 1 by lia.
    rewrite Z.pow_add_r by lia.
    rewrite Z.mul_assoc, inject_Z_mult. field. lra. }
  rewrite (round_half_even_comp Hq), round_half_even_Z.
  subst j. rewrite <- Z.mul_assoc, <- Z.pow_add_r by lia.
  f_equal. f_equal. lia.
Qed.

Lemma rep_nonneg (j : Z) : rep j -> (0 <= j)%Z.
Proof.
  intros [m [t [[Hm0 _] [Ht Hj]]]]. subst j.
  apply Z.mul_nonneg_nonneg; [exact Hm0 | apply Z.pow_nonneg; lia].
Qed.

(** Half of a representable count, rounded up, is representable. *)
Lemma rep_half_up (k : Z) : rep k -> rep ((k + 1) / 2).
Proof.
  intros [m [t [[Hm0 Hm] [Ht Hk]]]].
  destruct (Z.eq_dec t 0) as [E|E].
  - subst t. rewrite Z.pow_0_r, Z.mul_1_r in Hk. subst k.
    exists ((m + 1) / 2)%Z, 0%Z. split.
    + split; [apply Z.div_pos; lia|].
      apply Z.div_lt_upper_bound; lia.
    + split; [lia|]. rewrite Z.pow_0_r, Z.mul_1_r. reflexivity.
  - exists m, (t - 1)%Z. split; [lia|]. split; [lia|].
    subst k. replace t with (1 + (t - 1))%Z at 1 by lia.
    rewrite Z.pow_add_r by lia. rewrite Z.pow_1_r.
    replace (m * (2 * 2 ^ (t - 1)) + 1)%Z with (1 + (m * 2 ^ (t - 1)) * 2)%Z by ring.
    rewrite Z.div_add by lia. reflexivity.
Qed.

Lemma units_pos : 0 < units.
Proof. unfold units. apply pow2_pos. lia. Qed.

Lemma Qltb_ge (x y : Q) : Qltb x y = false <-> y <= x.
Proof.
  unfold Qltb. rewrite negb_false_iff. apply Qle_bool_iff.
Qed.

Lemma Qltb_comp (x x' y y' : Q) : x == x' -> y == y' -> Qltb x y = Qltb x' y'.
Proof.
  intros Hx Hy. unfold Qltb. f_equal. apply Qleb_comp; assumption.
Qed.

Lemma round_pos_comp (x y : Q) : x == y -> round_pos x = round_pos y.
Proof.
  intro H. unfold round_pos.
  assert (Hg : grid (x * units) = grid (y * units)).
  { apply grid_comp. rewrite H. reflexivity. }
  rewrite Hg. reflexivity.
Qed.

Lemma fl_comp (x y : Q) : x == y -> fl x = fl y.
Proof.
  intro H. unfold fl.
  rewrite (Qltb_comp H (Qeq_refl 0)).
  assert (Hn : - x == - y) by (rewrite H; reflexivity).
  rewrite (round_pos_comp H), (round_pos_comp Hn). reflexivity.
Qed.

Lemma round_pos_cases (x : Q) :
  0 <= x ->
  (round_pos x = Inf false) \/
  exists j, (0 <= j < 2 ^ 2098)%Z /\ rep j /\ j = grid (x * units) /\
            round_pos x = Fin (Qred (inject_Z j / units)).
Proof.
  intro H. unfold round_pos.
  assert (Hx : 0 <= x * units).
  { apply Qmult_le_0_compat; [exact H | apply Qlt_le_weak, units_pos]. }
  destruct (Z.leb_spec (2 ^ 2098) (grid (x * units))) as [Hov|Hok].
  - left. reflexivity.
  - right. exists (grid (x * units)).
    split; [split; [apply grid_nonneg; exact Hx | exact Hok]|].
    split; [apply grid_rep; exact Hx|]. split; reflexivity.
Qed.

Lemma round_pos_nonneg (x : Q) : 0 <= x -> nonneg (round_pos x).
Proof.
  intro H. destruct (round_pos_cases H) as [E|[j [[Hj0 _] [_ [_ E]]]]];
    rewrite E; unfold nonneg; [reflexivity|].
  rewrite Qred_correct. apply Qle_shift_div_l; [apply units_pos|].
  rewrite Qmult_0_l. change 0 with (inject_Z 0). rewrite <- Zle_Qle. exact Hj0.
Qed.

Lemma round_pos_mono (x y : Q) :
  0 <= x -> x <= y -> float_leb (round_pos x) (round_pos y) = true.
Proof.
  intros H0 H.
  assert (Hg : (grid (x * units) <= grid (y * units))%Z).
  { apply grid_mono.
    - apply Qmult_le_0_compat; [exact H0 | apply Qlt_le_weak, units_pos].
    - apply Qmult_le_compat_r; [exact H | apply Qlt_le_weak, units_pos]. }
  unfold round_pos.
  destruct (Z.leb_spec (2 ^ 2098) (grid (x * units))) as [Hx|Hx];
    destruct (Z.leb_spec (2 ^ 2098) (grid (y * units))) as [Hy|Hy];
    cbn [float_leb negb orb]; try reflexivity; [lia|].
  apply Qle_bool_iff. rewrite !Qred_correct. unfold Qdiv.
  apply Qmult_le_compat_r.
  - rewrite <- Zle_Qle. exact Hg.
  - apply Qinv_le_0_compat. apply Qlt_le_weak, units_pos.
Qed.

Lemma Qopp_opp (q : Q) : - - q = q.
Proof. destruct q as [n d]. unfold Qopp. simpl. rewrite Z.opp_involutive. reflexivity. Qed.

Lemma float_opp_opp (f : float) : float_opp (float_opp f) = f.
Proof.
  destruct f as [q|s|]; simpl; [rewrite Qopp_opp | rewrite negb_involutive |];
    reflexivity.
Qed.

Lemma float_leb_opp (a b : float) :
  float_leb (float_opp a) (float_opp b) = float_leb b a.
Proof.
  destruct a as [x|s|], b as [y|s'|]; simpl; try reflexivity.
  - destruct (Qle_bool (- x) (- y)) eqn:E1, (Qle_bool y x) eqn:E2; try reflexivity.
    + apply Qle_bool_iff in E1. apply Qopp_le_compat in E1.
      rewrite !Qopp_opp in E1. apply Qle_bool_iff in E1. congruence.
    + apply Qle_bool_iff in E2. apply Qopp_le_compat in E2.
      apply Qle_bool_iff in E2. congruence.
  - apply negb_involutive.
  - destruct s, s'; reflexivity.
Qed.

Lemma float_leb_opp_nonneg (a b : float) :
  nonneg a -> nonneg b -> float_leb (float_opp a) b = true.
Proof.
  destruct a as [x|s|], b as [y|s'|]; simpl; intros Ha Hb;
    try contradiction; subst; try reflexivity.
  apply Qle_bool_iff. lra.
Qed.

Lemma fl_nonneg (x : Q) : 0 <= x -> nonneg (fl x).
Proof.
  intro H. unfold fl.
  assert (E : Qltb x 0 = false) by (apply Qltb_ge; exact H).
  rewrite E. apply round_pos_nonneg. exact H.
Qed.

Lemma fl_mono (x y : Q) : x <= y -> float_leb (fl x) (fl y) = true.
Proof.
  intro H. unfold fl.
  destruct (Qltb x 0) eqn:Ex, (Qltb y 0) eqn:Ey.
  - rewrite float_leb_opp. apply Qltb_lt in Ey.
    apply round_pos_mono; lra.
  - apply Qltb_lt in Ex. apply Qltb_ge in Ey.
    apply float_leb_opp_nonneg; apply round_pos_nonneg; lra.
  - apply Qltb_ge in Ex. apply Qltb_lt in Ey. exfalso. lra.
  - apply Qltb_ge in Ex. apply round_pos_mono; assumption.
Qed.

Lemma fl_opp (x : Q) : fl (- x) = float_opp (fl x).
Proof.
  unfold fl.
  destruct (Qltb x 0) eqn:Ex, (Qltb (- x) 0) eqn:En.
  - apply Qltb_lt in Ex. apply Qltb_lt in En. exfalso. lra.
  - rewrite float_opp_opp. reflexivity.
  - rewrite Qopp_opp. reflexivity.
  - apply Qltb_ge in Ex. apply Qltb_ge in En.
    assert (Hx : x == 0) by lra.
    assert (Hn : - x == 0) by lra.
    rewrite (round_pos_comp Hx), (round_pos_comp Hn).
    vm_compute. reflexivity.
Qed.

Lemma Qred_canon (x : Q) : Qred (Qred x) = Qred x.
Proof. apply Qred_complete. apply Qred_correct. Qed.

Lemma round_pos_index (j : Z) :
  rep j -> (j < 2 ^ 2098)%Z ->
  round_pos (inject_Z j / units) = Fin (Qred (inject_Z j / units)).
Proof.
  intros Hr Hj. unfold round_pos.
  assert (Hg : grid (inject_Z j / units * units) = j).
  { rewrite <- (grid_rep_fix Hr) at 2. apply grid_comp.
    pose proof units_pos. field. lra. }
  rewrite Hg.
  destruct (Z.leb_spec (2 ^ 2098) j); [lia | reflexivity].
Qed.

Lemma round_pos_exact (x : Q) :
  0 <= x -> exact (round_pos x).
Proof.
  intro H. destruct (round_pos_cases H) as [E|[j [[Hj0 Hj] [Hr [_ E]]]]];
    rewrite E; cbn [exact]; [exact I|].
  unfold fl.
  assert (Hq : 0 <= Qred (inject_Z j / units)).
  { rewrite Qred_correct. apply Qle_shift_div_l; [apply units_pos|].
    rewrite Qmult_0_l. change 0 with (inject_Z 0). rewrite <- Zle_Qle. exact Hj0. }
  assert (E0 : Qltb (Qred (inject_Z j / units)) 0 = false) by (apply Qltb_ge; exact Hq).
  rewrite E0.
  rewrite (round_pos_comp (Qred_correct (inject_Z j / units))).
  rewrite (round_pos_index Hr Hj). reflexivity.
Qed.

Lemma exact_opp (f : float) : exact f -> exact (float_opp f).
Proof.
  destruct f as [q|s|]; simpl; auto.
  intro H. rewrite fl_opp, H. reflexivity.
Qed.

Lemma fl_exact (x : Q) : exact (fl x).
Proof.
  unfold fl. destruct (Qltb x 0) eqn:E.
  - apply exact_opp. apply round_pos_exact. apply Qltb_lt in E. lra.
  - apply round_pos_exact. apply Qltb_ge. exact E.
Qed.

(** A finite, non-negative float is a count of units. *)
Lemma exact_index (q : Q) :
  fl q = Fin q -> 0 <= q ->
  exists j, (0 <= j < 2 ^ 2098)%Z /\ rep j /\ q == inject_Z j / units.
Proof.
  intros Hf H0. unfold fl in Hf.
  assert (E0 : Qltb q 0 = false) by (apply Qltb_ge; exact H0).
  rewrite E0 in Hf.
  destruct (round_pos_cases H0) as [E|[j [Hj [Hr [_ E]]]]];
    rewrite E in Hf; [discriminate|].
  assert (Hq : Qred (inject_Z j / units) = q) by congruence.
  exists j. split; [exact Hj|]. split; [exact Hr|].
  rewrite <- Hq. apply Qred_correct.
Qed.

Lemma index_exact (j : Z) :
  rep j -> (j < 2 ^ 2098)%Z ->
  fl (inject_Z j / units) = Fin (Qred (inject_Z j / units)).
Proof.
  intros Hr Hj. unfold fl.
  assert (H0 : 0 <= inject_Z j / units).
  { apply Qle_shift_div_l; [apply units_pos|]. rewrite Qmult_0_l.
    change 0 with (inject_Z 0). rewrite <- Zle_Qle. apply rep_nonneg. exact Hr. }
  assert (E0 : Qltb (inject_Z j / units) 0 = false) by (apply Qltb_ge; exact H0).
  rewrite E0. apply round_pos_index; assumption.
Qed.

Lemma float_ltb_not_leb (a b : float) :
  float_ltb a b = true -> float_leb b a = false.
Proof.
  destruct a as [x|s|], b as [y|s'|]; simpl; try discriminate.
  - unfold Qltb. intro H. apply negb_true_iff in H. exact H.
  - intro H. apply negb_true_iff in H. exact H.
  - intro H. subst s. reflexivity.
  - destruct s, s'; simpl; congruence.
Qed.

Lemma fl_at_least (b x : Q) :
  fl b = Fin b -> b <= x -> float_leb (Fin b) (fl x) = true.
Proof. intros Hb H. rewrite <- Hb. apply fl_mono. exact H. Qed.

Lemma fl_at_most (b x : Q) :
  fl b = Fin b -> x <= b -> float_leb (fl x) (Fin b) = true.
Proof. intros Hb H. rewrite <- Hb. apply fl_mono. exact H. Qed.

Lemma exact_units (q : Q) :
  fl q = Fin q -> 0 <= q ->
  exists j, (0 <= j < 2 ^ 2098)%Z /\ rep j /\ q * units == inject_Z j.
Proof.
  intros Hf H0. destruct (exact_index Hf H0) as [j [Hj [Hr Hq]]].
  exists j. split; [exact Hj|]. split; [exact Hr|].
  rewrite Hq. pose proof units_pos. field. lra.
Qed.

Lemma units_exact (j : Z) (q : Q) :
  rep j -> (j < 2 ^ 2098)%Z -> q * units == inject_Z j ->
  fl (Qred q) = Fin (Qred q).
Proof.
  intros Hr Hj Hq.
  assert (E : q == inject_Z j / units).
  { rewrite <- Hq. pose proof units_pos. field. lra. }
  rewrite (fl_comp (Qred_correct q)), (fl_comp E), (index_exact Hr Hj).
  f_equal. apply Qred_complete. symmetry. exact E.
Qed.

(** The difference of two floats, one at least 1.5 times the other, is
    bounded below by a float that is at least half the smaller. *)
Lemma difference_at_least_half (r o : Q) :
  fl r = Fin r -> fl o = Fin o -> 0 < o -> o * 1.5 <= r ->
  exists h, fl h = Fin h /\ o * (1 # 2) <= h /\ h <= r - o.
Proof.
  intros Hr Ho Hpos Hle.
  destruct (@exact_units r Hr) as [j [[Hj0 Hj] [Rj Ej]]]; [lra|].
  destruct (@exact_units o Ho) as [k [[Hk0 Hk] [Rk Ek]]]; [lra|].
  pose proof units_pos as Hu.
  assert (H3 : (3 * k <= 2 * j)%Z).
  { rewrite Zle_Qle, !inject_Z_mult, <- Ej, <- Ek.
    change (inject_Z 3) with 3. change (inject_Z 2) with 2.
    assert (o * 1.5 * units <= r * units).
    { apply Qmult_le_compat_r; [exact Hle | lra]. }
    lra. }
  set (hi := ((k + 1) / 2)%Z).
  assert (Hhi : (k <= 2 * hi)%Z /\ (hi <= j - k)%Z /\ (hi <= k)%Z /\ (0 <= hi)%Z).
  { unfold hi. pose proof (Z.div_mod (k + 1) 2).
    pose proof (Z.mod_pos_bound (k + 1) 2). lia. }
  destruct Hhi as [H1 [H2 [H4 H5]]].
  exists (Qred (inject_Z hi / units)).
  assert (Eh : inject_Z hi / units * units == inject_Z hi) by (field; lra).
  split; [|split].
  - apply (@units_exact hi); [apply rep_half_up; exact Rk | lia | exact Eh].
  - rewrite Qred_correct.
    apply Qle_shift_div_l; [exact Hu|].
    assert (Hk2 : inject_Z k <= 2 * inject_Z hi).
    { change 2 with (inject_Z 2). rewrite <- inject_Z_mult, <- Zle_Qle. lia. }
    assert (o * (1 # 2) * units == inject_Z k * (1 # 2)) by (rewrite <- Ek; ring).
    rewrite H. lra.
  - rewrite Qred_correct.
    apply Qle_shift_div_r; [exact Hu|].
    assert ((r - o) * units == inject_Z (j - k)).
    { unfold Z.sub. rewrite inject_Z_plus, inject_Z_opp, <- Ej, <- Ek. ring. }
    rewrite H, <- Zle_Qle. exact H2.
Qed.

(** Mirror image: a float at most half of another is below it by at least
    half. *)
Lemma difference_at_most_half (r o : Q) :
  fl r = Fin r -> fl o = Fin o -> 0 <= r -> 0 < o -> r <= o * 0.5 ->
  exists h, fl h = Fin h /\ h <= - (o * (1 # 2)) /\ r - o <= h.
Proof.
  intros Hr Ho Hr0 Hpos Hle.
  destruct (@exact_units r Hr Hr0) as [j [[Hj0 Hj] [Rj Ej]]].
  destruct (@exact_units o Ho) as [k [[Hk0 Hk] [Rk Ek]]]; [lra|].
  pose proof units_pos as Hu.
  assert (H3 : (2 * j <= k)%Z).
  { rewrite Zle_Qle, !inject_Z_mult, <- Ej, <- Ek.
    change (inject_Z 2) with 2.
    assert (r * units <= o * 0.5 * units).
    { apply Qmult_le_compat_r; [exact Hle | lra]. }
    lra. }
  set (hi := ((k + 1) / 2)%Z).
  assert (Hhi : (k <= 2 * hi)%Z /\ (hi <= k - j)%Z /\ (hi <= k)%Z /\ (0 <= hi)%Z).
  { unfold hi. pose proof (Z.div_mod (k + 1) 2).
    pose proof (Z.mod_pos_bound (k + 1) 2). lia. }
  destruct Hhi as [H1 [H2 [H4 H5]]].
  exists (- Qred (inject_Z hi / units)).
  assert (Eh : inject_Z hi / units * units == inject_Z hi) by (field; lra).
  split; [|split].
  - rewrite fl_opp.
    rewrite (@units_exact hi); [reflexivity | apply rep_half_up; exact Rk | lia | exact Eh].
  - apply Qopp_le_compat. rewrite Qred_correct.
    apply Qle_shift_div_l; [exact Hu|].
    assert (Hk2 : inject_Z k <= 2 * inject_Z hi).
    { change 2 with (inject_Z 2). rewrite <- inject_Z_mult, <- Zle_Qle. lia. }
    assert (o * (1 # 2) * units == inject_Z k * (1 # 2)) by (rewrite <- Ek; ring).
    rewrite H. lra.
  - rewrite Qred_correct.
    assert (Hx : inject_Z hi / units <= o - r).
    { apply Qle_shift_div_r; [exact Hu|].
      assert ((o - r) * units == inject_Z (k - j)).
      { unfold Z.sub. rewrite inject_Z_plus, inject_Z_opp, <- Ej, <- Ek. ring. }
      rewrite H, <- Zle_Qle. exact H2. }
    lra.
Qed.

Lemma round_1_ge_50 (x : Q) : 50 <= x -> 50 <= round x 1.
Proof.
  intro H. unfold round. rewrite Qred_correct.
  change (inject_Z (10 ^ Z.of_nat 1)) with (inject_Z 10).
  assert (Hr : (500 <= round_half_even (x * inject_Z 10))%Z).
  { rewrite <- (round_half_even_Z 500) at 1. apply round_half_even_mono.
    change (inject_Z 500) with (50 * inject_Z 10).
    apply Qmult_le_compat_r; [exact H | unfold Qle; simpl; lia]. }
  apply Qle_shift_div_l; [reflexivity|].
  change (50 * inject_Z 10) with (inject_Z 500). rewrite <- Zle_Qle. exact Hr.
Qed.

Lemma round_1_le_minus_50 (x : Q) : x <= -50 -> round x 1 <= -50.
Proof.
  intro H. unfold round. rewrite Qred_correct.
  change (inject_Z (10 ^ Z.of_nat 1)) with (inject_Z 10).
  assert (Hr : (round_half_even (x * inject_Z 10) <= -500)%Z).
  { rewrite <- (round_half_even_Z (-500)). apply round_half_even_mono.
    change (inject_Z (-500)) with (-50 * inject_Z 10).
    apply Qmult_le_compat_r; [exact H | unfold Qle; simpl; lia]. }
  apply Qle_shift_div_r; [reflexivity|].
  change (-50 * inject_Z 10) with (inject_Z (-500)). rewrite <- Zle_Qle. exact Hr.
Qed.

Lemma half_exact : fl (1 # 2) = Fin (1 # 2).
Proof. vm_compute. reflexivity. Qed.

Lemma minus_half_exact : fl (- (1 # 2)) = Fin (- (1 # 2)).
Proof. vm_compute. reflexivity. Qed.

Lemma fifty_exact : fl 50 = Fin 50.
Proof. vm_compute. reflexivity. Qed.

Lemma minus_fifty_exact : fl (-50) = Fin (-50).
Proof. vm_compute. reflexivity. Qed.

Lemma quotient_at_least (d : float) (h o : Q) :
  float_leb (Fin h) d = true -> o * (1 # 2) <= h -> 0 < o ->
  float_leb (Fin (1 # 2)) (float_div d (Fin o)) = true.
Proof.
  intros Hd Hh Ho. destruct d as [x|s|]; cbn [float_leb float_div] in *;
    try discriminate.
  - apply Qle_bool_iff in Hd. apply fl_at_least; [exact half_exact|].
    apply Qle_shift_div_l; [exact Ho | lra].
  - apply negb_true_iff in Hd. subst s.
    assert (E : Qltb o 0 = false) by (apply Qltb_ge; lra).
    rewrite E. reflexivity.
Qed.

Lemma quotient_at_most (d : float) (h o : Q) :
  float_leb d (Fin h) = true -> h <= - (o * (1 # 2)) -> 0 < o ->
  float_leb (float_div d (Fin o)) (Fin (- (1 # 2))) = true.
Proof.
  intros Hd Hh Ho. destruct d as [x|s|]; cbn [float_leb float_div] in *;
    try discriminate.
  - apply Qle_bool_iff in Hd. apply fl_at_most; [exact minus_half_exact|].
    apply Qle_shift_div_r; [exact Ho | lra].
  - subst s.
    assert (E : Qltb o 0 = false) by (apply Qltb_ge; lra).
    rewrite E. reflexivity.
Qed.

Lemma times_100_at_least (q : float) :
  float_leb (Fin (1 # 2)) q = true ->
  float_leb (Fin 50) (float_mul q (Fin 100)) = true.
Proof.
  intro H. destruct q as [x|s|]; cbn [float_leb float_mul] in *; try discriminate.
  - apply Qle_bool_iff in H. apply fl_at_least; [exact fifty_exact | lra].
  - apply negb_true_iff in H. subst s. reflexivity.
Qed.

Lemma times_100_at_most (q : float) :
  float_leb q (Fin (- (1 # 2))) = true ->
  float_leb (float_mul q (Fin 100)) (Fin (-50)) = true.
Proof.
  intro H. destruct q as [x|s|]; cbn [float_leb float_mul] in *; try discriminate.
  - apply Qle_bool_iff in H. apply fl_at_most; [exact minus_fifty_exact | lra].
  - subst s. reflexivity.
Qed.

Lemma rounded_at_least_50 (c : float) :
  float_leb (Fin 50) c = true -> float_leb (Fin 50) (float_round c 1) = true.
Proof.
  intro H. destruct c as [x|s|]; cbn [float_leb float_round] in *;
    try discriminate; [|exact H].
  apply Qle_bool_iff in H. apply fl_at_least; [exact fifty_exact|].
  apply round_1_ge_50. exact H.
Qed.

Lemma rounded_at_most_minus_50 (c : float) :
  float_leb c (Fin (-50)) = true ->
  float_leb (float_round c 1) (Fin (-50)) = true.
Proof.
  intro H. destruct c as [x|s|]; cbn [float_leb float_round] in *;
    try discriminate; [|exact H].
  apply Qle_bool_iff in H. apply fl_at_most; [exact minus_fifty_exact|].
  apply round_1_le_minus_50. exact H.
Qed.

Lemma positive_of_nonzero (o : Q) :
  0 <= o -> float_is_zero (Fin o) = false -> 0 < o.
Proof.
  intros H0 Hz. simpl in Hz. apply Qeq_bool_neq in Hz.
  apply Qle_lteq in H0. destruct H0 as [H0|H0]; [exact H0|].
  exfalso. apply Hz. symmetry. exact H0.
Qed.

(** A dataset listed as worse has grown by at least one half. *)
Lemma worse_change (recent older : float) :
  exact recent -> exact older -> nonneg recent -> nonneg older ->
  float_is_zero older = false ->
  worse_than recent older ->
  float_leb (Fin 50) (float_round (change recent older) 1) = true.
Proof.
  intros Er Eo Nr No Hz Hw. unfold worse_than in Hw.
  destruct older as [o|s|]; cbn [nonneg exact] in *; [| |contradiction].
  - pose proof (positive_of_nonzero No Hz) as Hpos.
    apply rounded_at_least_50. unfold change. apply times_100_at_least.
    destruct recent as [r|s|]; cbn [nonneg exact] in *; [| |contradiction].
    + cbn [float_mul] in Hw.
      assert (Hle : o * 1.5 <= r).
      { apply Qnot_lt_le. intro Hlt.
        pose proof (fl_mono (Qlt_le_weak _ _ Hlt)) as Hm.
        rewrite Er in Hm. rewrite (float_ltb_not_leb _ _ Hw) in Hm. discriminate. }
      destruct (difference_at_least_half Er Eo Hpos Hle) as [h [Eh [Hh Hd]]].
      apply (@quotient_at_least _ h o); [|exact Hh | exact Hpos].
      unfold float_sub. cbn [float_opp float_add].
      apply fl_at_least; [exact Eh | exact Hd].
    + subst s. unfold float_sub. cbn [float_opp float_add float_div].
      assert (E : Qltb o 0 = false) by (apply Qltb_ge; lra).
      rewrite E. reflexivity.
  - subst s. exfalso. cbn in Hw. destruct recent as [r|s|]; cbn in Hw; discriminate.
Qed.

(** A dataset listed as better, with a finite older average, has shrunk by
    at least one half. *)
Lemma better_change (recent older : float) :
  exact recent -> exact older -> nonneg recent -> nonneg older ->
  float_is_zero older = false -> older <> Inf false ->
  better_than recent older ->
  float_leb (float_round (change recent older) 1) (Fin (-50)) = true.
Proof.
  intros Er Eo Nr No Hz Hfin Hb. unfold better_than in Hb.
  destruct older as [o|s|]; cbn [nonneg exact] in *;
    [|subst s; congruence|contradiction].
  pose proof (positive_of_nonzero No Hz) as Hpos.
  apply rounded_at_most_minus_50. unfold change. apply times_100_at_most.
  destruct recent as [r|s|]; cbn [nonneg exact] in *; [| |contradiction].
  - cbn [float_mul] in Hb.
    assert (Hle : r <= o * 0.5).
    { apply Qnot_lt_le. intro Hlt.
      pose proof (fl_mono (Qlt_le_weak _ _ Hlt)) as Hm.
      rewrite Er in Hm. rewrite (float_ltb_not_leb _ _ Hb) in Hm. discriminate. }
    destruct (difference_at_most_half Er Eo Nr Hpos Hle) as [h [Eh [Hh Hd]]].
    apply (@quotient_at_most _ h o); [|exact Hh | exact Hpos].
    unfold float_sub. cbn [float_opp float_add].
    apply fl_at_most; [exact Eh | exact Hd].
  - subst s. exfalso. cbn [float_ltb] in Hb.
    destruct (float_mul (Fin o) (Fin 0.5)); discriminate.
Qed.

Ltac script_unfold :=
  unfold try_except_all, try_except, bind, executeCommand, lift, ret,
    return_error in *.

(** *** verify_dataset_freshness *)

(** What [verify_dataset_freshness] computes from the oracle's answer. *)
Lemma verify_dataset_freshness_run (d : platform) (log : list command) :
  verify_dataset_freshness d log =
  (Val match oracle d freshness_command with
       | ExecReturns (e :: _) =>
           if type_is_error e then not_fresh
           else match contents_results e with
                | Val (r0 :: _) =>
                    match py_lt (get r0 "minutes_old" (VNum 999)) 35 with
                    | Val fresh =>
                        {| is_fresh := fresh;
                           minutes_old := get r0 "minutes_old" (VNum 999);
                           last_update := get r0 "latest_check" VNone |}
                    | _ => not_fresh
                    end
                | _ => not_fresh
                end
       | _ => not_fresh
       end,
   log ++ [freshness_command]).
Proof.
  unfold verify_dataset_freshness. script_unfold.
  destruct (oracle d freshness_command) as [e|[|e rest]]; try reflexivity.
  destruct (type_is_error e); simpl; try reflexivity.
  destruct (contents_results e) as [[|r0 data]| |]; try reflexivity.
  destruct (py_lt (get r0 "minutes_old" (VNum 999)) 35); reflexivity.
Qed.

(** The verdict is always self-consistent: [is_fresh] holds exactly when the
    reported [minutes_old] is a number below 35. *)
Lemma verdict_consistent (d : platform) (log : list command) :
  exists v m,
    verify_dataset_freshness d log = (Val v, log ++ [freshness_command]) /\
    minutes_old v = VNum m /\ (is_fresh v = true <-> m < 35).
Proof.
  rewrite verify_dataset_freshness_run.
  assert (Hdef : exists m, minutes_old not_fresh = VNum m /\
                           (is_fresh not_fresh = true <-> m < 35)).
  { exists 999. split; [reflexivity|]. simpl. split; [discriminate|].
    intro H. exfalso. revert H. apply Qle_not_lt. discriminate. }
  destruct (oracle d freshness_command) as [e|[|e rest]];
    try (destruct Hdef as [m' Hm]; eexists; exists m'; split; [reflexivity|exact Hm]).
  destruct (type_is_error e);
    try (destruct Hdef as [m' Hm]; eexists; exists m'; split; [reflexivity|exact Hm]).
  destruct (contents_results e) as [[|r0 data]| |];
    try (destruct Hdef as [m' Hm]; eexists; exists m'; split; [reflexivity|exact Hm]).
  destruct (get r0 "minutes_old" (VNum 999)) as [|q|s] eqn:Eq; simpl;
    try (destruct Hdef as [m' Hm]; eexists; exists m'; split; [reflexivity|exact Hm]).
  eexists; exists q. split; [reflexivity|]. simpl. split; [reflexivity|].
  apply Qltb_lt.
Qed.

(** C5: [verify_dataset_freshness] always returns a verdict, never an
    exception or an exit; when the query raises, returns no entry, returns an
    error-typed entry, or returns an entry without records, the verdict is
    the conservative [{is_fresh: False, minutes_old: 999, last_update: None}]. *)
Theorem verify_dataset_freshness_never_raises (d : platform) (log : list command) :
  exists v,
    verify_dataset_freshness d log = (Val v, log ++ [freshness_command]) /\
    (forall e, oracle d freshness_command = ExecRaises e -> v = not_fresh) /\
    (oracle d freshness_command = ExecReturns [] -> v = not_fresh) /\
    (forall e rest, oracle d freshness_command = ExecReturns (e :: rest) ->
                    type_is_error e = true -> v = not_fresh) /\
    (forall e rest, oracle d freshness_command = ExecReturns (e :: rest) ->
                    contents_results e = Val [] -> v = not_fresh) /\
    (forall e rest x, oracle d freshness_command = ExecReturns (e :: rest) ->
                    contents_results e = Raise x -> v = not_fresh).
Proof.
  rewrite verify_dataset_freshness_run. eexists. split; [reflexivity|].
  repeat split.
  - intros e H. rewrite H. reflexivity.
  - intros H. rewrite H. reflexivity.
  - intros e rest H Ht. rewrite H, Ht. reflexivity.
  - intros e rest H Hc. rewrite H, Hc. destruct (type_is_error e); reflexivity.
  - intros e rest x H Hc. rewrite H, Hc. destruct (type_is_error e); reflexivity.
Qed.

(** *** The modelled engine on the freshness query *)

Import XqlModel.

Lemma fold_left_Qmaxb (rest : list Q) (q : Q) :
  let m := fold_left Qmaxb rest q in
  (m = q \/ In m rest) /\ q <= m /\ (forall c, In c rest -> c <= m).
Proof.
  revert q. induction rest as [|x rest IH]; intros q; simpl.
  - split; [left; reflexivity|]. split; [apply Qle_refl|]. intros c [].
  - destruct (IH (Qmaxb q x)) as [Hin [Hle Hall]].
    assert (Hq : q <= Qmaxb q x /\ x <= Qmaxb q x /\ (Qmaxb q x = q \/ Qmaxb q x = x)).
    { unfold Qmaxb. destruct (Qle_bool q x) eqn:E.
      - apply Qle_bool_iff in E. repeat split; auto. apply Qle_refl.
      - repeat split; auto; [apply Qle_refl|].
        apply Qlt_le_weak. apply Qltb_lt. unfold Qltb. rewrite E. reflexivity. }
    destruct Hq as [Hq1 [Hq2 Hq3]].
    split; [|split].
    + destruct Hin as [Hm|Hm].
      * rewrite Hm. destruct Hq3 as [H|H]; rewrite H; auto.
      * right. right. exact Hm.
    + eapply Qle_trans; eauto.
    + intros c [Hc|Hc].
      * subst c. eapply Qle_trans; eauto.
      * apply Hall; exact Hc.
Qed.

Lemma maximum_spec (qs : list Q) :
  qs <> [] ->
  exists m, maximum qs = Some m /\ In m qs /\ (forall c, In c qs -> c <= m).
Proof.
  destruct qs as [|q rest]; [congruence|]. intros _.
  destruct (fold_left_Qmaxb rest q) as [Hin [Hle Hall]].
  exists (fold_left Qmaxb rest q). split; [reflexivity|]. split.
  - destruct Hin as [H|H]; [left; symmetry; exact H | right; exact H].
  - intros c [Hc|Hc]; [subst c; exact Hle | apply Hall; exact Hc].
Qed.

(** The freshness query on a window with at least one timestamped record:
    one row, holding the latest check and its age in minutes. *)
Lemma run_freshness_query (s : store) :
  column "check_time" (window s data_source_health 2) <> [] ->
  exists latest,
    In latest (column "check_time" (window s data_source_health 2)) /\
    (forall c, In c (column "check_time" (window s data_source_health 2)) ->
               c <= latest) /\
    run s freshness_query =
    Some [[("latest_check", VNum latest);
           ("minutes_old", VNum ((current_time s - latest) / 60))]]%string.
Proof.
  intros Hne. destruct (maximum_spec Hne) as [m [Hm [Hin Hall]]].
  exists m. split; [exact Hin|]. split; [exact Hall|].
  unfold run, freshness_query, eval_stages, eval_stage.
  rewrite Hm. reflexivity.
Qed.

(** C6: when the two-hour window holds a timestamped record and the platform
    answers the freshness query from it, the verdict reports
    [minutes_old = (now - latest_check) / 60] for the maximum [check_time] of
    the window, and [is_fresh] is [True] exactly when that age is below 35. *)
Theorem freshness_iff_under_35 (d : platform) (s : store) (log : list command) :
  serves d s freshness_query freshness_command ->
  column "check_time" (window s data_source_health 2) <> [] ->
  exists latest v,
    In latest (column "check_time" (window s data_source_health 2)) /\
    (forall c, In c (column "check_time" (window s data_source_health 2)) ->
               c <= latest) /\
    verify_dataset_freshness d log = (Val v, log ++ [freshness_command]) /\
    minutes_old v = VNum ((current_time s - latest) / 60) /\
    last_update v = VNum latest /\
    (is_fresh v = true <-> (current_time s - latest) / 60 < 35).
Proof.
  intros [rows [Hrun Horacle]] Hne.
  destruct (run_freshness_query s Hne) as [latest [Hin [Hall Hrows]]].
  rewrite Hrows in Hrun. injection Hrun as Hrun. subst rows.
  exists latest. eexists. split; [exact Hin|]. split; [exact Hall|].
  rewrite verify_dataset_freshness_run, Horacle.
  split; [reflexivity|]. split; [reflexivity|]. split; [reflexivity|].
  apply Qltb_lt.
Qed.

(** *** main of the health check *)

Lemma freshness_is_not_health (t : Q) : freshness_command <> health_command t.
Proof. unfold freshness_command, health_command. intro H. discriminate H. Qed.

(** C7: when the freshness verdict is not fresh, [main] ends in
    [return_error] with the message naming [minutes_old]; no outputs are
    produced and the only command issued is the freshness query, so the
    silent-source query is never run. *)
Theorem stale_dataset_hard_stop (d : platform) (log log' : list command)
    (t : Q) (v : verdict) :
  py_float d (get (args d) "threshold_hours" (VNum 1)) = Val t ->
  verify_dataset_freshness d log = (Val v, log') ->
  is_fresh v = false ->
  main d log = (Exit (Health_dataset_is_stale (minutes_old v)),
                log ++ [freshness_command]) /\
  (forall t', ~ In (health_command t') [freshness_command]).
Proof.
  intros Hfloat Hverify Hstale. split.
  - assert (Hlog : log' = log ++ [freshness_command]).
    { rewrite verify_dataset_freshness_run in Hverify. congruence. }
    subst log'. unfold main, bind at 1, lift. rewrite Hfloat.
    unfold bind at 1. rewrite Hverify.
    unfold bind at 1. rewrite Hstale. reflexivity.
  - intros t' [H|[]]. exact (freshness_is_not_health H).
Qed.

(** *** The two query functions, as functions of the oracle's answer *)

Import HealthTrends.

Lemma get_health_trends_run (d : platform) (name : option string) (hours : Z)
    (log : list command) :
  get_health_trends d name hours log =
  (match oracle d (trends_command name hours) with
   | ExecRaises x => Exit (Error_analyzing_trends x)
   | ExecReturns [] => Exit (Error_analyzing_trends IndexError)
   | ExecReturns (e :: _) =>
       if type_is_error e then Exit (Failed_to_get_trends (entry_Contents e))
       else match contents_results e with
            | Val trend_data =>
                match analyze trend_data with
                | Val r => Val r
                | Raise x => Exit (Error_analyzing_trends x)
                | Exit m => Exit m
                end
            | Raise x => Exit (Error_analyzing_trends x)
            | Exit m => Exit m
            end
   end,
   log ++ [trends_command name hours]).
Proof.
  unfold get_health_trends. script_unfold.
  destruct (oracle d (trends_command name hours)) as [x|[|e rest]];
    try reflexivity.
  simpl. destruct (type_is_error e); try reflexivity.
  destruct (contents_results e) as [td| |]; try reflexivity.
  destruct (analyze td); reflexivity.
Qed.

Lemma check_health_dataset_run (d : platform) (t : Q) (log : list command) :
  check_health_dataset d t log =
  (match oracle d (health_command t) with
   | ExecRaises x => Exit (Error_checking_health_dataset x)
   | ExecReturns [] => Exit (Error_checking_health_dataset IndexError)
   | ExecReturns (e :: _) =>
       if type_is_error e
       then Exit (Failed_to_query_health_dataset (entry_Contents e))
       else match contents_results e with
            | Val query_results =>
                match format_rows d query_results [] with
                | Val infos => Val infos
                | Raise x => Exit (Error_checking_health_dataset x)
                | Exit m => Exit m
                end
            | Raise x => Exit (Error_checking_health_dataset x)
            | Exit m => Exit m
            end
   end,
   log ++ [health_command t]).
Proof.
  unfold check_health_dataset. script_unfold.
  destruct (oracle d (health_command t)) as [x|[|e rest]]; try reflexivity.
  simpl. destruct (type_is_error e); try reflexivity.
  destruct (contents_results e) as [rows| |]; try reflexivity.
  destruct (format_rows d rows []); reflexivity.
Qed.

(** A returned trend result comes from analysing the rows of the first
    entry, which is not error-typed. *)
Lemma get_health_trends_returns (d : platform) (name : option string) (hours : Z)
    (log log' : list command) (r : trends_result) :
  get_health_trends d name hours log = (Val r, log') ->
  exists e rest trend_data,
    oracle d (trends_command name hours) = ExecReturns (e :: rest) /\
    type_is_error e = false /\
    contents_results e = Val trend_data /\
    analyze trend_data = Val r /\
    log' = log ++ [trends_command name hours].
Proof.
  rewrite get_health_trends_run. intro H.
  destruct (oracle d (trends_command name hours)) as [x|[|e rest]];
    try discriminate.
  destruct (type_is_error e) eqn:Et; try discriminate.
  destruct (contents_results e) as [td| |] eqn:Ec; try discriminate.
  destruct (analyze td) as [r'| |] eqn:Ea; try discriminate.
  injection H as Hr Hlog. subst r'.
  exists e, rest, td. repeat split; auto.
Qed.

Lemma analyze_raw_trends (trend_data : list row) (r : trends_result) :
  analyze trend_data = Val r ->
  raw_trends r = trend_data /\
  dataset_count r = List.length (group_by_dataset trend_data).
Proof.
  unfold analyze. destruct (analyze_all _ _) as [st| |]; simpl; try discriminate.
  intro H. injection H as H. subst r. split; reflexivity.
Qed.

(** C8: the outcome of [get_health_trends] is a function of the oracle's
    answer to its one query: two runs (on any two platforms, from any two
    logs) that get the same answer end in the same outcome; the run only
    appends that query to the log, and a returned [raw_trends] is the
    answered record list itself, unchanged. *)
Theorem get_health_trends_deterministic (d1 d2 : platform)
    (name : option string) (hours : Z) (log1 log2 : list command) :
  oracle d1 (trends_command name hours) = oracle d2 (trends_command name hours) ->
  fst (get_health_trends d1 name hours log1) =
  fst (get_health_trends d2 name hours log2) /\
  snd (get_health_trends d1 name hours log1) = log1 ++ [trends_command name hours] /\
  (forall r, fst (get_health_trends d1 name hours log1) = Val r ->
     exists e rest,
       oracle d1 (trends_command name hours) = ExecReturns (e :: rest) /\
       contents_results e = Val (raw_trends r)).
Proof.
  intro Hsame. split; [|split].
  - rewrite !get_health_trends_run, Hsame. reflexivity.
  - rewrite get_health_trends_run. reflexivity.
  - intros r Hr.
    destruct (get_health_trends d1 name hours log1) as [o l] eqn:Hrun.
    simpl in Hr. subst o.
    destruct (get_health_trends_returns _ _ _ _ Hrun)
      as [e [rest [td [Ho [_ [Hc [Ha _]]]]]]].
    exists e, rest. split; [exact Ho|].
    destruct (analyze_raw_trends _ Ha) as [Hraw _]. rewrite Hraw. exact Hc.
Qed.

(** *** The grouping loop *)

Import Vocabulary.

Lemma value_eqb_refl (v : value) : value_eqb v v = true.
Proof.
  destruct v; simpl; auto using Qeq_bool_refl, String.eqb_refl.
Qed.

Lemma keys_dict_append (dt : dict) (k : value) (r : row) (k' : value) :
  In k' (keys (dict_append dt k r)) -> In k' (keys dt) \/ k' = k.
Proof.
  induction dt as [|[k0 l0] dt IH]; simpl.
  - intros [H|[]]. right. symmetry. exact H.
  - destruct (value_eqb k0 k); simpl.
    + intro H. left. exact H.
    + intros [H|H]; [left; left; exact H|].
      destruct (IH H) as [H'|H']; [left; right; exact H' | right; exact H'].
Qed.

Lemma distinct_keys_dict_append (dt : dict) (k : value) (r : row) :
  distinct_keys (keys dt) -> distinct_keys (keys (dict_append dt k r)).
Proof.
  induction dt as [|[k0 l0] dt IH]; simpl.
  - intros _. split; [intros k' []|exact I].
  - intros [Hk0 Hrest]. destruct (value_eqb k0 k) eqn:E; simpl.
    + split; assumption.
    + split; [|apply IH; exact Hrest].
      intros k' Hin. destruct (keys_dict_append _ _ _ _ Hin) as [H|H].
      * apply Hk0. exact H.
      * subst k'. exact E.
Qed.

Lemma distinct_keys_NoDup (ks : list value) : distinct_keys ks -> NoDup ks.
Proof.
  induction ks as [|k ks IH]; simpl; intro H; constructor.
  - intro Hin. destruct H as [H _]. specialize (H k Hin).
    rewrite value_eqb_refl in H. discriminate.
  - apply IH. apply H.
Qed.

Lemma group_fold_invariant (trend_data : list row) (dt : dict) :
  let dt' := fold_left (fun dt r => dict_append dt (get r "dataset_name" VNone) r)
                       trend_data dt in
  (distinct_keys (keys dt) -> distinct_keys (keys dt')) /\
  (forall k, In k (keys dt') ->
     In k (keys dt) \/
     exists r, In r trend_data /\ k = get r "dataset_name" VNone).
Proof.
  revert dt. induction trend_data as [|r rest IH]; intros dt; simpl.
  - split; auto.
  - destruct (IH (dict_append dt (get r "dataset_name" VNone) r)) as [Hd Hk].
    split.
    + intro H. apply Hd. apply distinct_keys_dict_append. exact H.
    + intros k Hin. destruct (Hk k Hin) as [H|[r' [Hr' Hkr']]].
      * destruct (keys_dict_append _ _ _ _ H) as [H'|H'].
        -- left. exact H'.
        -- right. exists r. split; [left; reflexivity | exact H'].
      * right. exists r'. split; [right; exact Hr' | exact Hkr'].
Qed.

Lemma group_by_dataset_NoDup (trend_data : list row) :
  NoDup (keys (group_by_dataset trend_data)).
Proof.
  apply distinct_keys_NoDup.
  apply (proj1 (group_fold_invariant trend_data [])). exact I.
Qed.

Lemma group_by_dataset_keys (trend_data : list row) (k : value) :
  In k (keys (group_by_dataset trend_data)) ->
  exists r, In r trend_data /\ k = get r "dataset_name" VNone.
Proof.
  intro H. destruct (proj2 (group_fold_invariant trend_data []) k H) as [[]|H'].
  exact H'.
Qed.

(** *** The classification loop *)

Lemma make_trend_val (k : value) (recent older : float) (t : trend) :
  make_trend k recent older = Val t ->
  float_is_zero older = false /\ reports t k recent older.
Proof.
  unfold make_trend, float_truediv.
  destruct (float_is_zero older) eqn:E; cbn [obind]; [discriminate|].
  intro H. injection H as H. subst t. split; [reflexivity|].
  repeat split.
Qed.

Lemma make_trend_zero (k : value) (recent older : float) :
  float_is_zero older = true ->
  make_trend k recent older = Raise ZeroDivisionError.
Proof.
  intro H. unfold make_trend, float_truediv. rewrite H. reflexivity.
Qed.

Lemma make_trend_nonzero (k : value) (recent older : float) :
  float_is_zero older = false ->
  make_trend k recent older =
  Val {| dataset := k;
         recent_avg_silent := float_round recent 2;
         older_avg_silent := float_round older 2;
         change_percent := float_round (change recent older) 1 |}.
Proof.
  intro H. unfold make_trend, float_truediv. rewrite H. reflexivity.
Qed.

Lemma not_worse (recent older : float) :
  float_ltb (float_mul older (Fin 1.5)) recent = false -> ~ worse_than recent older.
Proof. unfold worse_than. intros H H'. congruence. Qed.

Lemma not_better (recent older : float) :
  float_ltb recent (float_mul older (Fin 0.5)) = false -> ~ better_than recent older.
Proof. unfold better_than. intros H H'. congruence. Qed.

(** One iteration extends the two lists by what [classified] allows. *)
Lemma analyze_dataset_step (k : value) (l : list row)
    (st st' : list trend * list trend) :
  analyze_dataset k l st = Val st' ->
  exists w b,
    st' = (fst st ++ w, snd st ++ b) /\
    forall items w' b',
      classified items w' b' -> classified ((k, l) :: items) (w ++ w') (b ++ b').
Proof.
  destruct st as [ws bs]. unfold analyze_dataset. simpl fst. simpl snd.
  destruct (Nat.leb_spec 2 (List.length l)) as [Hlen|Hlen].
  - destruct (recent_avg_of l) as [recent| |] eqn:Er; cbn [obind]; try discriminate.
    destruct (older_avg_of l) as [older| |] eqn:Eo; cbn [obind]; try discriminate.
    destruct (float_ltb (float_mul older (Fin 1.5)) recent) eqn:Ew.
    + destruct (make_trend k recent older) as [t| |] eqn:Et; cbn [obind];
        try discriminate.
      intro H. injection H as H. subst st'.
      destruct (make_trend_val _ _ _ Et) as [Hnz Hrep].
      exists [t], []. rewrite app_nil_r. split; [reflexivity|].
      intros items w' b' Hc. simpl.
      eapply classified_worse; eauto. split; assumption.
    + destruct (float_ltb recent (float_mul older (Fin 0.5))) eqn:Eb.
      * destruct (make_trend k recent older) as [t| |] eqn:Et; cbn [obind];
          try discriminate.
        intro H. injection H as H. subst st'.
        destruct (make_trend_val _ _ _ Et) as [Hnz Hrep].
        exists [], [t]. rewrite app_nil_r. split; [reflexivity|].
        intros items w' b' Hc. simpl.
        eapply classified_better; eauto.
        -- split; assumption.
        -- apply not_worse. exact Ew.
      * intro H. injection H as H. subst st'.
        exists [], []. rewrite !app_nil_r. split; [reflexivity|].
        intros items w' b' Hc. simpl.
        eapply classified_stable; eauto.
        -- split; eassumption.
        -- apply not_worse. exact Ew.
        -- apply not_better. exact Eb.
  - intro H. injection H as H. subst st'.
    exists [], []. rewrite !app_nil_r. split; [reflexivity|].
    intros items w' b' Hc. simpl. apply classified_single; assumption.
Qed.

Lemma analyze_all_classified (items : dict) (st st' : list trend * list trend) :
  analyze_all items st = Val st' ->
  exists w b, st' = (fst st ++ w, snd st ++ b) /\ classified items w b.
Proof.
  revert st. induction items as [|[k l] items IH]; intros st; simpl.
  - intro H. injection H as H. subst st'. exists [], [].
    rewrite !app_nil_r. split; [destruct st; reflexivity | constructor].
  - destruct (analyze_dataset k l st) as [st1| |] eqn:E1; simpl; try discriminate.
    intro H. destruct (IH _ H) as [w' [b' [Hst' Hc]]].
    destruct (analyze_dataset_step _ _ _ E1) as [w [b [Hst1 Hstep]]].
    exists (w ++ w'), (b ++ b'). split.
    + rewrite Hst', Hst1. simpl. rewrite <- !app_assoc. reflexivity.
    + apply Hstep. exact Hc.
Qed.

Lemma analyze_classified (trend_data : list row) (r : trends_result) :
  analyze trend_data = Val r ->
  classified (group_by_dataset trend_data) (trending_worse r) (trending_better r).
Proof.
  unfold analyze.
  destruct (analyze_all (group_by_dataset trend_data) ([], [])) as [st| |] eqn:E;
    simpl; try discriminate.
  intro H. injection H as H. subst r. simpl.
  destruct (analyze_all_classified _ _ E) as [w [b [Hst Hc]]].
  subst st. exact Hc.
Qed.

(** What [classified] says about names. *)
Lemma classified_names (items : dict) (w b : list trend) :
  classified items w b ->
  (forall n, In n (names w) -> In n (keys items)) /\
  (forall n, In n (names b) -> In n (keys items)).
Proof.
  induction 1 as [|k l items w b t recent older _ _ _ _ Hrep _ IH
                   |k l items w b t recent older _ _ _ _ _ Hrep _ IH
                   |k l items w b recent older _ _ _ _ _ IH
                   |k l items w b _ _ IH]; simpl.
  - split; intros n [].
  - destruct IH as [IHw IHb]. destruct Hrep as [Hd _]. split.
    + intros n [Hn|Hn]; [left; congruence | right; apply IHw; exact Hn].
    + intros n Hn. right. apply IHb; exact Hn.
  - destruct IH as [IHw IHb]. destruct Hrep as [Hd _]. split.
    + intros n Hn. right. apply IHw; exact Hn.
    + intros n [Hn|Hn]; [left; congruence | right; apply IHb; exact Hn].
  - destruct IH as [IHw IHb]. split; intros n Hn; right; auto.
  - destruct IH as [IHw IHb]. split; intros n Hn; right; auto.
Qed.

Lemma classified_disjoint (items : dict) (w b : list trend) :
  classified items w b -> NoDup (keys items) ->
  NoDup (names w) /\ NoDup (names b) /\
  (forall n, In n (names w) -> ~ In n (names b)).
Proof.
  induction 1 as [|k l items w b t recent older _ _ _ _ Hrep Hc IH
                   |k l items w b t recent older _ _ _ _ _ Hrep Hc IH
                   |k l items w b recent older _ _ _ _ Hc IH
                   |k l items w b _ Hc IH]; simpl; intro Hnd.
  - repeat split; try constructor. intros n [].
  - inversion Hnd as [|? ? Hk Hnd']; subst.
    destruct (IH Hnd') as [Hw [Hb Hwb]].
    destruct (classified_names Hc) as [Nw Nb]. destruct Hrep as [Hd _].
    repeat split; auto.
    + constructor; auto. rewrite Hd. intro Hin. apply Hk. apply Nw. exact Hin.
    + intros n [Hn|Hn].
      * subst n. rewrite Hd. intro Hin. apply Hk. apply Nb. exact Hin.
      * apply Hwb. exact Hn.
  - inversion Hnd as [|? ? Hk Hnd']; subst.
    destruct (IH Hnd') as [Hw [Hb Hwb]].
    destruct (classified_names Hc) as [Nw Nb]. destruct Hrep as [Hd _].
    repeat split; auto.
    + constructor; auto. rewrite Hd. intro Hin. apply Hk. apply Nb. exact Hin.
    + intros n Hn [Hn'|Hn'].
      * subst n. rewrite Hd in Hn. apply Hk. apply Nw. exact Hn.
      * exact (Hwb n Hn Hn').
  - inversion Hnd; subst. apply IH. assumption.
  - inversion Hnd; subst. apply IH. assumption.
Qed.

Lemma placed_weaken (k0 : value) (items : dict) (w b w0 b0 : list trend)
    (k : value) (l : list row) :
  ~ In k0 (keys items) -> In (k, l) items ->
  (forall n, In n (names w0) -> n = k0) ->
  (forall n, In n (names b0) -> n = k0) ->
  placed w b k l -> placed (w0 ++ w) (b0 ++ b) k l.
Proof.
  intros Hk0 Hin Hw0 Hb0 H.
  assert (Hne : k <> k0).
  { intro Heq. subst k0. apply Hk0. unfold keys.
    change k with (fst (k, l)). apply in_map. exact Hin. }
  assert (Hnw : forall x, ~ In k (names x) -> ~ In k (names (w0 ++ x))).
  { intros x Hx Hi. unfold names in Hi. rewrite map_app in Hi.
    apply in_app_or in Hi. destruct Hi as [Hi|Hi]; [|exact (Hx Hi)].
    apply Hne. apply Hw0. exact Hi. }
  assert (Hnb : forall x, ~ In k (names x) -> ~ In k (names (b0 ++ x))).
  { intros x Hx Hi. unfold names in Hi. rewrite map_app in Hi.
    apply in_app_or in Hi. destruct Hi as [Hi|Hi]; [|exact (Hx Hi)].
    apply Hne. apply Hb0. exact Hi. }
  destruct H as [[Hlen [H1 H2]]|[recent [older [Hlen [Hav H]]]]].
  - left. auto.
  - right. exists recent, older. split; [exact Hlen|]. split; [exact Hav|].
    destruct H as [[Hw [Hnz [[t [Ht Hrep]] Hb]]]
                  |[[Hw [Hb [Hnz [[t [Ht Hrep]] Hn]]]]
                   |[Hw [Hb [H1 H2]]]]].
    + left. repeat split; auto. exists t. split; [|exact Hrep].
      apply in_or_app. right. exact Ht.
    + right. left. repeat split; auto. exists t. split; [|exact Hrep].
      apply in_or_app. right. exact Ht.
    + right. right. auto.
Qed.

Lemma classified_lookup (items : dict) (w b : list trend) (k : value) (l : list row) :
  classified items w b -> NoDup (keys items) -> In (k, l) items ->
  placed w b k l.
Proof.
  intros Hc. revert k l.
  induction Hc as [|k0 l0 items w b t recent older Hlen Hav Hw Hnz Hrep Hc IH
                   |k0 l0 items w b t recent older Hlen Hav Hw Hb Hnz Hrep Hc IH
                   |k0 l0 items w b recent older Hlen Hav Hw Hb Hc IH
                   |k0 l0 items w b Hlen Hc IH];
    intros k l Hnd Hin.
  - destruct Hin.
  - inversion Hnd as [|? ? Hk0 Hnd']; subst.
    destruct (classified_names Hc) as [Nw Nb].
    destruct Hin as [Heq|Hin].
    + injection Heq as Hk Hl. subst k0 l0. right. exists recent, older.
      split; [exact Hlen|]. split; [exact Hav|]. left.
      repeat split; auto.
      exists t. split; [left; reflexivity | exact Hrep].
    + apply (@placed_weaken k0 items w b [t] [] k l Hk0 Hin).
      * intros n [Hn|[]]. destruct Hrep as [Hd _]. congruence.
      * intros n [].
      * apply IH; assumption.
  - inversion Hnd as [|? ? Hk0 Hnd']; subst.
    destruct (classified_names Hc) as [Nw Nb].
    destruct Hin as [Heq|Hin].
    + injection Heq as Hk Hl. subst k0 l0. right. exists recent, older.
      split; [exact Hlen|]. split; [exact Hav|]. right. left.
      repeat split; auto.
      exists t. split; [left; reflexivity | exact Hrep].
    + apply (@placed_weaken k0 items w b [] [t] k l Hk0 Hin).
      * intros n [].
      * intros n [Hn|[]]. destruct Hrep as [Hd _]. congruence.
      * apply IH; assumption.
  - inversion Hnd as [|? ? Hk0 Hnd']; subst.
    destruct (classified_names Hc) as [Nw Nb].
    destruct Hin as [Heq|Hin].
    + injection Heq as Hk Hl. subst k0 l0. right. exists recent, older.
      split; [exact Hlen|]. split; [exact Hav|]. right. right.
      repeat split; auto.
    + apply (@placed_weaken k0 items w b [] [] k l Hk0 Hin).
      * intros n [].
      * intros n [].
      * apply IH; assumption.
  - inversion Hnd as [|? ? Hk0 Hnd']; subst.
    destruct (classified_names Hc) as [Nw Nb].
    destruct Hin as [Heq|Hin].
    + injection Heq as Hk Hl. subst k0 l0. left. repeat split; auto.
    + apply (@placed_weaken k0 items w b [] [] k l Hk0 Hin).
      * intros n [].
      * intros n [].
      * apply IH; assumption.
Qed.

(** *** Results about get_health_trends *)

(** C10: in a returned result no dataset name occurs twice in
    [trending_worse], none occurs twice in [trending_better], and none occurs
    in both. *)
Theorem trending_lists_disjoint (d : platform) (name : option string) (hours : Z)
    (log log' : list command) (r : trends_result) :
  get_health_trends d name hours log = (Val r, log') ->
  NoDup (names (trending_worse r)) /\
  NoDup (names (trending_better r)) /\
  (forall n, In n (names (trending_worse r)) ->
             ~ In n (names (trending_better r))).
Proof.
  intro H.
  destruct (get_health_trends_returns _ _ _ _ H) as [e [rest [td [_ [_ [_ [Ha _]]]]]]].
  apply (classified_disjoint (analyze_classified _ Ha)).
  apply group_by_dataset_NoDup.
Qed.

(** C2, as the code has it: in a returned result, a dataset with at least two
    buckets is compared first-match-wins, in float arithmetic.  If
    [recent_avg > older_avg * 1.5] it is listed once under [trending_worse]
    (and not under [trending_better]); otherwise, if
    [recent_avg < older_avg * 0.5], it is listed under [trending_better]
    (and not under [trending_worse]); otherwise it is in neither list.  A
    listed entry carries the two averages rounded to two decimals and
    [change_percent = round((recent_avg - older_avg) / older_avg * 100, 1)],
    with [older_avg] not zero. *)
Theorem classification_first_match_wins (d : platform) (name : option string)
    (hours : Z) (log log' : list command) (r : trends_result)
    (k : value) (l : list row) :
  get_health_trends d name hours log = (Val r, log') ->
  In (k, l) (group_by_dataset (raw_trends r)) ->
  (2 <= List.length l)%nat ->
  exists recent older,
    recent_avg_of l = Val recent /\ older_avg_of l = Val older /\
    (float_ltb (float_mul older (Fin 1.5)) recent = true ->
       float_is_zero older = false /\
       (exists t, In t (trending_worse r) /\ dataset t = k /\
          recent_avg_silent t = float_round recent 2 /\
          older_avg_silent t = float_round older 2 /\
          change_percent t =
            float_round
              (float_mul (float_div (float_sub recent older) older) (Fin 100)) 1) /\
       ~ In k (names (trending_better r))) /\
    (float_ltb (float_mul older (Fin 1.5)) recent = false ->
     float_ltb recent (float_mul older (Fin 0.5)) = true ->
       float_is_zero older = false /\
       (exists t, In t (trending_better r) /\ dataset t = k /\
          recent_avg_silent t = float_round recent 2 /\
          older_avg_silent t = float_round older 2 /\
          change_percent t =
            float_round
              (float_mul (float_div (float_sub recent older) older) (Fin 100)) 1) /\
       ~ In k (names (trending_worse r))) /\
    (float_ltb (float_mul older (Fin 1.5)) recent = false ->
     float_ltb recent (float_mul older (Fin 0.5)) = false ->
       ~ In k (names (trending_worse r)) /\ ~ In k (names (trending_better r))).
Proof.
  intros H Hin Hlen.
  destruct (get_health_trends_returns _ _ _ _ H) as [e [rest [td [_ [_ [_ [Ha _]]]]]]].
  destruct (analyze_raw_trends _ Ha) as [Hraw _]. rewrite Hraw in Hin.
  pose proof (@classified_lookup _ _ _ k l (analyze_classified _ Ha)
                (group_by_dataset_NoDup td) Hin) as Hp.
  destruct Hp as [[Hshort _]|[recent [older [_ [[Hr Ho] Hp]]]]]; [lia|].
  exists recent, older. split; [exact Hr|]. split; [exact Ho|].
  unfold worse_than, better_than, reports, change in Hp.
  destruct Hp as [[Hw [Hnz [[t [Ht Hrep]] Hb]]]
                 |[[Hw [Hb [Hnz [[t [Ht Hrep]] Hn]]]]
                  |[Hw [Hb [H1 H2]]]]].
  - split; [|split].
    + intros _. split; [exact Hnz|]. split; [|exact Hb]. exists t. auto.
    + intros Hnw. congruence.
    + intros Hnw. congruence.
  - split; [|split].
    + intro Hw'. contradiction.
    + intros _ _. split; [exact Hnz|]. split; [|exact Hn]. exists t. auto.
    + intros _ Hnb. congruence.
  - split; [|split].
    + intro Hw'. contradiction.
    + intros _ Hb'. contradiction.
    + intros _ _. split; assumption.
Qed.

(** With at most three buckets there is no older bucket: [older_avg] is
    [0 / 1], the float 0. *)
Lemma older_avg_of_short (l : list row) :
  (List.length l <= 3)%nat -> older_avg_of l = Val (Fin 0).
Proof.
  intro Hlen. unfold older_avg_of, but_last3.
  replace (List.length l - 3)%nat with 0%nat by lia. simpl firstn.
  replace (Z.max 1 (Z.of_nat (List.length l) - 3)) with 1%Z by lia.
  vm_compute. reflexivity.
Qed.

Lemma zero_product (o c : Q) : o == 0 -> float_mul (Fin o) (Fin c) = Fin 0.
Proof.
  intro H. unfold float_mul.
  assert (E : o * c == 0) by (rewrite H; ring).
  rewrite (fl_comp E). vm_compute. reflexivity.
Qed.

(** Whenever a result is returned, a dataset with fewer than four buckets is
    in neither list, and it is one of the counted datasets. *)
Lemma short_history_unlisted (trend_data : list row) (r : trends_result)
    (k : value) (l : list row) :
  analyze trend_data = Val r ->
  In (k, l) (group_by_dataset trend_data) ->
  (List.length l < 4)%nat ->
  ~ In k (names (trending_worse r)) /\ ~ In k (names (trending_better r)) /\
  dataset_count r = List.length (keys (group_by_dataset trend_data)) /\
  In k (keys (group_by_dataset trend_data)).
Proof.
  intros Ha Hin Hlen.
  assert (Hcount : dataset_count r = List.length (keys (group_by_dataset trend_data)) /\
                   In k (keys (group_by_dataset trend_data))).
  { split.
    - unfold keys. rewrite length_map. apply (analyze_raw_trends _ Ha).
    - unfold keys. change k with (fst (k, l)). apply in_map. exact Hin. }
  pose proof (@classified_lookup _ _ _ k l (analyze_classified _ Ha)
                (group_by_dataset_NoDup trend_data) Hin) as Hp.
  assert (Hz : forall older, older_avg_of l = Val older -> float_is_zero older = true).
  { intros older Ho. rewrite older_avg_of_short in Ho by lia.
    injection Ho as Ho. subst older. reflexivity. }
  destruct Hp as [[_ [H1 H2]]|[recent [older [_ [[Hr Ho] Hp]]]]]; [tauto|].
  destruct Hp as [[_ [Hnz _]]|[[_ [_ [Hnz _]]]|[_ [_ [H1 H2]]]]].
  - exfalso. rewrite (Hz _ Ho) in Hnz. discriminate.
  - exfalso. rewrite (Hz _ Ho) in Hnz. discriminate.
  - tauto.
Qed.

(** The unguarded division: a dataset with two or three buckets and a
    positive recent average aborts the loop. *)
Lemma analyze_dataset_short_positive (k : value) (l : list row)
    (st : list trend * list trend) (recent : float) :
  (2 <= List.length l <= 3)%nat ->
  recent_avg_of l = Val recent -> float_ltb (Fin 0) recent = true ->
  analyze_dataset k l st = Raise ZeroDivisionError.
Proof.
  intros [Hlo Hhi] Hr Hpos. unfold analyze_dataset.
  destruct (Nat.leb_spec 2 (List.length l)) as [_|Hlt]; [|lia].
  rewrite Hr, older_avg_of_short by lia. cbn [obind].
  rewrite (@zero_product 0 1.5) by reflexivity.
  rewrite Hpos. rewrite make_trend_zero by reflexivity. reflexivity.
Qed.

(** *** The modelled engine on the silent-source query: a stable sort *)

Section Sorting.

Variable f : string.
Variable o : Xql.direction.











End Sorting.

(** *** check_health_dataset *)




Lemma format_rows_spec (d : platform) (rows : list row)
    (acc infos : list dataset_info) :
  format_rows d rows acc = Val infos ->
  exists new,
    infos = acc ++ new /\
    Forall2 (fun r i => make_dataset_info d r = Val i) rows new.
Proof.
  revert acc. induction rows as [|r rows IH]; intros acc; simpl.
  - intro H. injection H as H. subst infos. exists [].
    rewrite app_nil_r. split; [reflexivity | constructor].
  - destruct (make_dataset_info d r) as [i| |] eqn:E; simpl; try discriminate.
    intro H. destruct (IH _ H) as [new [Hinfos Hall]].
    exists (i :: new). split.
    + rewrite Hinfos, <- app_assoc. reflexivity.
    + constructor; assumption.
Qed.

Lemma format_rows_total (d : platform) (rows : list row) (acc : list dataset_info) :
  (forall r, In r rows -> exists i, make_dataset_info d r = Val i) ->
  exists new,
    format_rows d rows acc = Val (acc ++ new) /\
    Forall2 (fun r i => make_dataset_info d r = Val i) rows new.
Proof.
  revert acc. induction rows as [|r rows IH]; intros acc Hall; simpl.
  - exists []. rewrite app_nil_r. split; [reflexivity | constructor].
  - destruct (Hall r (or_introl eq_refl)) as [i Hi]. rewrite Hi. simpl.
    destruct (IH (acc ++ [i]) (fun x Hx => Hall x (or_intror Hx)))
      as [new [Hrun Hf]].
    exists (i :: new). split.
    + rewrite Hrun, <- app_assoc. reflexivity.
    + constructor; assumption.
Qed.

Lemma make_dataset_info_dataset (d : platform) (r : row) (i : dataset_info) :
  make_dataset_info d r = Val i ->
  CheckHealth.dataset i = get r "dataset_name" VNone /\
  hours_silent i = get r "hours_silent" (VNum 0).
Proof.
  unfold make_dataset_info.
  destruct (fromtimestamp_strftime d (get r "last_seen_time" (VNum 0)));
    simpl; try discriminate.
  destruct (fromtimestamp_strftime d (get r "check_time" (VNum 0)));
    simpl; try discriminate.
  intro H. injection H as H. subst i. split; reflexivity.
Qed.

Lemma check_health_dataset_returns (d : platform) (t : Q)
    (log log' : list command) (infos : list dataset_info) :
  check_health_dataset d t log = (Val infos, log') ->
  exists e rest rows,
    oracle d (health_command t) = ExecReturns (e :: rest) /\
    type_is_error e = false /\
    contents_results e = Val rows /\
    Forall2 (fun r i => make_dataset_info d r = Val i) rows infos /\
    log' = log ++ [health_command t].
Proof.
  rewrite check_health_dataset_run. intro H.
  destruct (oracle d (health_command t)) as [x|[|e rest]]; try discriminate.
  destruct (type_is_error e) eqn:Et; try discriminate.
  destruct (contents_results e) as [rows| |] eqn:Ec; try discriminate.
  destruct (format_rows d rows []) as [infos'| |] eqn:Ef; try discriminate.
  injection H as Hi Hlog. subst infos'.
  destruct (format_rows_spec _ _ _ Ef) as [new [Hnew Hall]]. simpl in Hnew.
  subst new. exists e, rest, rows. repeat split; auto.
Qed.

(** C9: identifiers are never synthesised.  Every report returned by
    [check_health_dataset] carries the [dataset_name] of one of the rows the
    query answered; every entry of [trending_worse] and [trending_better],
    and every key of the per-dataset grouping, is the [dataset_name] of one
    of the rows of the trend query's answer ([raw_trends]). *)
Theorem identifiers_come_from_records :
  (forall (d : platform) (t : Q) (log log' : list command)
          (infos : list dataset_info),
     check_health_dataset d t log = (Val infos, log') ->
     exists e rest rows,
       oracle d (health_command t) = ExecReturns (e :: rest) /\
       contents_results e = Val rows /\
       forall i, In i infos ->
         exists r, In r rows /\ CheckHealth.dataset i = get r "dataset_name" VNone) /\
  (forall (d : platform) (name : option string) (hours : Z)
          (log log' : list command) (r : trends_result),
     get_health_trends d name hours log = (Val r, log') ->
     exists e rest,
       oracle d (trends_command name hours) = ExecReturns (e :: rest) /\
       contents_results e = Val (raw_trends r) /\
       (forall t, In t (trending_worse r) \/ In t (trending_better r) ->
          exists x, In x (raw_trends r) /\
                    HealthTrends.dataset t = get x "dataset_name" VNone) /\
       (forall k, In k (keys (group_by_dataset (raw_trends r))) ->
          exists x, In x (raw_trends r) /\ k = get x "dataset_name" VNone)).
Proof.
  split.
  - intros d t log log' infos H.
    destruct (check_health_dataset_returns _ _ _ H)
      as [e [rest [rows [Ho [_ [Hc [Hall _]]]]]]].
    exists e, rest, rows. split; [exact Ho|]. split; [exact Hc|].
    intros i Hi. clear Ho Hc H.
    induction Hall as [|r i' rows infos Hri _ IH]; [destruct Hi|].
    destruct Hi as [Hi|Hi].
    + subst i'. exists r. split; [left; reflexivity|].
      apply (make_dataset_info_dataset _ _ Hri).
    + destruct (IH Hi) as [r' [Hr' Hd]]. exists r'. split; [right|]; assumption.
  - intros d name hours log log' r H.
    destruct (get_health_trends_returns _ _ _ _ H)
      as [e [rest [td [Ho [_ [Hc [Ha _]]]]]]].
    destruct (analyze_raw_trends _ Ha) as [Hraw _]. rewrite Hraw.
    exists e, rest. split; [exact Ho|]. split; [exact Hc|].
    destruct (classified_names (analyze_classified _ Ha)) as [Nw Nb].
    split.
    + intros t [Ht|Ht]; apply group_by_dataset_keys.
      * apply Nw. unfold names. apply in_map. exact Ht.
      * apply Nb. unfold names. apply in_map. exact Ht.
    + intros k Hk. apply group_by_dataset_keys. exact Hk.
Qed.

Import Notions.

Lemma renderableb_spec (d : platform) (r : row) :
  renderableb d r = true <-> renderable d r.
Proof.
  unfold renderableb, renderable. split.
  - destruct (get r "last_seen_time" (VNum 0)) as [|q1|]; try discriminate.
    destruct (get r "check_time" (VNum 0)) as [|q2|]; try discriminate.
    destruct (strftime_fromtimestamp d q1) as [s1|] eqn:E1; try discriminate.
    destruct (strftime_fromtimestamp d q2) as [s2|] eqn:E2; try discriminate.
    intros _. exists q1, q2, s1, s2. auto.
  - intros [q1 [q2 [s1 [s2 [H1 [H2 [H3 H4]]]]]]].
    rewrite H1, H3, H2, H4. reflexivity.
Qed.

(** What building one report does: on a renderable row it delivers the
    report of that row; on any other row it raises, [TypeError] or what
    [fromtimestamp] raises. *)
Lemma make_dataset_info_cases (d : platform) (r : row) :
  (renderableb d r = true /\
   exists i, make_dataset_info d r = Val i /\ report_of d r i) \/
  (renderableb d r = false /\
   exists x, timestamp_error d x /\ make_dataset_info d r = Raise x).
Proof.
  unfold renderableb, make_dataset_info, fromtimestamp_strftime, report_of,
    timestamp_error.
  destruct (get r "last_seen_time" (VNum 0)) as [|q1|s1];
    try (right; split; [reflexivity|]; exists TypeError; split;
         [left; reflexivity | reflexivity]).
  destruct (strftime_fromtimestamp d q1) as [t1|] eqn:E1.
  - destruct (get r "check_time" (VNum 0)) as [|q2|s2];
      try (right; split; [reflexivity|]; exists TypeError; split;
           [left; reflexivity | reflexivity]).
    destruct (strftime_fromtimestamp d q2) as [t2|] eqn:E2.
    + left. split; [reflexivity|]. eexists. split; [reflexivity|].
      cbn. repeat split; try reflexivity; eauto.
    + right. split; [reflexivity|]. exists (exn_of_range_error (fromtimestamp_error d q2)).
      split; [right; exists q2; auto | reflexivity].
  - right. split.
    + destruct (get r "check_time" (VNum 0)); reflexivity.
    + exists (exn_of_range_error (fromtimestamp_error d q1)).
      split; [right; exists q1; auto | reflexivity].
Qed.

Lemma format_rows_all_or_nothing (d : platform) (rows : list row)
    (acc : list dataset_info) :
  (forallb (renderableb d) rows = true /\
   exists new, format_rows d rows acc = Val (acc ++ new) /\
               Forall2 (report_of d) rows new) \/
  (forallb (renderableb d) rows = false /\
   exists x, timestamp_error d x /\ format_rows d rows acc = Raise x).
Proof.
  revert acc. induction rows as [|r rows IH]; intros acc; simpl.
  - left. split; [reflexivity|]. exists []. rewrite app_nil_r.
    split; [reflexivity | constructor].
  - destruct (make_dataset_info_cases d r)
      as [[Hb [i [Hi Hrep]]]|[Hb [x [Hx Hr]]]]; rewrite Hb; simpl.
    + rewrite Hi. cbn [obind].
      destruct (IH (acc ++ [i])) as [[Hall [new [Hrun Hf]]]|[Hall Hr]].
      * left. split; [exact Hall|]. exists (i :: new). split.
        -- rewrite Hrun, <- app_assoc. reflexivity.
        -- constructor; assumption.
      * right. split; [exact Hall | exact Hr].
    + right. split; [reflexivity|]. exists x. rewrite Hr. auto.
Qed.

Lemma forallb_renderable (d : platform) (rows : list row) :
  forallb (renderableb d) rows = true <-> Forall (renderable d) rows.
Proof.
  rewrite forallb_forall, Forall_forall. split; intros H r Hr.
  - apply renderableb_spec. apply H. exact Hr.
  - apply renderableb_spec. apply H. exact Hr.
Qed.

Lemma Forall2_map_left {A B C : Type} (g : A -> B) (P : B -> C -> Prop)
    (l : list A) (l' : list C) :
  Forall2 P (map g l) l' -> Forall2 (fun a c => P (g a) c) l l'.
Proof.
  revert l'. induction l as [|a l IH]; intros l' H; inversion H; subst;
    constructor; auto.
Qed.






(** *** The unguarded division, on a concrete run *)

Import Samples.

(** C3: dataset ["a"] has two buckets of history, both with one hour of
    silence.  The run does not return a result in which ["a"] is left out of
    the lists and counted: it ends in [return_error], so there is no
    [dataset_count] at all. *)
Theorem short_history_aborts_run (name : option string) (hours : Z)
    (log : list command) :
  group_by_dataset two_buckets = [(VStr "a", two_buckets)] /\
  (List.length two_buckets < 4)%nat /\
  get_health_trends (returning two_buckets) name hours log =
  (Exit (Error_analyzing_trends ZeroDivisionError),
   log ++ [trends_command name hours]).
Proof.
  split; [reflexivity|]. split; [simpl; lia|].
  rewrite get_health_trends_run. vm_compute. reflexivity.
Qed.

(** C4: with two buckets there is no older bucket, [older_avg] is 0 and
    [recent_avg] is positive, so the first test succeeds and [change_percent]
    divides by [older_avg = 0]: the loop raises [ZeroDivisionError]. *)
Theorem change_percent_divides_by_zero :
  exists recent older,
    recent_avg_of two_buckets = Val recent /\ recent = Fin 1 /\
    older_avg_of two_buckets = Val older /\ older = Fin 0 /\
    float_ltb (float_mul older (Fin 1.5)) recent = true /\
    float_truediv (float_sub recent older) older = Raise ZeroDivisionError /\
    analyze_dataset (VStr "a") two_buckets ([], []) = Raise ZeroDivisionError /\
    analyze two_buckets = Raise ZeroDivisionError.
Proof.
  exists (Fin 1), (Fin 0).
  split; [vm_compute; reflexivity|]. split; [reflexivity|].
  split; [vm_compute; reflexivity|]. split; [reflexivity|].
  repeat split; vm_compute; reflexivity.
Qed.

(** [change_percent] is not the quotient itself: on four buckets 10,
    15.0001, 15.0001, 15.0001 ([older_avg = 10], [recent_avg] just above
    15) the dataset is listed as worse, with [change_percent] 50.0, while
    [(recent_avg - older_avg) / older_avg * 100] is another float, a little
    above 50.0009. *)
Lemma change_percent_is_rounded :
  exists recent older t,
    recent_avg_of boundary_worse = Val recent /\
    older_avg_of boundary_worse = Val older /\ older = Fin 10 /\
    float_ltb (float_mul older (Fin 1.5)) recent = true /\
    fst (get_health_trends (returning boundary_worse) None 24 []) =
      Val boundary_worse_result /\
    trending_worse boundary_worse_result = [t] /\
    HealthTrends.dataset t = VStr "a" /\
    change_percent t = Fin 50 /\
    float_ltb (Fin 50.0009)
      (float_mul (float_div (float_sub recent older) older) (Fin 100)) = true /\
    change_percent t <>
      float_mul (float_div (float_sub recent older) older) (Fin 100).
Proof.
  eexists. eexists. eexists.
  split; [vm_compute; reflexivity|].
  split; [vm_compute; reflexivity|]. split; [reflexivity|].
  split; [vm_compute; reflexivity|].
  split; [vm_compute; reflexivity|].
  split; [reflexivity|]. split; [reflexivity|]. split; [reflexivity|].
  split; [vm_compute; reflexivity|].
  intro H. vm_compute in H. discriminate H.
Qed.

(** *** The scenarios of the specification *)

Example scenario_proxy_logs :
  analyze proxy_logs =
  Val {| raw_trends := proxy_logs;
         trending_worse :=
           [ {| HealthTrends.dataset := VStr "proxy_logs";
                recent_avg_silent := Fin 6;
                older_avg_silent := Fin 1;
                change_percent := Fin 500 |} ];
         trending_better := [];
         dataset_count := 1 |}.
Proof. vm_compute. reflexivity. Qed.

Example scenario_one_bucket :
  analyze [bucket "fw_logs" 2.5] =
  Val {| raw_trends := [bucket "fw_logs" 2.5];
         trending_worse := [];
         trending_better := [];
         dataset_count := 1 |}.
Proof. vm_compute. reflexivity. Qed.

Example scenario_boundary_better :
  analyze boundary_better =
  Val {| raw_trends := boundary_better;
         trending_worse := [];
         trending_better :=
           [ {| HealthTrends.dataset := VStr "a";
                recent_avg_silent := Fin 5;
                older_avg_silent := Fin 10;
                change_percent := Fin (-50) |} ];
         dataset_count := 1 |}.
Proof. vm_compute. reflexivity. Qed.

Example scenario_boundary_not_better :
  analyze boundary_not_better =
  Val {| raw_trends := boundary_not_better;
         trending_worse := [];
         trending_better := [];
         dataset_count := 1 |}.
Proof. vm_compute. reflexivity. Qed.

Example scenario_fw_logs :
  map (fun i => (CheckHealth.dataset i, hours_silent i)) sample_reports =
  [ (VStr "proxy_logs", VNum 4); (VStr "fw_logs", VNum 2.5);
    (VStr "vpn_logs", VNum 2.5) ].
Proof. vm_compute. reflexivity. Qed.

(** *** The theorems at concrete inputs *)



Lemma freshness_iff_under_35_witness :
  exists latest v,
    In latest (column "check_time"
                 (window (store_of 7200 sample_window) data_source_health 2)) /\
    (forall c, In c (column "check_time"
                       (window (store_of 7200 sample_window) data_source_health 2)) ->
               c <= latest) /\
    verify_dataset_freshness fresh_platform [] = (Val v, [] ++ [freshness_command]) /\
    minutes_old v = VNum ((current_time (store_of 7200 sample_window) - latest) / 60) /\
    last_update v = VNum latest /\
    (is_fresh v = true <->
     (current_time (store_of 7200 sample_window) - latest) / 60 < 35).
Proof.
  apply (@freshness_iff_under_35 fresh_platform (store_of 7200 sample_window) []).
  - eexists. split; [vm_compute; reflexivity | reflexivity].
  - vm_compute. discriminate.
Defined.

Lemma stale_dataset_hard_stop_witness :
  main stale_platform [] =
    (Exit (Health_dataset_is_stale (minutes_old stale_verdict)),
     [] ++ [freshness_command]) /\
  (forall t', ~ In (health_command t') [freshness_command]).
Proof.
  apply (@stale_dataset_hard_stop stale_platform [] [freshness_command] 1
           stale_verdict); vm_compute; reflexivity.
Defined.

Lemma get_health_trends_deterministic_witness :
  fst (get_health_trends (returning boundary_worse) None 24 []) =
  fst (get_health_trends (returning_elsewhere boundary_worse) None 24
         [freshness_command]) /\
  snd (get_health_trends (returning boundary_worse) None 24 []) =
    [] ++ [trends_command None 24] /\
  (forall r, fst (get_health_trends (returning boundary_worse) None 24 []) = Val r ->
     exists e rest,
       oracle (returning boundary_worse) (trends_command None 24) =
         ExecReturns (e :: rest) /\
       contents_results e = Val (raw_trends r)).
Proof.
  apply (@get_health_trends_deterministic (returning boundary_worse)
           (returning_elsewhere boundary_worse) None 24 [] [freshness_command]).
  reflexivity.
Defined.

Lemma trending_lists_disjoint_witness :
  NoDup (names (trending_worse boundary_worse_result)) /\
  NoDup (names (trending_better boundary_worse_result)) /\
  (forall n, In n (names (trending_worse boundary_worse_result)) ->
             ~ In n (names (trending_better boundary_worse_result))).
Proof.
  apply (@trending_lists_disjoint (returning boundary_worse) None 24 []
           [trends_command None 24] boundary_worse_result).
  vm_compute. reflexivity.
Defined.

(** The boundary inputs of C2: with [older_avg = 10], three recent buckets
    of 15.0001 are listed as worse (averages 15.0 and 10.0, change 50.0),
    three recent buckets of 14.999 are in neither list. *)
Lemma classification_first_match_wins_witness :
  (exists t, In t (trending_worse boundary_worse_result) /\
             HealthTrends.dataset t = VStr "a" /\
             recent_avg_silent t = Fin 15 /\
             older_avg_silent t = Fin 10 /\
             change_percent t = Fin 50) /\
  (~ In (VStr "a") (names (trending_worse boundary_stable_result)) /\
   ~ In (VStr "a") (names (trending_better boundary_stable_result))).
Proof.
  split.
  - destruct (@classification_first_match_wins (returning boundary_worse) None 24
                [] [trends_command None 24] boundary_worse_result
                (VStr "a") boundary_worse)
      as [recent [older [Hr [Ho [Hw _]]]]].
    + vm_compute. reflexivity.
    + vm_compute. left. reflexivity.
    + simpl. lia.
    + vm_compute in Hr. vm_compute in Ho.
      injection Hr as Hr. injection Ho as Ho. subst recent older.
      destruct Hw as [_ [[t [Ht [Hd [H1 [H2 H3]]]]] _]]; [vm_compute; reflexivity|].
      exists t. split; [exact Ht|]. split; [exact Hd|].
      rewrite H1, H2, H3. vm_compute. repeat split.
  - destruct (@classification_first_match_wins (returning boundary_stable) None 24
                [] [trends_command None 24] boundary_stable_result
                (VStr "a") boundary_stable)
      as [recent [older [Hr [Ho [_ [_ Hs]]]]]].
    + vm_compute. reflexivity.
    + vm_compute. left. reflexivity.
    + simpl. lia.
    + vm_compute in Hr. vm_compute in Ho.
      injection Hr as Hr. injection Ho as Ho. subst recent older.
      apply Hs; vm_compute; reflexivity.
Defined.

Lemma verify_dataset_freshness_never_raises_witness :
  exists v,
    verify_dataset_freshness unreachable [] = (Val v, [] ++ [freshness_command]) /\
    v = not_fresh.
Proof.
  destruct (verify_dataset_freshness_never_raises unreachable [])
    as [v [Hrun [Hraise _]]].
  exists v. split; [exact Hrun|]. apply (Hraise CommandError). reflexivity.
Defined.

Lemma identifiers_come_from_records_witness :
  (exists e rest rows,
     oracle fresh_platform (health_command 1) = ExecReturns (e :: rest) /\
     contents_results e = Val rows /\
     forall i, In i sample_reports ->
       exists r, In r rows /\ CheckHealth.dataset i = get r "dataset_name" VNone) /\
  (exists e rest,
     oracle (returning boundary_worse) (trends_command None 24) =
       ExecReturns (e :: rest) /\
     contents_results e = Val (raw_trends boundary_worse_result) /\
     (forall t, In t (trending_worse boundary_worse_result) \/
                In t (trending_better boundary_worse_result) ->
        exists x, In x (raw_trends boundary_worse_result) /\
                  HealthTrends.dataset t = get x "dataset_name" VNone) /\
     (forall k, In k (keys (group_by_dataset (raw_trends boundary_worse_result))) ->
        exists x, In x (raw_trends boundary_worse_result) /\
                  k = get x "dataset_name" VNone)).
Proof.
  split.
  - apply (proj1 identifiers_come_from_records fresh_platform 1 []
             [health_command 1] sample_reports).
    vm_compute. reflexivity.
  - apply (proj2 identifiers_come_from_records (returning boundary_worse) None
             24%Z [] [trends_command None 24] boundary_worse_result).
    vm_compute. reflexivity.
Defined.

(* ================================================================== *)
(** * Further properties of the scripts *)

Import Notions.

(** *** check_health_dataset: errors and edge cases *)


(** X1: [check_health_dataset] issues exactly its one query and never lets
    an exception escape: it returns, or it ends in [return_error].  The
    message is "Failed to query" exactly when the first entry is
    error-typed (and then carries its contents); an empty entry list and a
    raising query end in "Error checking", with [IndexError] and with the
    query's exception. *)
Theorem check_health_dataset_error_reporting (d : platform) (t : Q)
    (log : list command) :
  snd (check_health_dataset d t log) = log ++ [health_command t] /\
  (forall x, fst (check_health_dataset d t log) <> Raise x) /\
  (forall c, fst (check_health_dataset d t log) =
               Exit (Failed_to_query_health_dataset c) <->
             exists e rest,
               oracle d (health_command t) = ExecReturns (e :: rest) /\
               type_is_error e = true /\ c = entry_Contents e) /\
  (forall m, fst (check_health_dataset d t log) = Exit m ->
             (exists c, m = Failed_to_query_health_dataset c) \/
             (exists x, m = Error_checking_health_dataset x)) /\
  (oracle d (health_command t) = ExecReturns [] ->
   fst (check_health_dataset d t log) =
     Exit (Error_checking_health_dataset IndexError)) /\
  (forall x, oracle d (health_command t) = ExecRaises x ->
   fst (check_health_dataset d t log) = Exit (Error_checking_health_dataset x)).
Proof.
  rewrite check_health_dataset_run. simpl fst. simpl snd.
  assert (Hfmt : forall rows m, format_rows d rows [] <> Exit m).
  { intros rows. generalize (@nil dataset_info).
    induction rows as [|r rows IH]; intros acc m; simpl; [discriminate|].
    unfold make_dataset_info.
    destruct (fromtimestamp_strftime d (get r "last_seen_time" (VNum 0)))
      as [s1| |] eqn:E1; simpl; try discriminate.
    - destruct (fromtimestamp_strftime d (get r "check_time" (VNum 0)))
        as [s2| |] eqn:E2; simpl; try discriminate.
      + apply IH.
      + unfold fromtimestamp_strftime in E2.
        destruct (get r "check_time" (VNum 0)); try discriminate.
        destruct (strftime_fromtimestamp d q); discriminate.
    - unfold fromtimestamp_strftime in E1.
      destruct (get r "last_seen_time" (VNum 0)); try discriminate.
      destruct (strftime_fromtimestamp d q); discriminate. }
  split; [reflexivity|].
  destruct (oracle d (health_command t)) as [x|[|e rest]] eqn:Ho.
  - split; [discriminate|]. split; [|split; [|split]].
    + intro c. split; [discriminate|]. intros [e [rest [H _]]]. discriminate.
    + intros m H. right. exists x. congruence.
    + discriminate.
    + intros x' H. congruence.
  - split; [discriminate|]. split; [|split; [|split]].
    + intro c. split; [discriminate|]. intros [e [rest [H _]]]. discriminate.
    + intros m H. right. exists IndexError. congruence.
    + reflexivity.
    + discriminate.
  - destruct (type_is_error e) eqn:Et.
    + split; [discriminate|]. split; [|split; [|split]].
      * intro c. split.
        -- intro H. exists e, rest. split; [reflexivity|]. split; [exact Et|].
           congruence.
        -- intros [e' [rest' [H [_ Hc]]]]. congruence.
      * intros m H. left. exists (entry_Contents e). congruence.
      * discriminate.
      * discriminate.
    + assert (Hcase :
        forall o : outcome (list dataset_info),
          o = match contents_results e with
              | Val query_results =>
                  match format_rows d query_results [] with
                  | Val infos => Val infos
                  | Raise x => Exit (Error_checking_health_dataset x)
                  | Exit m => Exit m
                  end
              | Raise x => Exit (Error_checking_health_dataset x)
              | Exit m => Exit m
              end ->
          (forall x, o <> Raise x) /\
          (forall c, o <> Exit (Failed_to_query_health_dataset c)) /\
          (forall m, o = Exit m -> exists x, m = Error_checking_health_dataset x)).
      { intros o Ho'. subst o. unfold contents_results.
        destruct (entry_Contents e) as [[[rows|]|s]|];
          try (repeat split; try discriminate; intros m H; exists AttributeError; congruence).
        destruct (format_rows d rows []) as [infos|x|m] eqn:Ef.
        - repeat split; discriminate.
        - repeat split; try discriminate. intros m H. exists x. congruence.
        - exfalso. exact (Hfmt _ _ Ef). }
      destruct (Hcase _ eq_refl) as [H1 [H2 H3]].
      split; [exact H1|]. split; [|split; [|split]].
      * intro c. split; [intro H; exfalso; exact (H2 c H)|].
        intros [e' [rest' [H [Ht _]]]]. injection H as He _. subst e'.
        congruence.
      * intros m H. right. apply H3. exact H.
      * discriminate.
      * discriminate.
Qed.

Lemma timestamp_error_kinds (d : platform) (x : exn) :
  timestamp_error d x ->
  x = TypeError \/ x = ValueError \/ x = OverflowError \/ x = OSError.
Proof.
  intros [H|[q [_ H]]]; [auto|].
  subst x. destruct (fromtimestamp_error d q); cbn; auto.
Qed.

(** X2: all or nothing.  On a readable, non-error answer the function
    returns the reports of the answered rows, one per row and in their
    order, when every row is renderable; as soon as one row is not (a null,
    textual or refused timestamp) the whole batch ends in [return_error],
    with a [TypeError] or with the exception [fromtimestamp] raised on a
    number it refuses (a [ValueError], an [OverflowError] or an [OSError]),
    whatever the other rows hold. *)
Theorem one_bad_record_aborts_batch (d : platform) (t : Q) (log : list command)
    (e : entry) (rest : list entry) (rows : list row) :
  oracle d (health_command t) = ExecReturns (e :: rest) ->
  type_is_error e = false ->
  contents_results e = Val rows ->
  (Forall (renderable d) rows ->
   exists infos,
     check_health_dataset d t log = (Val infos, log ++ [health_command t]) /\
     Forall2 (report_of d) rows infos) /\
  (~ Forall (renderable d) rows ->
   exists x,
     timestamp_error d x /\
     (x = TypeError \/ x = ValueError \/ x = OverflowError \/ x = OSError) /\
     check_health_dataset d t log =
       (Exit (Error_checking_health_dataset x), log ++ [health_command t])).
Proof.
  intros Ho Ht Hc. rewrite check_health_dataset_run, Ho, Ht, Hc.
  pose proof (forallb_renderable d rows) as Hall.
  destruct (format_rows_all_or_nothing d rows [])
    as [[Hb [new [Hrun Hrep]]]|[Hb [x [Hx Hr]]]].
  - split.
    + intros _. exists new. rewrite Hrun. simpl. auto.
    + intro Hn. exfalso. apply Hn. apply Hall. exact Hb.
  - split.
    + intro Hf. apply Hall in Hf. congruence.
    + intros _. exists x. rewrite Hr.
      split; [exact Hx|]. split; [|reflexivity].
      apply timestamp_error_kinds with (d := d). exact Hx.
Qed.

(** X3: the two forms of a timestamp agree.  In every returned report,
    [last_seen] is the rendering of the report's own [last_seen_timestamp],
    which is a number, and [last_check] is the rendering of a number. *)
Theorem report_timestamps_agree (d : platform) (t : Q) (log log' : list command)
    (infos : list dataset_info) (i : dataset_info) :
  check_health_dataset d t log = (Val infos, log') ->
  In i infos ->
  exists q1 q2,
    last_seen_timestamp i = VNum q1 /\
    strftime_fromtimestamp d q1 = Some (last_seen i) /\
    strftime_fromtimestamp d q2 = Some (last_check i).
Proof.
  intros H Hi.
  destruct (check_health_dataset_returns _ _ _ H)
    as [e [rest [rows [_ [_ [_ [Hall _]]]]]]].
  clear H. induction Hall as [|r i' rows infos Hri _ IH]; [destruct Hi|].
  destruct Hi as [Hi|Hi]; [|exact (IH Hi)].
  subst i'.
  destruct (make_dataset_info_cases d r)
    as [[_ [j [Hj Hrep]]]|[_ [x [_ Hr]]]]; try congruence.
  assert (j = i) by congruence. subst j.
  destruct Hrep as [_ [[q1 [G1 S1]] [Hts [_ [_ [_ [_ [q2 [G2 S2]]]]]]]]].
  exists q1, q2. rewrite Hts, G1. auto.
Qed.

(** *** verify_dataset_freshness and main *)

(** X4: freshness is never assumed.  A verdict says fresh only when the
    first entry of the answer is not an error, its first row holds a number
    below 35 under [minutes_old], and that number and the row's
    [latest_check] are what the verdict reports. *)
Theorem fresh_only_on_evidence (d : platform) (log log' : list command)
    (v : verdict) :
  verify_dataset_freshness d log = (Val v, log') ->
  is_fresh v = true ->
  exists e rest r0 data m,
    oracle d freshness_command = ExecReturns (e :: rest) /\
    type_is_error e = false /\
    contents_results e = Val (r0 :: data) /\
    lookup r0 "minutes_old" = Some (VNum m) /\ m < 35 /\
    minutes_old v = VNum m /\
    last_update v = get r0 "latest_check" VNone.
Proof.
  rewrite verify_dataset_freshness_run. intros H Hfresh.
  injection H as Hv _. subst v.
  destruct (oracle d freshness_command) as [x|[|e rest]]; try discriminate.
  destruct (type_is_error e) eqn:Et; try discriminate.
  destruct (contents_results e) as [[|r0 data]| |] eqn:Ec; try discriminate.
  unfold get in *.
  destruct (lookup r0 "minutes_old") as [[|m|s]|] eqn:El; simpl in *;
    try discriminate.
  exists e, rest, r0, data, m. repeat split; auto.
  apply Qltb_lt. exact Hfresh.
Qed.

(** [main] step by step. *)
Lemma main_run (d : platform) (log : list command) :
  main d log =
  match py_float d (get (args d) "threshold_hours" (VNum 1)) with
  | Val t =>
      match verify_dataset_freshness d log with
      | (Val v, log1) =>
          if is_fresh v then
            match check_health_dataset d t log1 with
            | (Val infos, log2) =>
                (Val {| readable_output :=
                          match infos with
                          | _ :: _ => Found_silent (List.length infos)
                                        (minutes_old v) (map table_line infos)
                          | [] => All_normal (utcnow_strftime d)
                          end;
                        SilentDataSources := infos;
                        DatasetFreshness := v;
                        raw_response := infos |}, log2)
            | (Raise x, log2) => (Raise x, log2)
            | (Exit m, log2) => (Exit m, log2)
            end
          else (Exit (Health_dataset_is_stale (minutes_old v)), log1)
      | (Raise x, log1) => (Raise x, log1)
      | (Exit m, log1) => (Exit m, log1)
      end
  | Raise x => (Raise x, log)
  | Exit m => (Exit m, log)
  end.
Proof.
  unfold main. unfold bind at 1. unfold lift.
  destruct (py_float d (get (args d) "threshold_hours" (VNum 1))) as [t|x|m];
    try reflexivity.
  unfold bind at 1.
  destruct (verify_dataset_freshness d log) as [[v|x|m] log1]; try reflexivity.
  unfold bind at 1. destruct (is_fresh v); simpl; [|reflexivity].
  unfold ret at 1. unfold bind at 1.
  destruct (check_health_dataset d t log1) as [[infos|x|m] log2]; reflexivity.
Qed.

(** X5: outputs are produced on fresh data only.  When [main] returns
    outputs, the freshness verdict in them is fresh with an age below 35
    minutes; the script has issued the freshness query and then the
    silent-source query with the parsed threshold, nothing else; and the
    outputs hold the reports of that query: [SilentDataSources] and
    [raw_response] are the same list, the table has one line per report, and
    the "all normal" text appears exactly when there is no report. *)
Theorem main_outputs_only_when_fresh (d : platform) (log log' : list command)
    (out : outputs) :
  main d log = (Val out, log') ->
  is_fresh (DatasetFreshness out) = true /\
  (exists m, minutes_old (DatasetFreshness out) = VNum m /\ m < 35) /\
  (exists t,
     py_float d (get (args d) "threshold_hours" (VNum 1)) = Val t /\
     log' = log ++ [freshness_command; health_command t] /\
     check_health_dataset d t (log ++ [freshness_command]) =
       (Val (SilentDataSources out), log')) /\
  raw_response out = SilentDataSources out /\
  match readable_output out with
  | All_normal _ => SilentDataSources out = []
  | Found_silent n age table =>
      SilentDataSources out <> [] /\
      n = List.length (SilentDataSources out) /\
      age = minutes_old (DatasetFreshness out) /\
      table = map table_line (SilentDataSources out)
  end.
Proof.
  rewrite main_run.
  destruct (py_float d (get (args d) "threshold_hours" (VNum 1))) as [t|x|m] eqn:Ef;
    try discriminate.
  destruct (verify_dataset_freshness d log) as [[v|x|m] log1] eqn:Ev;
    try discriminate.
  destruct (is_fresh v) eqn:Efresh; try discriminate.
  destruct (check_health_dataset d t log1) as [[infos|x|m] log2] eqn:Ec;
    try discriminate.
  intro H. injection H as Hout Hlog. subst out log'. simpl.
  destruct (verdict_consistent d log) as [v' [m [Hrun [Hv Hiff]]]].
  rewrite Ev in Hrun. injection Hrun as Hv' Hlog1. subst v'.
  assert (Hm : m < 35) by (apply Hiff; exact Efresh).
  assert (Hlog2 : log2 = log1 ++ [health_command t]).
  { rewrite check_health_dataset_run in Ec. congruence. }
  split; [exact Efresh|]. split; [exists m; auto|]. split.
  - exists t. split; [reflexivity|]. subst log1. split.
    + rewrite Hlog2, <- app_assoc. reflexivity.
    + exact Ec.
  - split; [reflexivity|]. destruct infos; [reflexivity|].
    repeat split. discriminate.
Qed.


(** *** get_health_trends: grouping *)

Lemma value_eqb_sym (a b : value) : value_eqb a b = value_eqb b a.
Proof.
  destruct a, b; simpl; auto using Qeq_bool_comm, String.eqb_sym.
Qed.

Lemma value_eqb_trans (a b c : value) :
  value_eqb a b = true -> value_eqb b c = true -> value_eqb a c = true.
Proof.
  destruct a, b, c; simpl; try congruence.
  - apply Qeq_bool_trans.
  - rewrite !String.eqb_eq. congruence.
Qed.

Lemma filter_none {A : Type} (f : A -> bool) (l : list A) :
  (forall x, In x l -> f x = false) -> filter f l = [].
Proof.
  induction l as [|a l IH]; simpl; intro H; [reflexivity|].
  rewrite (H a (or_introl eq_refl)). apply IH. intros x Hx. apply H. right. exact Hx.
Qed.

Lemma in_keys (dt : dict) (k : value) (l : list row) :
  In (k, l) dt -> In k (keys dt).
Proof.
  intro H. unfold keys. change k with (fst (k, l)). apply in_map. exact H.
Qed.

(** Where an entry of the dict after [dict_append] comes from. *)
Lemma dict_append_entries (dt : dict) (n : value) (r : row) (k : value)
    (l : list row) :
  distinct_keys (keys dt) ->
  In (k, l) (dict_append dt n r) ->
  (In (k, l) dt /\ value_eqb k n = false) \/
  (exists l0, In (k, l0) dt /\ value_eqb k n = true /\ l = l0 ++ [r]) \/
  (k = n /\ l = [r] /\ forall k', In k' (keys dt) -> value_eqb k' n = false).
Proof.
  induction dt as [|[k0 l0] dt IH]; simpl; intros Hd Hin.
  - destruct Hin as [H|[]]. injection H as Hk Hl. subst k l.
    right. right. split; [reflexivity|]. split; [reflexivity|]. intros k' [].
  - destruct Hd as [Hk0 Hd]. destruct (value_eqb k0 n) eqn:E.
    + destruct Hin as [H|H].
      * injection H as Hk Hl. subst k l. right. left.
        exists l0. split; [left; reflexivity|]. split; [exact E | reflexivity].
      * left. split; [right; exact H|].
        destruct (value_eqb k n) eqn:Ek; [|reflexivity].
        exfalso. specialize (Hk0 k (in_keys _ _ _ H)).
        rewrite value_eqb_sym in Ek.
        rewrite (value_eqb_trans _ _ _ E Ek) in Hk0. discriminate.
    + destruct Hin as [H|H].
      * injection H as Hk Hl. subst k l. left. split; [left; reflexivity | exact E].
      * destruct (IH Hd H) as [[H1 H2]|[[l1 [H1 [H2 H3]]]|[H1 [H2 H3]]]].
        -- left. split; [right; exact H1 | exact H2].
        -- right. left. exists l1. split; [right; exact H1|]. auto.
        -- right. right. split; [exact H1|]. split; [exact H2|].
           intros k' [Hk'|Hk']; [subst k'; exact E | apply H3; exact Hk'].
Qed.

Lemma dict_append_keeps_keys (dt : dict) (n : value) (r : row) (k : value) :
  In k (keys dt) -> In k (keys (dict_append dt n r)).
Proof.
  induction dt as [|[k0 l0] dt IH]; simpl; [intros []|].
  destruct (value_eqb k0 n); simpl; [auto|].
  intros [H|H]; [left; exact H | right; apply IH; exact H].
Qed.

Lemma dict_append_files (dt : dict) (n : value) (r : row) :
  exists k, In k (keys (dict_append dt n r)) /\ value_eqb k n = true.
Proof.
  induction dt as [|[k0 l0] dt IH]; simpl.
  - exists n. split; [left; reflexivity | apply value_eqb_refl].
  - destruct (value_eqb k0 n) eqn:E; simpl.
    + exists k0. split; [left; reflexivity | exact E].
    + destruct IH as [k [Hk Hkn]]. exists k. split; [right; exact Hk | exact Hkn].
Qed.

(** The invariant of the grouping loop after the rows [seen]: keys are
    pairwise distinct, every group holds, in input order, exactly the rows
    seen so far whose name equals its key, and every row seen has a key. *)
Lemma dict_append_groups (dt : dict) (seen : list row) (r : row) :
  distinct_keys (keys dt) ->
  (forall k l, In (k, l) dt ->
     l = filter (fun x => value_eqb k (name_of x)) seen) ->
  (forall x, In x seen ->
     exists k, In k (keys dt) /\ value_eqb k (name_of x) = true) ->
  (forall k l, In (k, l) (dict_append dt (name_of r) r) ->
     l = filter (fun x => value_eqb k (name_of x)) (seen ++ [r])) /\
  (forall x, In x (seen ++ [r]) ->
     exists k, In k (keys (dict_append dt (name_of r) r)) /\
               value_eqb k (name_of x) = true).
Proof.
  intros Hd Hg Hs. split.
  - intros k l Hin. rewrite filter_app. simpl.
    destruct (dict_append_entries _ _ _ _ _ Hd Hin)
      as [[H1 H2]|[[l0 [H1 [H2 H3]]]|[H1 [H2 H3]]]].
    + rewrite H2, app_nil_r. apply Hg. exact H1.
    + rewrite H2. subst l. f_equal. apply Hg. exact H1.
    + subst k l. rewrite value_eqb_refl.
      rewrite filter_none; [reflexivity|].
      intros x Hx. destruct (value_eqb (name_of r) (name_of x)) eqn:E; [|reflexivity].
      exfalso. destruct (Hs x Hx) as [k' [Hk' Hk'x]].
      specialize (H3 k' Hk'). rewrite value_eqb_sym in E.
      rewrite (value_eqb_trans _ _ _ Hk'x E) in H3. discriminate.
  - intros x Hx. apply in_app_or in Hx. destruct Hx as [Hx|[Hx|[]]].
    + destruct (Hs x Hx) as [k [Hk Hkx]]. exists k.
      split; [apply dict_append_keeps_keys; exact Hk | exact Hkx].
    + subst x. apply dict_append_files.
Qed.

Lemma group_fold_groups (trend_data seen : list row) (dt : dict) :
  distinct_keys (keys dt) ->
  (forall k l, In (k, l) dt ->
     l = filter (fun x => value_eqb k (name_of x)) seen) ->
  (forall x, In x seen ->
     exists k, In k (keys dt) /\ value_eqb k (name_of x) = true) ->
  let dt' := fold_left (fun dt r => dict_append dt (get r "dataset_name" VNone) r)
                       trend_data dt in
  (forall k l, In (k, l) dt' ->
     l = filter (fun x => value_eqb k (name_of x)) (seen ++ trend_data)) /\
  (forall x, In x (seen ++ trend_data) ->
     exists k, In k (keys dt') /\ value_eqb k (name_of x) = true).
Proof.
  revert seen dt. induction trend_data as [|r rest IH]; intros seen dt Hd Hg Hs; simpl.
  - rewrite app_nil_r. split; assumption.
  - destruct (dict_append_groups dt seen r Hd Hg Hs) as [Hg' Hs'].
    specialize (IH (seen ++ [r]) (dict_append dt (name_of r) r)
                   (distinct_keys_dict_append _ _ _ Hd) Hg' Hs').
    rewrite <- app_assoc in IH. exact IH.
Qed.

(** X7: the grouping loop partitions the rows by name.  Each group holds,
    in input order, exactly the rows whose [dataset_name] equals the group's
    key (rows without a name are filed under [None]); no group is empty, no
    two keys are equal, and every row is in the group of some key. *)
Theorem group_by_dataset_partitions (trend_data : list row) :
  NoDup (keys (group_by_dataset trend_data)) /\
  (forall k l, In (k, l) (group_by_dataset trend_data) ->
     l = filter (fun x => value_eqb k (name_of x)) trend_data /\ l <> []) /\
  (forall x, In x trend_data ->
     exists k l, In (k, l) (group_by_dataset trend_data) /\ In x l).
Proof.
  destruct (@group_fold_groups trend_data [] []) as [Hg Hs];
    [exact I | intros k l [] | intros x [] |].
  simpl in Hg, Hs. fold (group_by_dataset trend_data) in Hg, Hs.
  split; [apply group_by_dataset_NoDup|]. split.
  - intros k l Hin. split; [apply Hg; exact Hin|].
    destruct (group_by_dataset_keys _ _ (in_keys _ _ _ Hin)) as [r [Hr Hk]].
    rewrite (Hg k l Hin). intro Hnil.
    assert (Hx : In r (filter (fun x => value_eqb k (name_of x)) trend_data)).
    { apply filter_In. split; [exact Hr|]. unfold name_of. rewrite <- Hk.
      apply value_eqb_refl. }
    rewrite Hnil in Hx. destruct Hx.
  - intros x Hx. destruct (Hs x Hx) as [k [Hk Hkx]].
    unfold keys in Hk. apply in_map_iff in Hk. destruct Hk as [[k' l] [Hfst Hin]].
    simpl in Hfst. subst k'. exists k, l. split; [exact Hin|].
    rewrite (Hg k l Hin). apply filter_In. auto.
Qed.

(** *** get_health_trends: counts *)

Lemma length_dict_append (dt : dict) (k : value) (r : row) :
  (List.length dt <= List.length (dict_append dt k r) <= S (List.length dt))%nat /\
  (1 <= List.length (dict_append dt k r))%nat.
Proof.
  induction dt as [|[k0 l0] dt IH]; simpl.
  - lia.
  - destruct (value_eqb k0 k); simpl; lia.
Qed.

Lemma length_group_fold (trend_data : list row) (dt : dict) :
  let dt' := fold_left (fun dt r => dict_append dt (get r "dataset_name" VNone) r)
                       trend_data dt in
  (List.length dt <= List.length dt' <= List.length dt + List.length trend_data)%nat /\
  (trend_data <> [] -> 1 <= List.length dt')%nat.
Proof.
  revert dt. induction trend_data as [|r rest IH]; intros dt; simpl.
  - split; [lia | congruence].
  - destruct (IH (dict_append dt (get r "dataset_name" VNone) r)) as [[H1 H2] _].
    destruct (length_dict_append dt (get r "dataset_name" VNone) r) as [[H3 H4] H5].
    split; [lia|]. intros _. lia.
Qed.

Lemma classified_lengths (items : dict) (w b : list trend) :
  classified items w b ->
  (List.length w + List.length b <= List.length items)%nat.
Proof.
  induction 1; simpl; lia.
Qed.

(** X8: the counts of a returned result.  The two lists together hold at
    most [dataset_count] entries, [dataset_count] is at most the number of
    answered rows, and it is 0 exactly when no row was answered. *)
Theorem trend_counts (d : platform) (name : option string) (hours : Z)
    (log log' : list command) (r : trends_result) :
  get_health_trends d name hours log = (Val r, log') ->
  (List.length (trending_worse r) + List.length (trending_better r)
     <= dataset_count r)%nat /\
  (dataset_count r <= List.length (raw_trends r))%nat /\
  (dataset_count r = 0%nat <-> raw_trends r = []).
Proof.
  intro H.
  destruct (get_health_trends_returns _ _ _ _ H) as [e [rest [td [_ [_ [_ [Ha _]]]]]]].
  destruct (analyze_raw_trends _ Ha) as [Hraw Hcount].
  rewrite Hraw, Hcount. clear Hraw Hcount H.
  destruct (length_group_fold td []) as [[_ Hle] Hpos].
  simpl in Hle, Hpos. fold (group_by_dataset td) in Hle, Hpos.
  split; [apply classified_lengths; apply analyze_classified; exact Ha|].
  split; [exact Hle|]. split.
  - intro H0. destruct td as [|x td]; [reflexivity|].
    assert (Hne : x :: td <> []) by discriminate. specialize (Hpos Hne). lia.
  - intro Hnil. subst td. reflexivity.
Qed.

(** *** get_health_trends: when the analysis fails *)

Lemma fl_cases (x : Q) : (exists q, fl x = Fin q) \/ (exists s, fl x = Inf s).
Proof.
  unfold fl, round_pos.
  destruct (Qltb x 0); match goal with |- context [Z.leb ?a ?b] =>
    destruct (Z.leb a b) end; cbn [float_opp]; eauto.
Qed.

Lemma float_of_int_cases (z : Z) :
  (exists q, float_of_int z = Val (Fin q)) \/ float_of_int z = Raise OverflowError.
Proof.
  unfold float_of_int.
  destruct (fl_cases (inject_Z z)) as [[q E]|[s E]]; rewrite E; eauto.
Qed.

Lemma to_float_cases (n : number) :
  (exists f, to_float n = Val f) \/ to_float n = Raise OverflowError.
Proof.
  destruct n as [z|f]; cbn [to_float]; [|eauto].
  destruct (float_of_int_cases z) as [[q E]|E]; rewrite E; eauto.
Qed.

Lemma add_cases (a b : number) :
  (exists c, add a b = Val c) \/ add a b = Raise OverflowError.
Proof.
  assert (H : (exists c, (x <~ to_float a ;; y <~ to_float b ;;
                          Val (PFloat (float_add x y)))%script = Val c) \/
              (x <~ to_float a ;; y <~ to_float b ;;
               Val (PFloat (float_add x y)))%script = Raise OverflowError).
  { destruct (to_float_cases a) as [[x E]|E]; rewrite E; cbn [obind]; [|eauto].
    destruct (to_float_cases b) as [[y E']|E']; rewrite E'; cbn [obind]; eauto. }
  destruct a as [x|f], b as [y|g]; cbn [add]; eauto.
Qed.

Lemma truediv_cases (a b : number) :
  (exists f, truediv a b = Val f) \/
  truediv a b = Raise OverflowError \/ truediv a b = Raise ZeroDivisionError.
Proof.
  assert (H : (exists f, (x <~ to_float a ;; y <~ to_float b ;;
                          float_truediv x y)%script = Val f) \/
              (x <~ to_float a ;; y <~ to_float b ;;
               float_truediv x y)%script = Raise OverflowError \/
              (x <~ to_float a ;; y <~ to_float b ;;
               float_truediv x y)%script = Raise ZeroDivisionError).
  { destruct (to_float_cases a) as [[x E]|E]; rewrite E; cbn [obind]; [|eauto].
    destruct (to_float_cases b) as [[y E']|E']; rewrite E'; cbn [obind]; [|eauto].
    unfold float_truediv. destruct (float_is_zero y); eauto. }
  destruct a as [x|f], b as [y|g]; cbn [truediv]; eauto.
  unfold int_truediv. destruct (y =? 0)%Z; [eauto|].
  destruct (fl_cases (inject_Z x / inject_Z y)) as [[q E]|[s E]]; rewrite E; eauto.
Qed.

(** The sum of a window is a number exactly when no addition overflows and
    every row holds a number; it never ends the script. *)
Lemma sum_avg_hours_silent_cases (ts : list row) (acc : number) :
  (exists s, sum_avg_hours_silent ts acc = Val s /\
             forall r, In r ts -> has_average r) \/
  (exists x, analysis_error x /\ sum_avg_hours_silent ts acc = Raise x).
Proof.
  unfold analysis_error.
  revert acc. induction ts as [|t rest IH]; intros acc; cbn [sum_avg_hours_silent].
  - left. exists acc. split; [reflexivity | intros r []].
  - unfold getitem.
    destruct (lookup t "avg_hours_silent") as [[|q|s]|] eqn:El; cbn [obind py_add];
      try (right; eexists; split; [|reflexivity]; auto).
    destruct (add_cases acc (number_of q)) as [[c E]|E]; rewrite E; cbn [obind].
    + destruct (IH c) as [[s [Hs Hall]]|Herr]; [|right; exact Herr].
      left. exists s. split; [exact Hs|].
      intros r [Hr|Hr]; [subst r; exists q; exact El | apply Hall; exact Hr].
    + right. exists OverflowError. auto.
Qed.

Lemma windows_partition (l : list row) : but_last3 l ++ last3 l = l.
Proof. unfold but_last3, last3. apply firstn_skipn. Qed.

Lemma average_cases (ts : list row) (z : Z) :
  (exists f, (s <~ sum_avg_hours_silent ts (PInt 0) ;; truediv s (PInt z))%script = Val f /\
             forall r, In r ts -> has_average r) \/
  (exists x, analysis_error x /\
     (s <~ sum_avg_hours_silent ts (PInt 0) ;; truediv s (PInt z))%script = Raise x).
Proof.
  destruct (sum_avg_hours_silent_cases ts (PInt 0)) as [[s [Hs Hall]]|[x [Hx Hr]]];
    [|right; exists x; rewrite Hr; auto].
  rewrite Hs. cbn [obind].
  destruct (truediv_cases s (PInt z)) as [[f E]|[E|E]]; rewrite E.
  - left. exists f. auto.
  - right. exists OverflowError. unfold analysis_error. auto.
  - right. exists ZeroDivisionError. unfold analysis_error. auto.
Qed.

(** The two averages of a group exist only if every row of the group holds
    a number; the other outcomes are exceptions of the analysis. *)
Lemma averages_cases (l : list row) :
  ((forall r, In r l -> has_average r) /\
   exists recent older, averages l recent older) \/
  (exists x, analysis_error x /\
             (recent_avg_of l = Raise x \/
              (exists recent, recent_avg_of l = Val recent /\
                              older_avg_of l = Raise x))).
Proof.
  unfold averages, recent_avg_of, older_avg_of.
  assert (Hin : forall r, In r l <-> In r (but_last3 l) \/ In r (last3 l)).
  { intro r. rewrite <- (windows_partition l) at 1. apply in_app_iff. }
  destruct (average_cases (last3 l) (Z.min 3 (Z.of_nat (List.length l))))
    as [[recent [Hr Hallr]]|[x [Hx Hr]]]; [|right; exists x; auto].
  destruct (average_cases (but_last3 l) (Z.max 1 (Z.of_nat (List.length l) - 3)))
    as [[older [Ho Hallo]]|[x [Hx Ho]]].
  - left. split; [|eauto].
    intros r Hr'. apply Hin in Hr'. destruct Hr'; auto.
  - right. exists x. split; [exact Hx|]. right. eauto.
Qed.

Lemma zero_float (older : float) :
  float_is_zero older = true -> exists o, older = Fin o /\ o == 0.
Proof.
  destruct older as [o|s|]; cbn [float_is_zero]; try discriminate.
  intro H. exists o. split; [reflexivity | apply Qeq_bool_iff; exact H].
Qed.

(** One iteration on a group of at least two rows: it goes through exactly
    when the two averages can be computed and a zero older average comes
    with a recent average that is neither above nor below zero. *)
Lemma analyze_dataset_cases (k : value) (l : list row)
    (st : list trend * list trend) :
  (2 <= List.length l)%nat ->
  (comparable l /\ exists st', analyze_dataset k l st = Val st') \/
  (~ comparable l /\
   exists x, analysis_error x /\ analyze_dataset k l st = Raise x).
Proof.
  intro Hlen. unfold analyze_dataset, comparable.
  destruct (Nat.leb_spec 2 (List.length l)) as [_|Hlt]; [|lia].
  destruct (averages_cases l) as [[Hall [recent [older [Hr Ho]]]]
                                 |[x [Hx Hraise]]].
  - rewrite Hr, Ho. cbn [obind].
    assert (Huniq : forall recent' older', averages l recent' older' ->
                      recent' = recent /\ older' = older).
    { intros recent' older' [H1 H2]. split; congruence. }
    destruct (float_is_zero older) eqn:Ez.
    + destruct (zero_float _ Ez) as [o [Eo Ho0]]. subst older.
      rewrite !(zero_product _ Ho0).
      destruct (float_ltb (Fin 0) recent) eqn:Ew.
      * right. split.
        -- intros [Hs|[_ [r' [o' [Hav Himp]]]]]; [lia|].
           destruct (Huniq _ _ Hav) as [H1 H2]. subst r' o'.
           destruct (Himp Ez) as [H _]. congruence.
        -- exists ZeroDivisionError. split; [unfold analysis_error; auto|].
           rewrite make_trend_zero by exact Ez. reflexivity.
      * destruct (float_ltb recent (Fin 0)) eqn:Eb.
        -- right. split.
           ++ intros [Hs|[_ [r' [o' [Hav Himp]]]]]; [lia|].
              destruct (Huniq _ _ Hav) as [H1 H2]. subst r' o'.
              destruct (Himp Ez) as [_ H]. congruence.
           ++ exists ZeroDivisionError. split; [unfold analysis_error; auto|].
              rewrite make_trend_zero by exact Ez. reflexivity.
        -- left. split; [|eauto]. right. split; [exact Hall|].
           exists recent, (Fin o). split; [split; assumption|]. auto.
    + left. split.
      * right. split; [exact Hall|]. exists recent, older.
        split; [split; assumption|]. intro H. congruence.
      * rewrite (@make_trend_nonzero k recent older Ez).
        destruct (float_ltb (float_mul older (Fin 1.5)) recent); [cbn [obind]; eauto|].
        destruct (float_ltb recent (float_mul older (Fin 0.5))); cbn [obind]; eauto.
  - right. split.
    + intros [Hs|[_ [r' [o' [[H1 H2] _]]]]]; [lia|].
      destruct Hraise as [Hr|[recent [Hr Ho]]]; congruence.
    + exists x. split; [exact Hx|].
      destruct Hraise as [Hr|[recent [Hr Ho]]].
      * rewrite Hr. reflexivity.
      * rewrite Hr, Ho. reflexivity.
Qed.

Lemma analyze_all_cases (items : dict) (st : list trend * list trend) :
  (Forall (fun kl => comparable (snd kl)) items /\
   exists st', analyze_all items st = Val st') \/
  (~ Forall (fun kl => comparable (snd kl)) items /\
   exists x, analysis_error x /\ analyze_all items st = Raise x).
Proof.
  revert st. induction items as [|[k l] items IH]; intros st; simpl.
  - left. split; [constructor | eauto].
  - assert (Hhead :
      (comparable l /\ exists st', analyze_dataset k l st = Val st') \/
      (~ comparable l /\ exists x, analysis_error x /\
                                   analyze_dataset k l st = Raise x)).
    { destruct (Nat.leb_spec 2 (List.length l)) as [Hlen|Hlen].
      - apply analyze_dataset_cases. exact Hlen.
      - left. split; [left; exact Hlen|]. unfold analyze_dataset.
        destruct (Nat.leb_spec 2 (List.length l)); [lia | eauto]. }
    destruct Hhead as [[Hc [st1 H1]]|[Hn [x [Hx H1]]]]; rewrite H1; simpl.
    + destruct (IH st1) as [[Hall Hv]|[Hnall Hr]].
      * left. split; [constructor; assumption | exact Hv].
      * right. split; [|exact Hr]. intro H. inversion H; subst. auto.
    + right. split; [|eauto]. intro H. inversion H; subst. auto.
Qed.

Lemma analyze_cases (trend_data : list row) :
  (Forall (fun kl => comparable (snd kl)) (group_by_dataset trend_data) /\
   exists r, analyze trend_data = Val r) \/
  (~ Forall (fun kl => comparable (snd kl)) (group_by_dataset trend_data) /\
   exists x, analysis_error x /\ analyze trend_data = Raise x).
Proof.
  unfold analyze.
  destruct (analyze_all_cases (group_by_dataset trend_data) ([], []))
    as [[Hall [st Hst]]|[Hn [x [Hx Hr]]]].
  - left. split; [exact Hall|]. rewrite Hst. simpl. eauto.
  - right. split; [exact Hn|]. exists x. rewrite Hr. auto.
Qed.

Lemma get_health_trends_never_raises (d : platform) (name : option string)
    (hours : Z) (log : list command) (x : exn) :
  fst (get_health_trends d name hours log) <> Raise x.
Proof.
  rewrite get_health_trends_run. simpl.
  destruct (oracle d (trends_command name hours)) as [x'|[|e rest]];
    try discriminate.
  destruct (type_is_error e); try discriminate.
  destruct (contents_results e) as [td| |]; try discriminate.
  destruct (analyze td); discriminate.
Qed.

(** X9: exactly when the analysis goes through.  On a readable, non-error
    answer [get_health_trends] returns a result if and only if, for every
    dataset with two or more buckets, each bucket holds a number, the two
    averages can be computed and, when the older average is zero, the recent
    one is neither above nor below zero; otherwise the run ends in
    [return_error] with a [KeyError], a [TypeError], an [OverflowError] or
    a [ZeroDivisionError].  Datasets with one bucket are never looked at. *)
Theorem analysis_returns_iff (d : platform) (name : option string) (hours : Z)
    (log : list command) (e : entry) (rest : list entry) (trend_data : list row) :
  oracle d (trends_command name hours) = ExecReturns (e :: rest) ->
  type_is_error e = false ->
  contents_results e = Val trend_data ->
  (Forall (fun kl => comparable (snd kl)) (group_by_dataset trend_data) ->
   exists r, get_health_trends d name hours log =
               (Val r, log ++ [trends_command name hours])) /\
  (~ Forall (fun kl => comparable (snd kl)) (group_by_dataset trend_data) ->
   exists x, analysis_error x /\
             get_health_trends d name hours log =
               (Exit (Error_analyzing_trends x),
                log ++ [trends_command name hours])).
Proof.
  intros Ho Ht Hc. rewrite get_health_trends_run, Ho, Ht, Hc.
  destruct (analyze_cases trend_data) as [[Hall [r Hr]]|[Hn [x [Hx Hr]]]];
    rewrite Hr; split.
  - intros _. eauto.
  - intro H. contradiction.
  - intro H. contradiction.
  - intros _. eauto.
Qed.

(** X10: [get_health_trends] issues exactly its one query and never lets an
    exception escape.  Its message is "Failed to get trends" exactly when
    the first entry is error-typed; an empty entry list ends in "Error
    analyzing trends" with [IndexError], a raising query with the query's
    exception, unreadable contents with [AttributeError]. *)
Theorem get_health_trends_error_reporting (d : platform) (name : option string)
    (hours : Z) (log : list command) :
  snd (get_health_trends d name hours log) = log ++ [trends_command name hours] /\
  (forall x, fst (get_health_trends d name hours log) <> Raise x) /\
  (forall c, fst (get_health_trends d name hours log) =
               Exit (Failed_to_get_trends c) <->
             exists e rest,
               oracle d (trends_command name hours) = ExecReturns (e :: rest) /\
               type_is_error e = true /\ c = entry_Contents e) /\
  (oracle d (trends_command name hours) = ExecReturns [] ->
   fst (get_health_trends d name hours log) =
     Exit (Error_analyzing_trends IndexError)) /\
  (forall x, oracle d (trends_command name hours) = ExecRaises x ->
   fst (get_health_trends d name hours log) = Exit (Error_analyzing_trends x)) /\
  (forall e rest, oracle d (trends_command name hours) = ExecReturns (e :: rest) ->
   type_is_error e = false -> contents_results e = Raise AttributeError ->
   fst (get_health_trends d name hours log) =
     Exit (Error_analyzing_trends AttributeError)).
Proof.
  split; [rewrite get_health_trends_run; reflexivity|].
  split; [intro x; apply get_health_trends_never_raises|].
  rewrite get_health_trends_run. simpl fst.
  destruct (oracle d (trends_command name hours)) as [x|[|e rest]] eqn:Ho.
  - split; [|split; [|split]].
    + intro c. split; [discriminate|]. intros [e [rest [H _]]]. discriminate.
    + discriminate.
    + intros x' H. congruence.
    + discriminate.
  - split; [|split; [|split]].
    + intro c. split; [discriminate|]. intros [e [rest [H _]]]. discriminate.
    + reflexivity.
    + discriminate.
    + discriminate.
  - destruct (type_is_error e) eqn:Et.
    + split; [|split; [|split]].
      * intro c. split.
        -- intro H. exists e, rest. split; [reflexivity|]. split; [exact Et|].
           congruence.
        -- intros [e' [rest' [H [_ Hc]]]]. congruence.
      * discriminate.
      * discriminate.
      * intros e' rest' H Ht'. congruence.
    + split; [|split; [|split]].
      * intro c. split.
        -- destruct (contents_results e) as [td|x|m] eqn:Ec.
           ++ destruct (analyze_cases td) as [[_ [r Hr]]|[_ [x [_ Hr]]]];
                rewrite Hr; discriminate.
           ++ discriminate.
           ++ unfold contents_results in Ec.
              destruct (entry_Contents e) as [[[rows|]|s]|]; discriminate.
        -- intros [e' [rest' [H [Ht' _]]]]. congruence.
      * discriminate.
      * discriminate.
      * intros e' rest' H _ Hc. injection H as He _. subst e'.
        rewrite Hc. reflexivity.
Qed.

(** *** get_health_trends: the size of a reported change *)

Lemma number_of_nonneg (q : Q) : 0 <= q -> nonneg_number (number_of q).
Proof.
  intro H. unfold number_of.
  destruct (Qden q) eqn:E; cbn [nonneg_number]; try (apply fl_nonneg; exact H).
  unfold Qle in H. rewrite E in H. cbn in H. lia.
Qed.

Lemma float_add_nonneg (x y : float) :
  nonneg x -> nonneg y -> nonneg (float_add x y).
Proof.
  destruct x as [a|s|], y as [b|s'|]; cbn [nonneg float_add];
    try contradiction; try (intros; assumption).
  - intros Ha Hb. apply fl_nonneg.
    rewrite <- (Qplus_0_l 0). apply Qplus_le_compat; assumption.
  - intros Hs Hs'. subst s s'. reflexivity.
Qed.

Lemma float_of_int_finite (z : Z) (f : float) :
  float_of_int z = Val f -> exists q, f = Fin q.
Proof.
  unfold float_of_int.
  destruct (fl_cases (inject_Z z)) as [[q E]|[s E]]; rewrite E;
    [|discriminate].
  intro H. exists q. congruence.
Qed.

Lemma float_of_int_nonneg (z : Z) (f : float) :
  (0 <= z)%Z -> float_of_int z = Val f -> nonneg f.
Proof.
  intros Hz. unfold float_of_int.
  assert (Hn : nonneg (fl (inject_Z z))).
  { apply fl_nonneg. change 0 with (inject_Z 0). rewrite <- Zle_Qle. exact Hz. }
  destruct (fl (inject_Z z)) as [q|s|]; try discriminate;
    intro H; injection H as H; subst f; exact Hn.
Qed.

Lemma to_float_nonneg (n : number) (f : float) :
  nonneg_number n -> to_float n = Val f -> nonneg f.
Proof.
  destruct n as [z|g]; cbn [nonneg_number to_float].
  - apply float_of_int_nonneg.
  - intros Hg H. injection H as H. subst f. exact Hg.
Qed.

Lemma add_nonneg (a b c : number) :
  nonneg_number a -> nonneg_number b -> add a b = Val c -> nonneg_number c.
Proof.
  intros Ha Hb.
  assert (H : (x <~ to_float a ;; y <~ to_float b ;;
               Val (PFloat (float_add x y)))%script = Val c -> nonneg_number c).
  { destruct (to_float a) as [x| |] eqn:Ex; cbn [obind]; try discriminate.
    destruct (to_float b) as [y| |] eqn:Ey; cbn [obind]; try discriminate.
    intro H. injection H as H. subst c. cbn [nonneg_number].
    apply float_add_nonneg;
      [exact (@to_float_nonneg a x Ha Ex) | exact (@to_float_nonneg b y Hb Ey)]. }
  destruct a as [x|f], b as [y|g]; cbn [add]; try exact H.
  intro E. injection E as E. subst c. cbn [nonneg_number] in *. lia.
Qed.

Lemma sum_avg_hours_silent_nonneg (ts : list row) (acc s : number) :
  (forall x q, In x ts -> lookup x "avg_hours_silent" = Some (VNum q) -> 0 <= q) ->
  nonneg_number acc ->
  sum_avg_hours_silent ts acc = Val s -> nonneg_number s.
Proof.
  revert acc. induction ts as [|t rest IH]; intros acc Hpos Hacc;
    cbn [sum_avg_hours_silent].
  - intro H. injection H as H. subst s. exact Hacc.
  - unfold getitem.
    destruct (lookup t "avg_hours_silent") as [[|q|u]|] eqn:El; cbn [obind py_add];
      try discriminate.
    destruct (add acc (number_of q)) as [c| |] eqn:Ea; cbn [obind]; try discriminate.
    apply IH.
    + intros x q' Hx. apply Hpos. right. exact Hx.
    + eapply add_nonneg; [exact Hacc | | exact Ea].
      apply number_of_nonneg. apply (Hpos t q (or_introl eq_refl) El).
Qed.

Lemma zero_exact : fl 0 = Fin 0.
Proof. vm_compute. reflexivity. Qed.

Lemma float_div_exact (x y : float) : exact (float_div x y).
Proof.
  destruct x as [a|s|], y as [b|s'|]; cbn [float_div exact];
    try exact I; try apply fl_exact; exact zero_exact.
Qed.

Lemma float_div_nonneg (x y : float) (b : Q) :
  nonneg x -> y = Fin b -> 0 <= b -> nonneg (float_div x y).
Proof.
  intros Hx Hy Hb. subst y.
  destruct x as [a|s|]; cbn [nonneg float_div] in *; try contradiction.
  - apply fl_nonneg.
    destruct (Qeq_dec b 0) as [E|E].
    + assert (E' : a / b == 0).
      { rewrite E. unfold Qdiv. change (/ 0) with 0. ring. }
      rewrite E'. apply Qle_refl.
    + apply Qle_shift_div_l; [|rewrite Qmult_0_l; exact Hx].
      apply Qle_lteq in Hb. destruct Hb as [Hb|Hb]; [exact Hb|].
      exfalso. apply E. symmetry. exact Hb.
  - subst s. apply Qltb_ge in Hb. rewrite Hb. reflexivity.
Qed.

(** An average of numbers that are not negative is a binary64 number that
    is not negative. *)
Lemma truediv_nonneg (s : number) (z : Z) (f : float) :
  nonneg_number s -> (0 <= z)%Z -> truediv s (PInt z) = Val f ->
  nonneg f /\ exact f.
Proof.
  intros Hs Hz. destruct s as [x|g]; cbn [truediv nonneg_number] in *.
  - unfold int_truediv. destruct (z =? 0)%Z eqn:E0; [discriminate|].
    apply Z.eqb_neq in E0.
    assert (Hq : 0 <= inject_Z x / inject_Z z).
    { apply Qle_shift_div_l.
      - change 0 with (inject_Z 0). rewrite <- Zlt_Qlt. lia.
      - rewrite Qmult_0_l. change 0 with (inject_Z 0). rewrite <- Zle_Qle. exact Hs. }
    pose proof (fl_nonneg Hq) as Hn.
    pose proof (fl_exact (inject_Z x / inject_Z z)) as He.
    destruct (fl (inject_Z x / inject_Z z)) as [q|u|]; try discriminate;
      intro H; injection H as H; subst f; split; assumption.
  - cbn [to_float obind].
    destruct (float_of_int z) as [y| |] eqn:Ey; cbn [obind]; try discriminate.
    unfold float_truediv. destruct (float_is_zero y); [discriminate|].
    intro H. injection H as H. subst f. split; [|apply float_div_exact].
    destruct (float_of_int_finite _ Ey) as [b Eb].
    apply (@float_div_nonneg g y b Hs Eb).
    pose proof (@float_of_int_nonneg z y Hz Ey) as Hy. rewrite Eb in Hy. exact Hy.
Qed.

Lemma averages_nonneg (l : list row) (recent older : float) :
  (forall x q, In x l -> lookup x "avg_hours_silent" = Some (VNum q) -> 0 <= q) ->
  averages l recent older ->
  (nonneg recent /\ exact recent) /\ (nonneg older /\ exact older).
Proof.
  intros Hpos [Hr Ho]. unfold recent_avg_of, older_avg_of in *.
  assert (Hin : forall r, In r (but_last3 l) \/ In r (last3 l) -> In r l).
  { intro r. rewrite <- (windows_partition l) at 3. apply in_or_app. }
  split.
  - destruct (sum_avg_hours_silent (last3 l) (PInt 0)) as [s| |] eqn:Es;
      try discriminate.
    cbn [obind] in Hr. eapply truediv_nonneg; [| |exact Hr]; [|lia].
    eapply sum_avg_hours_silent_nonneg; [| |exact Es]; [|cbn; lia].
    intros x q Hx. apply Hpos. apply Hin. right. exact Hx.
  - destruct (sum_avg_hours_silent (but_last3 l) (PInt 0)) as [s| |] eqn:Es;
      try discriminate.
    cbn [obind] in Ho. eapply truediv_nonneg; [| |exact Ho]; [|lia].
    eapply sum_avg_hours_silent_nonneg; [| |exact Es]; [|cbn; lia].
    intros x q Hx. apply Hpos. apply Hin. left. exact Hx.
Qed.

Lemma group_rows_from_input (trend_data : list row) (k : value) (l : list row)
    (x : row) :
  In (k, l) (group_by_dataset trend_data) -> In x l -> In x trend_data.
Proof.
  intros Hin Hx.
  destruct (@group_fold_groups trend_data [] []) as [Hg _];
    [exact I | intros k' l' [] | intros x' [] |].
  simpl in Hg. fold (group_by_dataset trend_data) in Hg.
  rewrite (Hg k l Hin) in Hx. apply filter_In in Hx. apply Hx.
Qed.

(** Every listed entry comes from a group of the dict, with that group's
    averages. *)
Lemma classified_entries (items : dict) (w b : list trend) :
  classified items w b ->
  (forall t, In t w ->
     exists k l recent older,
       In (k, l) items /\ averages l recent older /\
       worse_than recent older /\ float_is_zero older = false /\
       reports t k recent older) /\
  (forall t, In t b ->
     exists k l recent older,
       In (k, l) items /\ averages l recent older /\
       ~ worse_than recent older /\ better_than recent older /\
       float_is_zero older = false /\ reports t k recent older).
Proof.
  induction 1 as [|k l items w b t recent older Hlen Hav Hw Hnz Hrep Hc IH
                   |k l items w b t recent older Hlen Hav Hw Hb Hnz Hrep Hc IH
                   |k l items w b recent older Hlen Hav Hw Hb Hc IH
                   |k l items w b Hlen Hc IH].
  - split; intros t [].
  - destruct IH as [IHw IHb]. split.
    + intros t' [Ht|Ht].
      * subst t'. exists k, l, recent, older.
        split; [left; reflexivity|]. repeat (split; [assumption|]). assumption.
      * destruct (IHw t' Ht) as [k' [l' [r' [o' [Hin Hrest]]]]].
        exists k', l', r', o'. split; [right; exact Hin | exact Hrest].
    + intros t' Ht.
      destruct (IHb t' Ht) as [k' [l' [r' [o' [Hin Hrest]]]]].
      exists k', l', r', o'. split; [right; exact Hin | exact Hrest].
  - destruct IH as [IHw IHb]. split.
    + intros t' Ht.
      destruct (IHw t' Ht) as [k' [l' [r' [o' [Hin Hrest]]]]].
      exists k', l', r', o'. split; [right; exact Hin | exact Hrest].
    + intros t' [Ht|Ht].
      * subst t'. exists k, l, recent, older.
        split; [left; reflexivity|]. repeat (split; [assumption|]). assumption.
      * destruct (IHb t' Ht) as [k' [l' [r' [o' [Hin Hrest]]]]].
        exists k', l', r', o'. split; [right; exact Hin | exact Hrest].
  - destruct IH as [IHw IHb]. split; intros t' Ht.
    + destruct (IHw t' Ht) as [k' [l' [r' [o' [Hin Hrest]]]]].
      exists k', l', r', o'. split; [right; exact Hin | exact Hrest].
    + destruct (IHb t' Ht) as [k' [l' [r' [o' [Hin Hrest]]]]].
      exists k', l', r', o'. split; [right; exact Hin | exact Hrest].
  - destruct IH as [IHw IHb]. split; intros t' Ht.
    + destruct (IHw t' Ht) as [k' [l' [r' [o' [Hin Hrest]]]]].
      exists k', l', r', o'. split; [right; exact Hin | exact Hrest].
    + destruct (IHb t' Ht) as [k' [l' [r' [o' [Hin Hrest]]]]].
      exists k', l', r', o'. split; [right; exact Hin | exact Hrest].
Qed.

(** X11: a listed change is at least fifty percent.  When no answered row
    holds a negative [avg_hours_silent], every entry of [trending_worse]
    has [change_percent >= 50], and every entry of [trending_better] whose
    older average is not infinite has [change_percent <= -50]; the
    comparisons are those of the floats. *)
Theorem listed_change_at_least_half (d : platform) (name : option string)
    (hours : Z) (log log' : list command) (r : trends_result) :
  get_health_trends d name hours log = (Val r, log') ->
  (forall x q, In x (raw_trends r) ->
     lookup x "avg_hours_silent" = Some (VNum q) -> 0 <= q) ->
  (forall t, In t (trending_worse r) ->
     float_leb (Fin 50) (change_percent t) = true) /\
  (forall t, In t (trending_better r) ->
     older_avg_silent t <> Inf false ->
     float_leb (change_percent t) (Fin (-50)) = true).
Proof.
  intros H Hpos.
  destruct (get_health_trends_returns _ _ _ _ H) as [e [rest [td [_ [_ [_ [Ha _]]]]]]].
  destruct (analyze_raw_trends _ Ha) as [Hraw _]. rewrite Hraw in Hpos.
  destruct (classified_entries (analyze_classified _ Ha)) as [Hw Hb].
  assert (Hgroup : forall k l recent older,
            In (k, l) (group_by_dataset td) -> averages l recent older ->
            (nonneg recent /\ exact recent) /\ (nonneg older /\ exact older)).
  { intros k l recent older Hin Hav.
    apply (@averages_nonneg l recent older); [|exact Hav].
    intros x q Hx. apply Hpos. eapply group_rows_from_input; eauto. }
  split.
  - intros t Ht.
    destruct (Hw t Ht) as [k [l [recent [older [Hin [Hav [Hworse [Hnz Hrep]]]]]]]].
    destruct (Hgroup _ _ _ _ Hin Hav) as [[Hr Her] [Ho Heo]].
    destruct Hrep as [_ [_ [_ Hcp]]]. rewrite Hcp.
    apply worse_change; assumption.
  - intros t Ht Hfin.
    destruct (Hb t Ht) as [k [l [recent [older [Hin [Hav [_ [Hbetter [Hnz Hrep]]]]]]]]].
    destruct (Hgroup _ _ _ _ Hin Hav) as [[Hr Her] [Ho Heo]].
    destruct Hrep as [_ [_ [Hold Hcp]]]. rewrite Hcp.
    apply better_change; try assumption.
    intro E. apply Hfin. rewrite Hold, E. reflexivity.
Qed.

(** The condition on the older average is needed: when the older sum
    overflows, the dataset is listed as trending better with an infinite
    older average and a change that is not a number. *)
Example infinite_older_average :
  analyze MoreSamples.overflowing_older =
  Val {| raw_trends := MoreSamples.overflowing_older;
         trending_worse := [];
         trending_better :=
           [ {| HealthTrends.dataset := VStr "a";
                recent_avg_silent := Fin 1;
                older_avg_silent := Inf false;
                change_percent := NaN |} ];
         dataset_count := 1 |}.
Proof. vm_compute. reflexivity. Qed.

(** *** GetDataSourceHealthTrends.py: main *)

Lemma trends_main_run (b : HealthTrendsMain.builtins) (d : platform)
    (log : list command) :
  HealthTrendsMain.main b d log =
  match HealthTrendsMain.py_int b (get (args d) "timeframe_hours" (VNum 24)) with
  | Val hours =>
      match get_health_trends d
              (HealthTrendsMain.filter_name b (get (args d) "dataset_name" VNone))
              hours log with
      | (Val trends, log1) =>
          (Val {| HealthTrendsMain.readable_output :=
                    {| HealthTrendsMain.timeframe := hours;
                       HealthTrendsMain.trending_worse_section :=
                         HealthTrendsMain.section (trending_worse trends);
                       HealthTrendsMain.trending_better_section :=
                         HealthTrendsMain.section (trending_better trends);
                       HealthTrendsMain.analyzed := dataset_count trends |};
                  HealthTrendsMain.HealthTrends := trends |}, log1)
      | (Raise x, log1) => (Raise x, log1)
      | (Exit m, log1) => (Exit m, log1)
      end
  | Raise x => (Raise x, log)
  | Exit m => (Exit m, log)
  end.
Proof.
  unfold HealthTrendsMain.main. unfold bind at 1. unfold lift.
  destruct (HealthTrendsMain.py_int b (get (args d) "timeframe_hours" (VNum 24)))
    as [hours|x|m]; reflexivity.
Qed.

Lemma section_lines (l : list trend) (lines : list (value * float)) :
  HealthTrendsMain.section l = Some lines ->
  map fst lines = names l /\ l <> [].
Proof.
  destruct l as [|t l]; simpl; [discriminate|].
  intro H. injection H as H. subst lines. split; [|discriminate].
  unfold names. simpl. f_equal. rewrite map_map. reflexivity.
Qed.

(** X12: what the trend report announces.  When [main] returns outputs, it
    has issued the one trend query for the parsed arguments and nothing
    else, the outputs hold the result of [get_health_trends], the footer
    counts its datasets, a section is left out exactly when its list is
    empty, no dataset is announced twice in a section, and none is announced
    both as trending worse and as trending better. *)
Theorem trends_main_report (b : HealthTrendsMain.builtins) (d : platform)
    (log log' : list command) (out : HealthTrendsMain.outputs) :
  HealthTrendsMain.main b d log = (Val out, log') ->
  let r := HealthTrendsMain.HealthTrends out in
  let text := HealthTrendsMain.readable_output out in
  (exists hours,
     HealthTrendsMain.py_int b (get (args d) "timeframe_hours" (VNum 24)) = Val hours /\
     HealthTrendsMain.timeframe text = hours /\
     get_health_trends d
       (HealthTrendsMain.filter_name b (get (args d) "dataset_name" VNone))
       hours log = (Val r, log') /\
     log' = log ++ [trends_command
                      (HealthTrendsMain.filter_name b (get (args d) "dataset_name" VNone))
                      hours]) /\
  HealthTrendsMain.analyzed text = dataset_count r /\
  (HealthTrendsMain.trending_worse_section text = None <-> trending_worse r = []) /\
  (HealthTrendsMain.trending_better_section text = None <-> trending_better r = []) /\
  (forall lines, HealthTrendsMain.trending_worse_section text = Some lines ->
     NoDup (map fst lines)) /\
  (forall lines, HealthTrendsMain.trending_better_section text = Some lines ->
     NoDup (map fst lines)) /\
  (forall lw lb n,
     HealthTrendsMain.trending_worse_section text = Some lw ->
     HealthTrendsMain.trending_better_section text = Some lb ->
     In n (map fst lw) -> ~ In n (map fst lb)).
Proof.
  rewrite trends_main_run.
  destruct (HealthTrendsMain.py_int b (get (args d) "timeframe_hours" (VNum 24)))
    as [hours|x|m] eqn:Ei; try discriminate.
  destruct (get_health_trends d _ hours log) as [[trends|x|m] log1] eqn:Eg;
    try discriminate.
  intro H. injection H as Hout Hlog. subst out log1. simpl.
  destruct (get_health_trends_returns _ _ _ _ Eg)
    as [e [rest [td [_ [_ [_ [Ha Hlog]]]]]]].
  destruct (classified_disjoint (analyze_classified _ Ha)
              (group_by_dataset_NoDup td)) as [Hw [Hb Hwb]].
  split; [exists hours; auto|]. split; [reflexivity|].
  split; [destruct (trending_worse trends); simpl; split; congruence|].
  split; [destruct (trending_better trends); simpl; split; congruence|].
  split; [|split].
  - intros lines Hl. destruct (section_lines _ Hl) as [Hn _]. rewrite Hn. exact Hw.
  - intros lines Hl. destruct (section_lines _ Hl) as [Hn _]. rewrite Hn. exact Hb.
  - intros lw lb n Hlw Hlb.
    destruct (section_lines _ Hlw) as [Hnw _].
    destruct (section_lines _ Hlb) as [Hnb _].
    rewrite Hnw, Hnb. apply Hwb.
Qed.

(** X13: the only exception the trend [main] lets escape is the conversion
    of the [timeframe_hours] argument ([int] of a text that is not an
    integer, or of [None]), and it escapes before the query is issued. *)
Theorem trends_main_raises_only_on_timeframe (b : HealthTrendsMain.builtins)
    (d : platform) (log log' : list command) (x : exn) :
  HealthTrendsMain.main b d log = (Raise x, log') ->
  HealthTrendsMain.py_int b (get (args d) "timeframe_hours" (VNum 24)) = Raise x /\
  (x = ValueError \/ x = TypeError) /\ log' = log.
Proof.
  rewrite trends_main_run.
  destruct (HealthTrendsMain.py_int b (get (args d) "timeframe_hours" (VNum 24)))
    as [hours|x'|m] eqn:Ei; try discriminate.
  - pose proof (@get_health_trends_never_raises d
                  (HealthTrendsMain.filter_name b (get (args d) "dataset_name" VNone))
                  hours log x) as Hnr.
    destruct (get_health_trends d _ hours log) as [[trends|x'|m] log1];
      try discriminate.
    intro H. injection H as Hx _. subst x'. exfalso. apply Hnr. reflexivity.
  - intro H. injection H as Hx Hlog. subst x' log'. split; [reflexivity|].
    split; [|reflexivity].
    unfold HealthTrendsMain.py_int in Ei.
    destruct (get (args d) "timeframe_hours" (VNum 24)) as [|q|s].
    + injection Ei as Ei. auto.
    + discriminate.
    + destruct (HealthTrendsMain.int_of_string b s); [discriminate|].
      injection Ei as Ei. auto.
Qed.

Lemma length_append (a b : string) :
  String.length (a ++ b) = (String.length a + String.length b)%nat.
Proof.
  induction a as [|c a IH]; [reflexivity|].
  cbn [append String.length]. rewrite IH. reflexivity.
Qed.

Lemma append_assoc (a b c : string) : ((a ++ b) ++ c = a ++ (b ++ c))%string.
Proof.
  induction a as [|x a IH]; [reflexivity|].
  cbn [append]. rewrite IH. reflexivity.
Qed.

Lemma append_inv_head (a x y : string) : (a ++ x = a ++ y)%string -> x = y.
Proof.
  induction a as [|c a IH]; cbn [append]; [auto|].
  intro H. apply IH. congruence.
Qed.

Lemma append_inv_tail (a x y : string) : (x ++ a = y ++ a)%string -> x = y.
Proof.
  revert y. induction x as [|c x IH]; intros [|c' y] H.
  - reflexivity.
  - exfalso. apply (f_equal String.length) in H.
    rewrite !length_append in H. cbn [String.length] in H. lia.
  - exfalso. apply (f_equal String.length) in H.
    rewrite !length_append in H. cbn [String.length] in H. lia.
  - cbn [append] in H. injection H as Hc H. subst c'.
    f_equal. apply IH. exact H.
Qed.

Lemma trends_command_query (n n' : option string) (hours : Z) :
  trends_command n hours = trends_command n' hours ->
  dataset_filter n = dataset_filter n'.
Proof.
  intro H.
  assert (Hq : HealthTrends.xql_query n hours = HealthTrends.xql_query n' hours).
  { unfold trends_command in H.
    set (q := HealthTrends.xql_query n hours) in *.
    set (q' := HealthTrends.xql_query n' hours) in *.
    congruence. }
  unfold HealthTrends.xql_query in Hq.
  do 3 apply append_inv_head in Hq.
  apply append_inv_tail in Hq. exact Hq.
Qed.

(** The filter line of a truthy name. *)
Lemma dataset_filter_text (s : string) :
  s <> EmptyString ->
  dataset_filter (Some s) =
  ("| filter dataset_name = " ++ quote ++ s ++ quote)%string.
Proof. destruct s as [|c s]; [congruence | reflexivity]. Qed.

(** X14: a falsy [dataset_name] ([None], [0] or the empty text) asks for
    all datasets: the query is the unfiltered one.  Any other text [s] is
    pasted as it is, a quote in it included, between two double quotes:
    the query is the unfiltered text with [| filter dataset_name = "s"]
    put on the line after the dataset; it differs from the unfiltered
    query, and two different names give two different queries. *)
Theorem falsy_dataset_name_is_no_filter (b : HealthTrendsMain.builtins)
    (hours : Z) :
  (forall v, FilterDatasets.truthy v = false ->
     trends_command (HealthTrendsMain.filter_name b v) hours =
     trends_command None hours) /\
  (exists after,
     HealthTrends.xql_query None hours =
       ("
    config timeframe = " ++ str_of_int hours ++ "h
    | dataset = custom.data_source_health
    " ++ after)%string /\
     forall s, FilterDatasets.truthy (VStr s) = true ->
       HealthTrends.xql_query (HealthTrendsMain.filter_name b (VStr s)) hours =
         ("
    config timeframe = " ++ str_of_int hours ++ "h
    | dataset = custom.data_source_health
    " ++ "| filter dataset_name = " ++ quote ++ s ++ quote ++ after)%string) /\
  (forall s, FilterDatasets.truthy (VStr s) = true ->
     trends_command (HealthTrendsMain.filter_name b (VStr s)) hours <>
     trends_command None hours) /\
  (forall s s',
     FilterDatasets.truthy (VStr s) = true ->
     FilterDatasets.truthy (VStr s') = true ->
     trends_command (HealthTrendsMain.filter_name b (VStr s)) hours =
     trends_command (HealthTrendsMain.filter_name b (VStr s')) hours ->
     s = s').
Proof.
  assert (Htruthy : forall s, FilterDatasets.truthy (VStr s) = true ->
                              s <> EmptyString).
  { intros s Hv E. subst s. discriminate. }
  split; [|split; [|split]].
  - intros [|q|s] Hv; cbn [FilterDatasets.truthy] in Hv; try reflexivity.
    + unfold HealthTrendsMain.filter_name.
      apply negb_false_iff in Hv. rewrite Hv. reflexivity.
    + apply negb_false_iff in Hv. apply String.eqb_eq in Hv. subst s. reflexivity.
  - eexists. split; [reflexivity|].
    intros s Hv. cbn [HealthTrendsMain.filter_name]. unfold HealthTrends.xql_query.
    rewrite (dataset_filter_text (Htruthy s Hv)).
    rewrite !append_assoc. reflexivity.
  - intros s Hv H. cbn [HealthTrendsMain.filter_name] in H.
    apply trends_command_query in H.
    rewrite (dataset_filter_text (Htruthy s Hv)) in H. discriminate.
  - intros s s' Hv Hv' H. cbn [HealthTrendsMain.filter_name] in H.
    apply trends_command_query in H.
    rewrite (dataset_filter_text (Htruthy s Hv)),
            (dataset_filter_text (Htruthy s' Hv')) in H.
    do 2 apply append_inv_head in H.
    apply append_inv_tail in H. exact H.
Qed.

(** *** FilterDatasets.py: the order [sorted] uses *)

Import FilterDatasets.

Lemma string_ltb_lt (s t : string) : String.ltb s t = true <-> OrderedTypeEx.String_as_OT.lt s t.
Proof.
  unfold String.ltb. rewrite <- OrderedTypeEx.String_as_OT.cmp_lt. unfold OrderedTypeEx.String_as_OT.cmp.
  destruct (String.compare s t); split; congruence.
Qed.

Lemma string_ltb_trans (s t u : string) :
  String.ltb s t = true -> String.ltb t u = true -> String.ltb s u = true.
Proof.
  rewrite !string_ltb_lt. apply OrderedTypeEx.String_as_OT.lt_trans.
Qed.

Lemma string_ltb_irrefl (s : string) : String.ltb s s = false.
Proof.
  destruct (String.ltb s s) eqn:E; [|reflexivity].
  apply string_ltb_lt in E. exfalso. exact (OrderedTypeEx.String_as_OT.lt_not_eq s s E eq_refl).
Qed.

Lemma string_ltb_total (s t : string) :
  String.ltb s t = false -> s = t \/ String.ltb t s = true.
Proof.
  unfold String.ltb. rewrite (String.compare_antisym t s).
  destruct (String.compare s t) eqn:E; simpl; try discriminate; auto.
  left. apply String.compare_eq_iff. exact E.
Qed.

Lemma string_ltb_asym (s t : string) :
  String.ltb s t = true -> String.ltb t s = false.
Proof.
  intro H. destruct (String.ltb t s) eqn:E; [|reflexivity].
  pose proof (string_ltb_trans _ _ _ H E) as Hc.
  rewrite string_ltb_irrefl in Hc. discriminate.
Qed.

Lemma value_ltb_asym (a b : value) :
  value_ltb a b = Val true -> value_ltb b a = Val false.
Proof.
  destruct a as [|x|s], b as [|y|t]; simpl; try discriminate; intro H;
    injection H as H; f_equal.
  - apply Qltb_lt in H. apply Qltb_ge. apply Qlt_le_weak. exact H.
  - apply string_ltb_asym. exact H.
Qed.

Lemma value_ltb_trans (a b c : value) :
  value_lt a b -> value_lt b c -> value_lt a c.
Proof.
  unfold value_lt.
  destruct a as [|x|s], b as [|y|t], c as [|z|u]; simpl; try discriminate;
    intros H1 H2; injection H1 as H1; injection H2 as H2; f_equal.
  - apply Qltb_lt. apply Qltb_lt in H1. apply Qltb_lt in H2.
    eapply Qlt_trans; eauto.
  - eapply string_ltb_trans; eauto.
Qed.

Lemma value_ltb_irrefl (a : value) : ~ value_lt a a.
Proof.
  unfold value_lt. destruct a as [|x|s]; simpl; try discriminate; intro H;
    injection H as H.
  - apply Qltb_lt in H. exact (Qlt_irrefl _ H).
  - rewrite string_ltb_irrefl in H. discriminate.
Qed.

(** "Not greater" is transitive. *)
Lemma value_le_trans (x y z : value) :
  value_ltb y x = Val false -> value_ltb z y = Val false ->
  value_ltb z x = Val false.
Proof.
  destruct x as [|a|s], y as [|b|t], z as [|c|u]; simpl; try discriminate;
    intros H1 H2; injection H1 as H1; injection H2 as H2; f_equal.
  - apply Qltb_ge. apply Qltb_ge in H1. apply Qltb_ge in H2.
    eapply Qle_trans; eauto.
  - destruct (String.ltb u s) eqn:E; [|reflexivity]. exfalso.
    destruct (string_ltb_total _ _ H1) as [Hts|Hst];
      destruct (string_ltb_total _ _ H2) as [Hut|Htu]; subst.
    + rewrite string_ltb_irrefl in E. discriminate.
    + rewrite (string_ltb_asym _ _ Htu) in E. discriminate.
    + rewrite (string_ltb_asym _ _ Hst) in E. discriminate.
    + pose proof (string_ltb_trans _ _ _ Hst Htu) as Hsu.
      rewrite (string_ltb_asym _ _ Hsu) in E. discriminate.
Qed.

(** Between two different values, "not greater" is "less". *)
Lemma value_le_lt (a b : value) :
  value_ltb b a = Val false -> value_eqb a b = false -> value_lt a b.
Proof.
  unfold value_lt.
  destruct a as [|x|s], b as [|y|t]; simpl; try discriminate;
    intros H Hne; injection H as H; f_equal.
  - apply Qltb_lt. apply Qltb_ge in H. apply Qeq_bool_neq in Hne.
    apply Qle_lteq in H. destruct H as [H|H]; [exact H | contradiction].
  - destruct (string_ltb_total _ _ H) as [Hts|Hst]; [|exact Hst].
    subst t. rewrite String.eqb_refl in Hne. discriminate.
Qed.

Lemma value_lt_not_eqb (a b : value) : value_lt a b -> value_eqb a b = false.
Proof.
  unfold value_lt. destruct a as [|x|s], b as [|y|t]; simpl; try discriminate;
    intro H; injection H as H.
  - destruct (Qeq_bool x y) eqn:E; [|reflexivity].
    apply Qeq_bool_iff in E. apply Qltb_lt in H. rewrite E in H.
    exfalso. exact (Qlt_irrefl _ H).
  - destruct (String.eqb_spec s t) as [Heq|]; [|reflexivity].
    subst t. rewrite string_ltb_irrefl in H. discriminate.
Qed.

(** *** FilterDatasets.py: sorted *)

Lemma insert_sorted_val (x : value) (l l' : list value) :
  insert_sorted x l = Val l' ->
  Permutation l' (x :: l) /\
  (StronglySorted value_le l -> StronglySorted value_le l').
Proof.
  revert l'. induction l as [|y rest IH]; intros l'; simpl.
  - intro H. injection H as H. subst l'. split; [apply Permutation_refl|].
    intros _. constructor; constructor.
  - destruct (value_ltb y x) as [[|]| |] eqn:Ec; simpl; try discriminate.
    + destruct (insert_sorted x rest) as [rest'| |] eqn:Ei; simpl; try discriminate.
      intro H. injection H as H. subst l'.
      destruct (IH rest' eq_refl) as [Hp Hs]. split.
      * eapply perm_trans; [apply perm_skip; exact Hp | apply perm_swap].
      * intro Hsorted. inversion Hsorted as [|? ? Hs' Hall]; subst.
        constructor; [apply Hs; exact Hs'|].
        rewrite Forall_forall in *. intros z Hz.
        apply (Permutation_in _ Hp) in Hz. destruct Hz as [Hz|Hz].
        -- subst z. unfold value_le. apply value_ltb_asym. exact Ec.
        -- apply Hall. exact Hz.
    + intro H. injection H as H. subst l'. split; [apply Permutation_refl|].
      intro Hsorted. constructor; [exact Hsorted|].
      inversion Hsorted as [|? ? Hs' Hall]; subst.
      constructor; [exact Ec|].
      rewrite Forall_forall in *. intros z Hz. unfold value_le.
      eapply value_le_trans; [exact Ec | apply Hall; exact Hz].
Qed.

Lemma sorted_val (l l' : list value) :
  sorted l = Val l' -> Permutation l' l /\ StronglySorted value_le l'.
Proof.
  revert l'. induction l as [|x rest IH]; intros l'; simpl.
  - intro H. injection H as H. subst l'. split; constructor.
  - destruct (sorted rest) as [rest'| |] eqn:Es; simpl; try discriminate.
    intro H. destruct (IH rest' eq_refl) as [Hp Hs].
    destruct (insert_sorted_val _ _ H) as [Hp' Hs']. split.
    + eapply perm_trans; [exact Hp' | apply perm_skip; exact Hp].
    + apply Hs'. exact Hs.
Qed.

Lemma pairwise_distinct_of_keys (l : list value) :
  distinct_keys l -> pairwise_distinct l.
Proof.
  intro Hd. split; [apply distinct_keys_NoDup; exact Hd|].
  induction l as [|k rest IH]; [intros a b []|].
  destruct Hd as [Hk Hd]. intros a b [Ha|Ha] [Hb|Hb] Hne.
  - congruence.
  - subst a. apply Hk. exact Hb.
  - subst b. rewrite value_eqb_sym. apply Hk. exact Ha.
  - apply IH; assumption.
Qed.

Lemma pairwise_distinct_perm (l l' : list value) :
  Permutation l l' -> pairwise_distinct l -> pairwise_distinct l'.
Proof.
  intros Hp [Hnd Hpair]. split; [eapply Permutation_NoDup; eauto|].
  intros a b Ha Hb.
  apply Hpair; apply (Permutation_in _ (Permutation_sym Hp)); assumption.
Qed.

Lemma strictly_sorted (l : list value) :
  StronglySorted value_le l -> pairwise_distinct l -> StronglySorted value_lt l.
Proof.
  intros Hs [Hnd Hpair]. induction Hs as [|a rest Hs IH Hall]; constructor.
  - inversion Hnd; subst. apply IH; [assumption|].
    intros x y Hx Hy. apply Hpair; right; assumption.
  - rewrite Forall_forall in *. intros b Hb.
    apply value_le_lt; [apply Hall; exact Hb|].
    apply Hpair; [left; reflexivity | right; exact Hb|].
    intro Heq. subst b. inversion Hnd; subst. contradiction.
Qed.

(** A list has at most one strictly ascending arrangement. *)
Lemma strictly_sorted_unique (l1 l2 : list value) :
  StronglySorted value_lt l1 -> StronglySorted value_lt l2 ->
  Permutation l1 l2 -> l1 = l2.
Proof.
  intros H1. revert l2. induction H1 as [|a l1 Hs1 IH Hall1]; intros l2 H2 Hp.
  - apply Permutation_nil in Hp. subst l2. reflexivity.
  - destruct H2 as [|b l2 Hs2 Hall2].
    + apply Permutation_sym, Permutation_nil in Hp. discriminate.
    + rewrite Forall_forall in Hall1, Hall2.
      assert (Hab : a = b).
      { assert (Ha : In a (b :: l2)) by (apply (Permutation_in _ Hp); left; reflexivity).
        assert (Hb : In b (a :: l1))
          by (apply (Permutation_in _ (Permutation_sym Hp)); left; reflexivity).
        destruct Ha as [Ha|Ha]; [symmetry; exact Ha|].
        destruct Hb as [Hb|Hb]; [exact Hb|].
        exfalso. apply (@value_ltb_irrefl a).
        apply (@value_ltb_trans a b a); [apply Hall1; exact Hb | apply Hall2; exact Ha]. }
      subst b. f_equal. apply IH; [exact Hs2|].
      eapply Permutation_cons_inv. exact Hp.
Qed.

Lemma value_ltb_same_kind (x y : value) :
  (is_text x = true /\ is_text y = true) \/
  (is_number x = true /\ is_number y = true) ->
  exists c, value_ltb x y = Val c.
Proof.
  destruct x, y; simpl; intros [[H1 H2]|[H1 H2]]; try discriminate; eauto.
Qed.

Lemma value_ltb_other_kind (x y : value) :
  (is_text x = true /\ is_text y = false) \/
  (is_number x = true /\ is_number y = false) ->
  value_ltb x y = Raise TypeError.
Proof.
  destruct x, y; simpl; intros [[H1 H2]|[H1 H2]]; try discriminate; reflexivity.
Qed.

Lemma insert_sorted_same_kind (x : value) (l : list value) :
  same_kind (x :: l) -> exists l', insert_sorted x l = Val l'.
Proof.
  intro Hk. induction l as [|y rest IH]; simpl; [eauto|].
  assert (Hxy : exists c, value_ltb y x = Val c).
  { apply value_ltb_same_kind. destruct Hk as [Hk|Hk].
    - left. split; apply Hk; simpl; auto.
    - right. split; apply Hk; simpl; auto. }
  destruct Hxy as [[|] Hc]; rewrite Hc; simpl; [|eauto].
  destruct IH as [rest' Hr].
  - destruct Hk as [Hk|Hk]; [left|right]; intros v [Hv|Hv]; apply Hk; simpl; auto.
  - rewrite Hr. simpl. eauto.
Qed.

(** [sorted] on values none of which is [None]: it succeeds on lists of one
    kind and raises [TypeError] on every other list. *)
Lemma sorted_cases (l : list value) :
  (forall v, In v l -> v <> VNone) ->
  (same_kind l /\ exists l', sorted l = Val l') \/
  (~ same_kind l /\ sorted l = Raise TypeError).
Proof.
  induction l as [|x rest IH]; intro Hnn; simpl.
  - left. split; [left; intros v []|eauto].
  - destruct IH as [[Hk [rest' Hs]]|[Hnk Hr]].
    + intros v Hv. apply Hnn. right. exact Hv.
    + rewrite Hs. simpl.
      destruct (sorted_val _ Hs) as [Hp _].
      assert (Hx : is_text x = true \/ is_number x = true).
      { specialize (Hnn x (or_introl eq_refl)). destruct x; simpl; auto. }
      destruct rest' as [|y rest''].
      * apply Permutation_nil in Hp. subst rest.
        left. split; [|simpl; eauto].
        destruct Hx as [Hx|Hx]; [left|right]; intros v [Hv|[]]; subst v; exact Hx.
      * assert (Hy : In y rest) by (apply (Permutation_in _ Hp); left; reflexivity).
        assert (Hdec : same_kind (x :: rest) \/
                       ((is_text y = true /\ is_text x = false) \/
                        (is_number y = true /\ is_number x = false))).
        { destruct Hk as [Hk|Hk].
          - destruct (is_text x) eqn:Ex.
            + left. left. intros v [Hv|Hv]; [subst v; exact Ex | apply Hk; exact Hv].
            + right. left. split; [apply Hk; exact Hy | reflexivity].
          - destruct (is_number x) eqn:Ex.
            + left. right. intros v [Hv|Hv]; [subst v; exact Ex | apply Hk; exact Hv].
            + right. right. split; [apply Hk; exact Hy | reflexivity]. }
        destruct Hdec as [Hsame|Hdiff].
        -- left. split; [exact Hsame|].
           apply insert_sorted_same_kind.
           destruct Hsame as [Hsame|Hsame]; [left|right]; intros v [Hv|Hv];
             try (subst v; apply Hsame; left; reflexivity);
             apply Hsame; right; apply (Permutation_in _ Hp); exact Hv.
        -- right. split.
           ++ intros [Hsame|Hsame].
              ** destruct Hdiff as [[_ Hd]|[Hd _]].
                 --- rewrite (Hsame x (or_introl eq_refl)) in Hd. discriminate.
                 --- specialize (Hsame y (or_intror Hy)).
                     destruct y; simpl in *; discriminate.
              ** destruct Hdiff as [[Hd _]|[_ Hd]].
                 --- specialize (Hsame y (or_intror Hy)).
                     destruct y; simpl in *; discriminate.
                 --- rewrite (Hsame x (or_introl eq_refl)) in Hd. discriminate.
           ++ simpl. rewrite (value_ltb_other_kind y x Hdiff). reflexivity.
    + right. split.
      * intros [Hsame|Hsame]; apply Hnk; [left|right]; intros v Hv;
          apply Hsame; right; exact Hv.
      * rewrite Hr. reflexivity.
Qed.

Lemma same_kind_perm (l l' : list value) :
  Permutation l l' -> same_kind l -> same_kind l'.
Proof.
  intros Hp [Hk|Hk]; [left|right]; intros v Hv; apply Hk;
    apply (Permutation_in _ (Permutation_sym Hp)); exact Hv.
Qed.

(** X15: the order in which a set is walked does not matter.  On values
    that are pairwise different and none of which is [None] (the members of
    a set of truthy values), [sorted] gives the same outcome, the same list
    or the same [TypeError], for every arrangement of its input. *)
Theorem sorted_ignores_input_order (l l' : list value) :
  Permutation l l' ->
  pairwise_distinct l ->
  (forall v, In v l -> v <> VNone) ->
  sorted l = sorted l'.
Proof.
  intros Hp Hd Hnn.
  assert (Hnn' : forall v, In v l' -> v <> VNone).
  { intros v Hv. apply Hnn. apply (Permutation_in _ (Permutation_sym Hp)). exact Hv. }
  destruct (sorted_cases l Hnn) as [[Hk [s Hs]]|[Hnk Hr]];
    destruct (sorted_cases l' Hnn') as [[Hk' [s' Hs']]|[Hnk' Hr']].
  - rewrite Hs, Hs'. f_equal.
    destruct (sorted_val _ Hs) as [Hps Hss].
    destruct (sorted_val _ Hs') as [Hps' Hss'].
    apply strictly_sorted_unique.
    + apply strictly_sorted; [exact Hss|].
      apply (pairwise_distinct_perm (Permutation_sym Hps)). exact Hd.
    + apply strictly_sorted; [exact Hss'|].
      apply (pairwise_distinct_perm (Permutation_sym Hps')).
      apply (pairwise_distinct_perm Hp). exact Hd.
    + eapply perm_trans; [exact Hps|].
      eapply perm_trans; [exact Hp | apply Permutation_sym; exact Hps'].
  - exfalso. apply Hnk'. apply (same_kind_perm Hp). exact Hk.
  - exfalso. apply Hnk. apply (same_kind_perm (Permutation_sym Hp)). exact Hk'.
  - rewrite Hr, Hr'. reflexivity.
Qed.

(** *** FilterDatasets.py: the two sets *)

Lemma set_mem_spec (v : value) (s : list value) :
  set_mem v s = true <-> exists x, In x s /\ value_eqb x v = true.
Proof. unfold set_mem. apply existsb_exists. Qed.

Lemma set_mem_false (v : value) (s : list value) :
  set_mem v s = false <-> forall x, In x s -> value_eqb x v = false.
Proof.
  split.
  - intros H x Hx. destruct (value_eqb x v) eqn:E; [|reflexivity].
    assert (set_mem v s = true) by (apply set_mem_spec; eauto). congruence.
  - intro H. destruct (set_mem v s) eqn:E; [|reflexivity].
    apply set_mem_spec in E. destruct E as [x [Hx Hxv]].
    rewrite (H x Hx) in Hxv. discriminate.
Qed.

Lemma distinct_keys_snoc (s : list value) (v : value) :
  distinct_keys s -> (forall x, In x s -> value_eqb x v = false) ->
  distinct_keys (s ++ [v]).
Proof.
  induction s as [|k s IH]; simpl; intros Hd Hv.
  - split; [intros k' []|exact I].
  - destruct Hd as [Hk Hd]. split.
    + intros k' Hk'. apply in_app_or in Hk'. destruct Hk' as [Hk'|[Hk'|[]]].
      * apply Hk. exact Hk'.
      * subst k'. apply Hv. left. reflexivity.
    + apply IH; [exact Hd|]. intros x Hx. apply Hv. right. exact Hx.
Qed.

Lemma set_add_spec (s : list value) (v : value) :
  (distinct_keys s -> distinct_keys (set_add s v)) /\
  (forall x, In x (set_add s v) -> In x s \/ x = v) /\
  (forall x, In x s -> In x (set_add s v)) /\
  (exists x, In x (set_add s v) /\ value_eqb x v = true).
Proof.
  unfold set_add. destruct (set_mem v s) eqn:E.
  - repeat split; auto. apply set_mem_spec. exact E.
  - split; [|split; [|split]].
    + intro Hd. apply distinct_keys_snoc; [exact Hd|].
      apply set_mem_false. exact E.
    + intros x Hx. apply in_app_or in Hx. destruct Hx as [Hx|[Hx|[]]]; auto.
    + intros x Hx. apply in_or_app. left. exact Hx.
    + exists v. split; [apply in_or_app; right; left; reflexivity|].
      apply value_eqb_refl.
Qed.

Lemma collect_raises (field : value) (l : list element) (acc : list value) :
  In EOther l -> collect field l acc = Raise AttributeError.
Proof.
  revert acc. induction l as [|ds rest IH]; intros acc; [intros []|].
  intros [H|H]; simpl.
  - subst ds. reflexivity.
  - destruct ds as [r|]; [|reflexivity]. simpl.
    destruct (truthy (dict_get r field)); apply IH; exact H.
Qed.

Lemma collect_spec (field : value) (l : list element) (acc : list value) :
  (forall ds, In ds l -> exists r, ds = EDict r) ->
  exists s,
    collect field l acc = Val s /\
    (distinct_keys acc -> distinct_keys s) /\
    (forall x, In x s ->
       In x acc \/
       exists r, In (EDict r) l /\ dict_get r field = x /\ truthy x = true) /\
    (forall x, In x acc -> In x s) /\
    (forall r, In (EDict r) l -> truthy (dict_get r field) = true ->
       exists x, In x s /\ value_eqb x (dict_get r field) = true).
Proof.
  revert acc. induction l as [|ds rest IH]; intros acc Hall; simpl.
  - exists acc. split; [reflexivity|]. split; [auto|]. split; [auto|].
    split; [auto|]. intros r [].
  - destruct (Hall ds (or_introl eq_refl)) as [r Hr]. subst ds. simpl.
    assert (Hrest : forall ds, In ds rest -> exists r, ds = EDict r).
    { intros ds Hds. apply Hall. right. exact Hds. }
    destruct (truthy (dict_get r field)) eqn:Et.
    + destruct (IH (set_add acc (dict_get r field)) Hrest)
        as [s [Hs [Hd [Hfrom [Hkeep Hto]]]]].
      destruct (set_add_spec acc (dict_get r field)) as [Ad [Afrom [Akeep [x0 [Ax0 Ae]]]]].
      exists s. split; [exact Hs|]. split; [auto|]. split; [|split].
      * intros x Hx. destruct (Hfrom x Hx) as [Hacc|[r' [Hr' Hx']]].
        -- destruct (Afrom x Hacc) as [H|H]; [left; exact H|].
           right. exists r. subst x. split; [left; reflexivity | auto].
        -- right. exists r'. split; [right; exact Hr' | exact Hx'].
      * intros x Hx. apply Hkeep. apply Akeep. exact Hx.
      * intros r' [Hr'|Hr'] Ht'.
        -- injection Hr' as Hr'. subst r'. exists x0. split; [apply Hkeep; exact Ax0 | exact Ae].
        -- apply Hto; assumption.
    + destruct (IH acc Hrest) as [s [Hs [Hd [Hfrom [Hkeep Hto]]]]].
      exists s. split; [exact Hs|]. split; [exact Hd|]. split; [|split].
      * intros x Hx. destruct (Hfrom x Hx) as [Hacc|[r' [Hr' Hx']]]; [left; exact Hacc|].
        right. exists r'. split; [right; exact Hr' | exact Hx'].
      * exact Hkeep.
      * intros r' [Hr'|Hr'] Ht'.
        -- injection Hr' as Hr'. subst r'. congruence.
        -- apply Hto; assumption.
Qed.

Lemma iterable_dec (raw : json_arg) :
  iterable raw \/
  (~ iterable raw /\
   (raw = JAbsent \/ (exists l, raw = JList l /\ In EOther l) \/
    exists c s, raw = JText (String c s))).
Proof.
  destruct raw as [|l|[|c s]]; simpl.
  - right. split; [tauto | auto].
  - induction l as [|ds rest IH].
    + left. intros ds [].
    + destruct ds as [r|].
      * destruct IH as [IH|[Hn [H|[[l' [Hl' Hin]]|[c [s H]]]]]]; try discriminate.
        -- left. intros ds [Hds|Hds]; [subst ds; eauto | apply IH; exact Hds].
        -- injection Hl' as Hl'. subst l'. right. split.
           ++ intro H. destruct (H EOther (or_intror Hin)) as [r' Hr']. discriminate.
           ++ right. left. exists (EDict r :: rest). split; [reflexivity | right; exact Hin].
      * right. split.
        -- intro H. destruct (H EOther (or_introl eq_refl)) as [r' Hr']. discriminate.
        -- right. left. exists (EOther :: rest). split; [reflexivity | left; reflexivity].
  - left. reflexivity.
  - right. split; [discriminate|]. right. right. eauto.
Qed.

(** The set comprehension: on an iterable argument it gives the set of the
    truthy values found under [field]; on any other argument it raises. *)
Lemma name_set_cases (field : value) (raw : json_arg) :
  (iterable raw /\
   exists s,
     name_set field raw = Val s /\ distinct_keys s /\
     (forall x, In x s -> named field raw x) /\
     (forall x, named field raw x -> exists x', In x' s /\ value_eqb x' x = true)) \/
  (~ iterable raw /\
   (name_set field raw = Raise TypeError \/
    name_set field raw = Raise AttributeError)).
Proof.
  destruct (iterable_dec raw) as [Hit|[Hn Hwhy]].
  - left. split; [exact Hit|]. destruct raw as [|l|s]; simpl in *.
    + destruct Hit.
    + destruct (collect_spec field l [] Hit) as [s [Hs [Hd [Hfrom [_ Hto]]]]].
      exists s. split; [exact Hs|]. split; [apply Hd; exact I|]. split.
      * intros x Hx. destruct (Hfrom x Hx) as [[]|[r [Hr [Hg Ht]]]].
        exists l, r. auto.
      * intros x [l' [r [Hl' [Hr [Hg Ht]]]]]. injection Hl' as Hl'. subst l'.
        rewrite <- Hg in Ht. destruct (Hto r Hr Ht) as [x' [Hx' He]].
        exists x'. rewrite <- Hg. auto.
    + subst s. exists []. split; [reflexivity|]. split; [exact I|]. split.
      * intros x [].
      * intros x [l [r [Hl _]]]. discriminate.
  - right. split; [exact Hn|].
    destruct Hwhy as [H|[[l [Hl Hin]]|[c [s H]]]]; subst raw; simpl; auto.
    right. apply collect_raises. exact Hin.
Qed.

Lemma distinct_keys_filter (f : value -> bool) (l : list value) :
  distinct_keys l -> distinct_keys (filter f l).
Proof.
  induction l as [|k rest IH]; simpl; [auto|]. intros [Hk Hd].
  destruct (f k); simpl; [|apply IH; exact Hd].
  split; [|apply IH; exact Hd].
  intros k' Hk'. apply Hk. apply filter_In in Hk'. apply Hk'.
Qed.

Lemma named_truthy (field : value) (raw : json_arg) (v : value) :
  named field raw v -> v <> VNone.
Proof.
  intros [l [r [_ [_ [_ Ht]]]]] Hv. subst v. discriminate.
Qed.

Lemma value_eqb_kind (a b : value) :
  value_eqb a b = true -> is_text a = is_text b /\ is_number a = is_number b.
Proof.
  destruct a, b; simpl; try discriminate; auto.
Qed.

(** *** FilterDatasets.py: main *)

Lemma main_results (a : filter_args) (res : command_results) :
  FilterDatasets.main a = Results res ->
  exists sa se,
    name_set (VStr "dataset_name") (all_datasets_json a) = Val sa /\
    name_set (exclusion_field a) (excluded_datasets_json a) = Val se /\
    sorted (set_difference sa se) = Val (outputs res) /\
    found res = List.length (outputs res) /\
    outputs_prefix res = "FinalDatasetList"%string.
Proof.
  unfold FilterDatasets.main, filter_datasets. fold (exclusion_field a).
  destruct (name_set (VStr "dataset_name") (all_datasets_json a)) as [sa| |] eqn:Ea;
    simpl; try discriminate.
  destruct (name_set (exclusion_field a) (excluded_datasets_json a)) as [se| |] eqn:Ee;
    simpl; try discriminate.
  destruct (sorted (set_difference sa se)) as [final| |] eqn:Es; simpl;
    try discriminate.
  intro H. injection H as H. subst res. simpl. exists sa, se. repeat split.
  exact Es.
Qed.

(** The members of the difference are the kept names. *)
Lemma difference_kept (a : filter_args) (sa se : list value) :
  name_set (VStr "dataset_name") (all_datasets_json a) = Val sa ->
  name_set (exclusion_field a) (excluded_datasets_json a) = Val se ->
  distinct_keys (set_difference sa se) /\
  (forall v, In v (set_difference sa se) -> kept a v) /\
  (forall v, kept a v ->
     exists v', In v' (set_difference sa se) /\ value_eqb v' v = true).
Proof.
  intros Ha He.
  destruct (name_set_cases (VStr "dataset_name") (all_datasets_json a))
    as [[_ [sa' [Ha' [Hda [Hfa Hta]]]]]|[_ [H|H]]]; try congruence.
  destruct (name_set_cases (exclusion_field a) (excluded_datasets_json a))
    as [[_ [se' [He' [Hde [Hfe Hte]]]]]|[_ [H|H]]]; try congruence.
  assert (sa' = sa) by congruence. assert (se' = se) by congruence. subst sa' se'.
  split; [apply distinct_keys_filter; exact Hda|]. split.
  - intros v Hv. apply filter_In in Hv. destruct Hv as [Hv Hm].
    apply negb_true_iff in Hm. split; [apply Hfa; exact Hv|].
    intros w Hw. destruct (Hte w Hw) as [w' [Hw' Hww]].
    destruct (value_eqb w v) eqn:E; [|reflexivity].
    pose proof (value_eqb_trans _ _ _ Hww E) as Hc.
    rewrite (proj1 (set_mem_false v se) Hm w' Hw') in Hc. discriminate.
  - intros v [Hn Hex]. destruct (Hta v Hn) as [v1 [Hv1 Hv1v]].
    exists v1. split; [|exact Hv1v]. apply filter_In. split; [exact Hv1|].
    apply negb_true_iff. apply set_mem_false. intros x Hx.
    destruct (value_eqb x v1) eqn:E; [|reflexivity].
    pose proof (value_eqb_trans _ _ _ E Hv1v) as Hc.
    rewrite (Hex x (Hfe x Hx)) in Hc. discriminate.
Qed.

(** X16: the result is exactly the set difference.  Every name in the
    outputs is a truthy [dataset_name] of the full list that no entry of the
    exclusion list holds under the exclusion field; and every such name is
    in the outputs (as a value equal to it). *)
Theorem filter_is_exact_difference (a : filter_args) (res : command_results) :
  FilterDatasets.main a = Results res ->
  (forall v, In v (outputs res) -> kept a v) /\
  (forall v, kept a v ->
     exists v', In v' (outputs res) /\ value_eqb v' v = true).
Proof.
  intro H. destruct (main_results _ H) as [sa [se [Ha [He [Hs _]]]]].
  destruct (difference_kept _ Ha He) as [_ [Hfrom Hto]].
  destruct (sorted_val _ Hs) as [Hp _]. split.
  - intros v Hv. apply Hfrom. apply (Permutation_in _ Hp). exact Hv.
  - intros v Hv. destruct (Hto v Hv) as [v' [Hv' He']]. exists v'.
    split; [|exact He']. apply (Permutation_in _ (Permutation_sym Hp)). exact Hv'.
Qed.

(** X17: the result is in strictly ascending order, so it holds no name
    twice (not even as two equal values), and the count in the readable
    output is its length. *)
Theorem filter_output_sorted (a : filter_args) (res : command_results) :
  FilterDatasets.main a = Results res ->
  StronglySorted value_lt (outputs res) /\
  pairwise_distinct (outputs res) /\
  found res = List.length (outputs res) /\
  outputs_prefix res = "FinalDatasetList"%string.
Proof.
  intro H. destruct (main_results _ H) as [sa [se [Ha [He [Hs [Hf Hpre]]]]]].
  destruct (difference_kept _ Ha He) as [Hd _].
  destruct (sorted_val _ Hs) as [Hp Hsorted].
  assert (Hpd : pairwise_distinct (outputs res)).
  { apply (pairwise_distinct_perm (Permutation_sym Hp)).
    apply pairwise_distinct_of_keys. exact Hd. }
  split; [apply strictly_sorted; assumption|]. auto.
Qed.

(** X18: exactly when the filter succeeds.  [main] returns results if and
    only if both arguments can be walked (a list of dicts, or the empty
    text) and the kept names are all texts or all numbers.  Otherwise it
    ends in [return_error], with a [TypeError] (an absent argument, names of
    mixed kinds) or an [AttributeError] (an element that is not a dict, a
    non-empty text); nothing leaves through the [except] clause. *)
Theorem filter_succeeds_iff (a : filter_args) :
  ((exists res, FilterDatasets.main a = Results res) <->
   iterable (all_datasets_json a) /\ iterable (excluded_datasets_json a) /\
   ((forall v, kept a v -> is_text v = true) \/
    (forall v, kept a v -> is_number v = true))) /\
  (forall e, FilterDatasets.main a = Failed_to_filter_datasets e ->
     e = TypeError \/ e = AttributeError) /\
  (forall m, FilterDatasets.main a <> Exits m).
Proof.
  unfold FilterDatasets.main, filter_datasets. fold (exclusion_field a).
  destruct (name_set_cases (VStr "dataset_name") (all_datasets_json a))
    as [[Hia [sa [Ha [Hda [Hfa Hta]]]]]|[Hna Hra]].
  - rewrite Ha. cbn [obind].
    destruct (name_set_cases (exclusion_field a) (excluded_datasets_json a))
      as [[Hie [se [He [Hde [Hfe Hte]]]]]|[Hne Hre]].
    + rewrite He. cbn [obind].
      destruct (difference_kept _ Ha He) as [Hd [Hfrom Hto]].
      assert (Hnn : forall v, In v (set_difference sa se) -> v <> VNone).
      { intros v Hv. destruct (Hfrom v Hv) as [Hn _].
        exact (named_truthy Hn). }
      assert (Hkind : same_kind (set_difference sa se) <->
                ((forall v, kept a v -> is_text v = true) \/
                 (forall v, kept a v -> is_number v = true))).
      { split; intros [Hk|Hk]; [left|right|left|right].
        - intros v Hv. destruct (Hto v Hv) as [v' [Hv' Hev]].
          destruct (value_eqb_kind _ _ Hev) as [Ht _]. rewrite <- Ht. apply Hk. exact Hv'.
        - intros v Hv. destruct (Hto v Hv) as [v' [Hv' Hev]].
          destruct (value_eqb_kind _ _ Hev) as [_ Ht]. rewrite <- Ht. apply Hk. exact Hv'.
        - intros v Hv. apply Hk. apply Hfrom. exact Hv.
        - intros v Hv. apply Hk. apply Hfrom. exact Hv. }
      destruct (sorted_cases _ Hnn) as [[Hk [final Hs]]|[Hnk Hr]].
      * rewrite Hs. cbn [obind]. split; [|split; discriminate].
        split; [intros _|eauto]. split; [exact Hia|]. split; [exact Hie|].
        apply Hkind. exact Hk.
      * rewrite Hr. cbn [obind]. split; [|split].
        -- split; [intros [res H]; discriminate|].
           intros [_ [_ Hk]]. exfalso. apply Hnk. apply Hkind. exact Hk.
        -- intros e H. injection H as H. auto.
        -- discriminate.
    + split; [|split].
      * split.
        -- intros [res H]. destruct Hre as [Hre|Hre]; rewrite Hre in H; discriminate.
        -- intros [_ [Hie _]]. contradiction.
      * intros e H. destruct Hre as [Hre|Hre]; rewrite Hre in H;
          injection H as H; auto.
      * intros m H. destruct Hre as [Hre|Hre]; rewrite Hre in H; discriminate.
  - split; [|split].
    + split.
      * intros [res H]. destruct Hra as [Hra|Hra]; rewrite Hra in H; discriminate.
      * intros [Hia _]. contradiction.
    + intros e H. destruct Hra as [Hra|Hra]; rewrite Hra in H;
        injection H as H; auto.
    + intros m H. destruct Hra as [Hra|Hra]; rewrite Hra in H; discriminate.
Qed.

(** *** The further properties at concrete inputs *)

Import MoreSamples.

Example scenario_filter_datasets :
  FilterDatasets.main sample_filter_args = Results sample_filter_results.
Proof. vm_compute. reflexivity. Qed.

Lemma one_bad_record_aborts_batch_witness :
  exists x,
    timestamp_error (returning never_seen_rows) x /\
    (x = TypeError \/ x = ValueError \/ x = OverflowError \/ x = OSError) /\
    check_health_dataset (returning never_seen_rows) 1 [] =
      (Exit (Error_checking_health_dataset x), [] ++ [health_command 1]).
Proof.
  apply (proj2 (@one_bad_record_aborts_batch (returning never_seen_rows) 1 []
                  (XqlModel.note never_seen_rows) [] never_seen_rows
                  eq_refl eq_refl eq_refl)).
  intro H. apply Forall_forall with (x := nth 1 never_seen_rows []) in H.
  - destruct H as [q1 [q2 [s1 [s2 [H1 _]]]]]. vm_compute in H1. discriminate H1.
  - simpl. right. left. reflexivity.
Defined.

Lemma report_timestamps_agree_witness :
  exists q1 q2,
    last_seen_timestamp proxy_report = VNum q1 /\
    strftime_fromtimestamp fresh_platform q1 = Some (last_seen proxy_report) /\
    strftime_fromtimestamp fresh_platform q2 = Some (last_check proxy_report).
Proof.
  apply (@report_timestamps_agree fresh_platform 1 [] [health_command 1]
           sample_reports proxy_report).
  - vm_compute. reflexivity.
  - vm_compute. left. reflexivity.
Defined.

Lemma fresh_only_on_evidence_witness :
  exists e rest r0 data m,
    oracle fresh_platform freshness_command = ExecReturns (e :: rest) /\
    type_is_error e = false /\
    contents_results e = Val (r0 :: data) /\
    lookup r0 "minutes_old" = Some (VNum m) /\ m < 35 /\
    minutes_old fresh_verdict = VNum m /\
    last_update fresh_verdict = get r0 "latest_check" VNone.
Proof.
  apply (@fresh_only_on_evidence fresh_platform [] [freshness_command] fresh_verdict).
  - vm_compute. reflexivity.
  - reflexivity.
Defined.

Lemma main_outputs_only_when_fresh_witness :
  is_fresh (DatasetFreshness fresh_outputs) = true /\
  (exists m, minutes_old (DatasetFreshness fresh_outputs) = VNum m /\ m < 35) /\
  (exists t,
     py_float fresh_platform (get (args fresh_platform) "threshold_hours" (VNum 1)) = Val t /\
     [freshness_command; health_command 1] = [] ++ [freshness_command; health_command t] /\
     check_health_dataset fresh_platform t ([] ++ [freshness_command]) =
       (Val (SilentDataSources fresh_outputs), [freshness_command; health_command 1])) /\
  raw_response fresh_outputs = SilentDataSources fresh_outputs /\
  match readable_output fresh_outputs with
  | All_normal _ => SilentDataSources fresh_outputs = []
  | Found_silent n age table =>
      SilentDataSources fresh_outputs <> [] /\
      n = List.length (SilentDataSources fresh_outputs) /\
      age = minutes_old (DatasetFreshness fresh_outputs) /\
      table = map table_line (SilentDataSources fresh_outputs)
  end.
Proof.
  apply (@main_outputs_only_when_fresh fresh_platform []
           [freshness_command; health_command 1] fresh_outputs).
  vm_compute. reflexivity.
Defined.


Lemma trend_counts_witness :
  (List.length (trending_worse boundary_worse_result) +
   List.length (trending_better boundary_worse_result)
     <= dataset_count boundary_worse_result)%nat /\
  (dataset_count boundary_worse_result
     <= List.length (raw_trends boundary_worse_result))%nat /\
  (dataset_count boundary_worse_result = 0%nat <->
   raw_trends boundary_worse_result = []).
Proof.
  apply (@trend_counts (returning boundary_worse) None 24 []
           [trends_command None 24] boundary_worse_result).
  vm_compute. reflexivity.
Defined.

Lemma analysis_returns_iff_witness :
  exists x, analysis_error x /\
    get_health_trends (returning two_buckets) None 24 [] =
      (Exit (Error_analyzing_trends x), [] ++ [trends_command None 24]).
Proof.
  apply (proj2 (@analysis_returns_iff (returning two_buckets) None 24 []
                  (XqlModel.note two_buckets) [] two_buckets
                  eq_refl eq_refl eq_refl)).
  intro H. apply Forall_forall with (x := (VStr "a", two_buckets)) in H;
    [|vm_compute; left; reflexivity].
  destruct H as [Hshort|[_ [recent [older [[Hr Ho] Hzero]]]]].
  - simpl in Hshort. lia.
  - vm_compute in Hr. vm_compute in Ho.
    injection Hr as Hr. injection Ho as Ho. subst recent older.
    destruct (Hzero eq_refl) as [Hw _]. vm_compute in Hw. discriminate Hw.
Defined.

Lemma listed_change_at_least_half_witness :
  (forall t, In t (trending_worse boundary_worse_result) ->
     float_leb (Fin 50) (change_percent t) = true) /\
  (forall t, In t (trending_better boundary_worse_result) ->
     older_avg_silent t <> Inf false ->
     float_leb (change_percent t) (Fin (-50)) = true).
Proof.
  apply (@listed_change_at_least_half (returning boundary_worse) None 24 []
           [trends_command None 24] boundary_worse_result).
  - vm_compute. reflexivity.
  - intros x q Hx Hq. simpl in Hx.
    destruct Hx as [Hx|[Hx|[Hx|[Hx|[]]]]]; subst x; vm_compute in Hq;
      injection Hq as Hq; subst q; unfold Qle; simpl; lia.
Defined.

Lemma trends_main_report_witness :
  let r := HealthTrendsMain.HealthTrends boundary_worse_outputs in
  let text := HealthTrendsMain.readable_output boundary_worse_outputs in
  (exists hours,
     HealthTrendsMain.py_int sample_builtins
       (get (args (returning boundary_worse)) "timeframe_hours" (VNum 24)) = Val hours /\
     HealthTrendsMain.timeframe text = hours /\
     get_health_trends (returning boundary_worse)
       (HealthTrendsMain.filter_name sample_builtins
          (get (args (returning boundary_worse)) "dataset_name" VNone))
       hours [] = (Val r, [trends_command None 24]) /\
     [trends_command None 24] =
       [] ++ [trends_command
                (HealthTrendsMain.filter_name sample_builtins
                   (get (args (returning boundary_worse)) "dataset_name" VNone))
                hours]) /\
  HealthTrendsMain.analyzed text = dataset_count r /\
  (HealthTrendsMain.trending_worse_section text = None <-> trending_worse r = []) /\
  (HealthTrendsMain.trending_better_section text = None <-> trending_better r = []) /\
  (forall lines, HealthTrendsMain.trending_worse_section text = Some lines ->
     NoDup (map fst lines)) /\
  (forall lines, HealthTrendsMain.trending_better_section text = Some lines ->
     NoDup (map fst lines)) /\
  (forall lw lb n,
     HealthTrendsMain.trending_worse_section text = Some lw ->
     HealthTrendsMain.trending_better_section text = Some lb ->
     In n (map fst lw) -> ~ In n (map fst lb)).
Proof.
  apply (@trends_main_report sample_builtins (returning boundary_worse) []
           [trends_command None 24] boundary_worse_outputs).
  vm_compute. reflexivity.
Defined.

Lemma trends_main_raises_only_on_timeframe_witness :
  HealthTrendsMain.py_int sample_builtins
    (get (args misconfigured) "timeframe_hours" (VNum 24)) = Raise ValueError /\
  (ValueError = ValueError \/ ValueError = TypeError) /\ @nil command = [].
Proof.
  apply (@trends_main_raises_only_on_timeframe sample_builtins misconfigured
           [] [] ValueError).
  vm_compute. reflexivity.
Defined.

Lemma sorted_ignores_input_order_witness :
  sorted [VStr "proxy_logs"; VStr "fw_logs"; VStr "vpn_logs"] =
  sorted [VStr "vpn_logs"; VStr "proxy_logs"; VStr "fw_logs"].
Proof.
  apply sorted_ignores_input_order.
  - apply Permutation_sym.
    apply (Permutation_cons_app [VStr "proxy_logs"; VStr "fw_logs"] []).
    rewrite app_nil_r. apply Permutation_refl.
  - apply pairwise_distinct_of_keys. simpl.
    repeat split; intros k' Hk'; simpl in Hk';
      repeat (destruct Hk' as [Hk'|Hk']; [subst k'; reflexivity|]);
      destruct Hk'.
  - intros v Hv. simpl in Hv.
    destruct Hv as [Hv|[Hv|[Hv|[]]]]; subst v; discriminate.
Defined.

Lemma filter_is_exact_difference_witness :
  (forall v, In v (outputs sample_filter_results) -> kept sample_filter_args v) /\
  (forall v, kept sample_filter_args v ->
     exists v', In v' (outputs sample_filter_results) /\ value_eqb v' v = true).
Proof.
  apply (@filter_is_exact_difference sample_filter_args sample_filter_results).
  vm_compute. reflexivity.
Defined.

Lemma filter_output_sorted_witness :
  StronglySorted value_lt (outputs sample_filter_results) /\
  pairwise_distinct (outputs sample_filter_results) /\
  found sample_filter_results = List.length (outputs sample_filter_results) /\
  outputs_prefix sample_filter_results = "FinalDatasetList"%string.
Proof.
  apply (@filter_output_sorted sample_filter_args sample_filter_results).
  vm_compute. reflexivity.
Defined.
